(** * review-gpt: the request layer

    A shallow embedding of [pkg/request/request.go], of the older copy of the
    same file kept in the repository, and of the parts of [pkg/globals] they
    use (the model registry, the parameter ranges and the sentinel errors),
    followed by the properties of the validator, of the request builder and
    of the response interpretation. *)

From Stdlib Require Import ZArith NArith Ascii Bool List.
From Stdlib Require Import Floats.SpecFloat.
From stdpp Require Import gmap strings list fin_maps.

Local Open Scope Z_scope.

(** * Go values *)

(** ** float64

    IEEE 754 binary64 without NaN payloads: [spec_float] at precision 53 and
    maximal exponent 1024.  The comparisons [<] and [>] of Go are the IEEE
    ones: both are false as soon as an operand is NaN. *)
Module f64.

Definition t : Type := spec_float.

Definition prec : Z := 53.
Definition emax : Z := 1024.

(** The triples that denote a binary64 value. *)
Definition valid (x : t) : bool := valid_binary prec emax x.

(** Conversion of an integer constant, as in [var X float64 = -2]. *)
Definition of_Z (z : Z) : t := binary_normalize prec emax z 0 false.

Definition NaN : t := S754_nan.

Definition lt (x y : t) : bool := SFltb x y.
Definition gt (x y : t) : bool := SFltb y x.
Definition le (x y : t) : bool := SFleb x y.

Definition is_nan (x : t) : bool :=
    match x with S754_nan => true | _ => false end.

Definition is_inf (x : t) : bool :=
    match x with S754_infinity _ => true | _ => false end.

(** [lo <= x <= hi], the closed interval of the floating-point order. *)
Definition within (lo hi x : t) : bool := le lo x && le x hi.

End f64.

Abbreviation float64 := f64.t.

(** ** Strings are byte strings; [int] is a 64-bit integer on which the
    program only performs comparisons, so it is embedded as [Z]. *)
Abbreviation int := Z.

(** ** error

    The sentinels of [globals] are compared by identity in Go, so each one is
    a constructor of its own; the other constructors are the errors the
    standard library hands to this program. *)
Inductive error : Type :=
| ErrWrongModel
| ErrWrongTempRange
| ErrWrongToppRange
| ErrWrongPresenceRange
| ErrWrongFrequenceRange
| ErrWrongBestOfRange
| ErrWrongKey
| errorString (s : string)            (* errors.New(s) *)
| UnsupportedValueError (f : float64) (* json.Marshal on NaN or an infinity *)
| UnmarshalError (msg : string)       (* json.Unmarshal *)
| TransportError (msg : string).      (* http.Client.Do *)

(** The text [err.Error()] returns. *)
Definition Error (e : error) : string :=
match e with
| ErrWrongModel => "The model you entered was not correct"
| ErrWrongTempRange => "The temperature is not in the correct range (0 <= temp <= 1)"
| ErrWrongToppRange => "The top_p is not in the correct range (0 <= top_p <= 1)"
| ErrWrongPresenceRange =>
    "The presence penalty is not in the correct range (-2 <= presence <= 2)"
| ErrWrongFrequenceRange =>
    "The presence penalty is not in the correct range (-2 <= frequence <= 2)"
| ErrWrongBestOfRange =>
    "The best of variable is not in the correct range (1 <= best of  <= 20)"
| ErrWrongKey =>
    "The API Kry you entered is either wrong or hasn't been set up with a paid account of GPT. You must sign up for a paid account at Openai GPT."
| errorString s => s
| UnsupportedValueError f =>
    "json: unsupported value: " +:+
    match f with
    | S754_infinity false => "+Inf"
    | S754_infinity true => "-Inf"
    | _ => "NaN"
    end
| UnmarshalError msg => msg
| TransportError msg => msg
end.

Definition nl : string := String (ascii_of_N 10) EmptyString.

(** * The Go standard library, as far as the program uses it *)

(** ** unicode/utf8 *)
Module utf8.

Definition byte_in (lo hi : N) (c : ascii) : bool :=
  ((lo <=? N_of_ascii c) && (N_of_ascii c <=? hi))%N.

(** A continuation byte, [0x80..0xBF]. *)
Definition cont (c : ascii) : bool := byte_in 128 191 c.

(** The admissible (lead, second byte) pairs of three- and four-byte
    encodings: overlong forms, surrogates and values above U+10FFFF are
    excluded. *)
Definition lead3 (c c1 : ascii) : bool :=
  (byte_in 224 224 c && byte_in 160 191 c1)
  || ((byte_in 225 236 c || byte_in 238 239 c) && cont c1)
  || (byte_in 237 237 c && byte_in 128 159 c1).

Definition lead4 (c c1 : ascii) : bool :=
  (byte_in 240 240 c && byte_in 144 191 c1)
  || (byte_in 241 243 c && cont c1)
  || (byte_in 244 244 c && byte_in 128 143 c1).

(** Width of the well-formed encoding at the head of [String c s], and [0]
    when there is none, which is when [DecodeRuneInString] answers
    [(RuneError, 1)]. *)
Definition runeLen (c : ascii) (s : string) : nat :=
  if byte_in 0 127 c then 1%nat
  else match s with
       | String c1 s1 =>
           if byte_in 194 223 c && cont c1 then 2%nat
           else match s1 with
                | String c2 s2 =>
                    if lead3 c c1 && cont c2 then 3%nat
                    else match s2 with
                         | String c3 _ =>
                             if lead4 c c1 && cont c2 && cont c3 then 4%nat
                             else 0%nat
                         | EmptyString => 0%nat
                         end
                | EmptyString => 0%nat
                end
       | EmptyString => 0%nat
       end.

Definition low (bits : N) (c : ascii) : N := N.land (N_of_ascii c) (N.ones bits).

(** The code point of a well-formed encoding of width [n] at the head of
    [String c s]. *)
Definition runeValue (n : nat) (c : ascii) (s : string) : N :=
  match n, s with
  | 2%nat, String c1 _ => N.lor (N.shiftl (low 5 c) 6) (low 6 c1)
  | 3%nat, String c1 (String c2 _) =>
      N.lor (N.shiftl (low 4 c) 12) (N.lor (N.shiftl (low 6 c1) 6) (low 6 c2))
  | 4%nat, String c1 (String c2 (String c3 _)) =>
      N.lor (N.shiftl (low 3 c) 18)
        (N.lor (N.shiftl (low 6 c1) 12) (N.lor (N.shiftl (low 6 c2) 6) (low 6 c3)))
  | _, _ => N_of_ascii c
  end.

(** U+FFFD, the replacement character, encoded. *)
Definition replacement : string :=
  String (ascii_of_N 239) (String (ascii_of_N 191) (String (ascii_of_N 189) EmptyString)).

(** [coerce_from skip s] copies the [skip] bytes that remain of an
    encoding already accepted, then replaces every byte that starts no
    well-formed encoding by U+FFFD. *)
Fixpoint coerce_from (skip : nat) (s : string) : string :=
  match s with
  | EmptyString => EmptyString
  | String c s' =>
      match skip with
      | S k => String c (coerce_from k s')
      | O =>
          match runeLen c s' with
          | O => replacement +:+ coerce_from 0 s'
          | S k => String c (coerce_from k s')
          end
      end
  end.

(** The string a JSON text can carry for [s]: invalid bytes replaced. *)
Definition ToValidUTF8 (s : string) : string := coerce_from 0 s.

End utf8.

(** ** strconv.Quote, which is what the verb [%#v] prints for a string *)
Module strconv.

Definition hexdigit (n : N) : ascii :=
  if (n <? 10)%N then ascii_of_N (48 + n) else ascii_of_N (87 + n).

(** [width] lower-case hexadecimal digits of [n], most significant first. *)
Fixpoint hex (width : nat) (n : N) : string :=
  match width with
  | O => EmptyString
  | S w => hex w (N.shiftr n 4) +:+ String (hexdigit (N.land n 15)) EmptyString
  end.

Section Quote.

(** [strconv.IsPrint] above U+00FF is a table lookup in the Unicode tables
    of the Go release; the table is a parameter. *)
Variable isPrintTable : N -> bool.

Definition IsPrint (r : N) : bool :=
  if (r <=? 255)%N then
    ((32 <=? r) && (r <=? 126) || (161 <=? r) && (r <=? 255) && negb (r =? 173))%N
  else isPrintTable r.

Definition backslash : ascii := ascii_of_N 92.
Definition dquote : ascii := ascii_of_N 34.

Definition esc (c : ascii) : string := String backslash (String c EmptyString).

(** [appendEscapedRune] for the rune [r] whose encoding is [enc]. *)
Definition escapedRune (r : N) (enc : string) : string :=
  if ((r =? 34) || (r =? 92))%N then esc (ascii_of_N r)
  else if IsPrint r then enc
  else if (r =? 7)%N then esc "a"
  else if (r =? 8)%N then esc "b"
  else if (r =? 12)%N then esc "f"
  else if (r =? 10)%N then esc "n"
  else if (r =? 13)%N then esc "r"
  else if (r =? 9)%N then esc "t"
  else if (r =? 11)%N then esc "v"
  else if ((r <? 32) || (r =? 127))%N then esc "x" +:+ hex 2 r
  else if (r <? 65536)%N then esc "u" +:+ hex 4 r
  else esc "U" +:+ hex 8 r.

Fixpoint prefix (n : nat) (s : string) : string :=
  match n, s with
  | S k, String c s' => String c (prefix k s')
  | _, _ => EmptyString
  end.

(** The loop of [appendQuotedWith]; [skip] counts the bytes of the rune
    just handled that are still to be stepped over. *)
Fixpoint quote_from (skip : nat) (s : string) : string :=
  match s with
  | EmptyString => EmptyString
  | String c s' =>
      match skip with
      | S k => quote_from k s'
      | O =>
          match utf8.runeLen c s' with
          | O => esc "x" +:+ hex 2 (N_of_ascii c) +:+ quote_from 0 s'
          | S k => escapedRune (utf8.runeValue (S k) c s') (prefix (S k) s) +:+ quote_from k s'
          end
      end
  end.

Definition Quote (s : string) : string :=
  String dquote (quote_from 0 s) +:+ String dquote EmptyString.

End Quote.
End strconv.

(** ** encoding/json

    A JSON text is kept as the tree of values it denotes; the bytes of the
    wire encoding (escapes, white space) are not represented.  A string node
    holds the string a reader of the text gets, a number node the Go value
    whose literal the text holds. *)
Module json.

#[local] Unset Elimination Schemes.
Inductive value : Type :=
| Null
| Bool (b : bool)
| Int (z : int)
| Float (f : float64)
| Str (s : string)
| Array (elems : list value)
| Object (members : list (string * value)).
#[local] Set Elimination Schemes.

(** *** Marshal *)

(** Invalid UTF-8 in a Go string is coerced to U+FFFD by the encoder. *)
Definition encString (s : string) : value := Str (utf8.ToValidUTF8 s).

Definition encInt (z : int) : value := Int z.

(** NaN and the infinities have no JSON literal. *)
Definition encFloat (f : float64) : error + value :=
  if f64.is_nan f || f64.is_inf f then inl (UnsupportedValueError f) else inr (Float f).

(** *** Unmarshal

    A value that does not fit the type of its target makes [Unmarshal]
    return an [*UnmarshalTypeError].  The text of that error is not
    modelled: a decoding gives the value now in the target, or is a
    mismatch. *)
Inductive decoding (T : Type) : Type :=
| Decoded (x : T)
| Mismatch.
Arguments Decoded {T} x.
Arguments Mismatch {T}.

Definition bindD {A B : Type} (m : decoding A) (k : A -> decoding B) : decoding B :=
  match m with
  | Decoded a => k a
  | Mismatch => Mismatch
  end.

(** [null] leaves a string, a number or a struct as it is. *)
Definition decString (old : string) (v : value) : decoding string :=
  match v with
  | Str s => Decoded s
  | Null => Decoded old
  | _ => Mismatch
  end.

(** The integer a finite float denotes, when it denotes one. *)
Definition integral (f : float64) : option Z :=
  match f with
  | S754_zero _ => Some 0
  | S754_finite s m e =>
      let a := if 0 <=? e then Some (Z.pos m * 2 ^ e)
               else if Z.pos m mod 2 ^ (- e) =? 0 then Some (Z.pos m / 2 ^ (- e)) else None in
      option_map (fun a => if s then - a else a) a
  | _ => None
  end.

(** The values of a Go [int], which has 64 bits. *)
Definition inInt64 (z : Z) : bool := (- 2 ^ 63 <=? z) && (z <? 2 ^ 63).

(** An [int] field takes an integer literal within 64 bits; the literal of a
    float is one exactly when the float is integral and below [1e21] in
    magnitude, which the 64-bit bound subsumes. *)
Definition decInt (old : int) (v : value) : decoding int :=
  match v with
  | Int z => if inInt64 z then Decoded z else Mismatch
  | Float f =>
      match integral f with
      | Some z => if inInt64 z then Decoded z else Mismatch
      | None => Mismatch
      end
  | Null => Decoded old
  | _ => Mismatch
  end.

(** A [float64] field takes any number literal, correctly rounded, unless
    it rounds to an infinity. *)
Definition decFloat (old : float64) (v : value) : decoding float64 :=
  match v with
  | Float f => Decoded f
  | Int z => if f64.is_inf (f64.of_Z z) then Mismatch else Decoded (f64.of_Z z)
  | Null => Decoded old
  | _ => Mismatch
  end.

(** Key folding: ASCII letters to upper case, and the two letters outside
    ASCII whose case orbit meets ASCII, U+212A (Kelvin sign) to [K] and
    U+017F (long s) to [S].  Every other byte above 127 is kept: it folds
    to something outside ASCII and so never meets the name of a field of
    this program. *)
Fixpoint foldName (s : string) : string :=
  match s with
  | EmptyString => EmptyString
  | String c s' =>
      let b := N_of_ascii c in
      if ((97 <=? b) && (b <=? 122))%N then String (ascii_of_N (b - 32)) (foldName s')
      else match s' with
           | String c1 s1 =>
               if ((b =? 197) && (N_of_ascii c1 =? 191))%N then String "S" (foldName s1)
               else match s1 with
                    | String c2 s2 =>
                        if ((b =? 226) && (N_of_ascii c1 =? 132) && (N_of_ascii c2 =? 170))%N
                        then String "K" (foldName s2)
                        else String c (foldName s')
                    | EmptyString => String c (foldName s')
                    end
           | EmptyString => String c (foldName s')
           end
  end.

(** The field, among [names], that the key of an object member selects: the
    one spelled exactly so, else the one equal to it after folding. *)
Definition fieldOf (names : list string) (key : string) : option string :=
  match List.find (String.eqb key) names with
  | Some n => Some n
  | None => List.find (fun n => String.eqb (foldName n) (foldName key)) names
  end.

(** The members of an object are taken in order; a member that selects no
    field is skipped, and one mismatch makes the whole decoding one. *)
Fixpoint decodeMembers {T : Type} (names : list string)
    (set : T -> string -> value -> decoding T)
    (members : list (string * value)) (x : T) : decoding T :=
  match members with
  | [] => Decoded x
  | (key, v) :: rest =>
      match fieldOf names key with
      | None => decodeMembers names set rest x
      | Some name =>
          match set x name v with
          | Mismatch => Mismatch
          | Decoded x' => decodeMembers names set rest x'
          end
      end
  end.

(** How many members select the field [name]. *)
Definition selecting (names : list string) (name : string)
    (members : list (string * value)) : nat :=
  length (List.filter (fun kv => match fieldOf names (fst kv) with
                            | Some n => String.eqb n name
                            | None => false
                            end) members).

End json.

(** Sequencing of fallible steps: the first error ends the computation. *)
Definition bindE {A B : Type} (m : error + A) (k : A -> error + B) : error + B :=
  match m with
  | inl e => inl e
  | inr a => k a
  end.

Declare Scope err_scope.
Delimit Scope err_scope with err.
Notation "x <-! m ; k" := (bindE m (fun x => k))
  (at level 100, m at next level, right associativity) : err_scope.

Declare Scope dec_scope.
Delimit Scope dec_scope with dec.
Notation "x <-? m ; k" := (json.bindD m (fun x => k))
  (at level 100, m at next level, right associativity) : dec_scope.

(** * package globals *)
Module globals.

Record Model : Type := mkModel { Chat : bool; Name : string }.

Definition Turbo   : Model := {| Name := "gpt-3.5-turbo";    Chat := true |}.
Definition Davinci : Model := {| Name := "text-davinci-003"; Chat := false |}.
Definition Curie   : Model := {| Name := "text-curie-001";   Chat := false |}.
Definition Babbage : Model := {| Name := "text-babbage-001"; Chat := false |}.
Definition Ada     : Model := {| Name := "text-ada-001";     Chat := false |}.
Definition GPT4    : Model := {| Name := "gpt-4";            Chat := true |}.

Definition Models : gmap string Model :=
    <["turbo" := Turbo]> (<["davinci" := Davinci]> (<["curie" := Curie]>
    (<["babbage" := Babbage]> (<["ada" := Ada]> (<["gpt4" := GPT4]> ∅))))).

(** The zero value a Go map lookup yields for a missing key. *)
Definition zeroModel : Model := {| Name := EmptyString; Chat := false |}.

Definition TempRangeMin : float64 := Eval cbv in f64.of_Z 0.
Definition TempRangeMax : float64 := Eval cbv in f64.of_Z 1.
Definition TopPMin      : float64 := Eval cbv in f64.of_Z 0.
Definition TopPMax      : float64 := Eval cbv in f64.of_Z 1.
Definition PresenceMin  : float64 := Eval cbv in f64.of_Z (-2).
Definition PresenceMax  : float64 := Eval cbv in f64.of_Z 2.
Definition FrequenceMin : float64 := Eval cbv in f64.of_Z (-2).
Definition FrequenceMax : float64 := Eval cbv in f64.of_Z 2.
Definition BestOfMin    : int := 1.
Definition BestOfMax    : int := 20.

End globals.

(** * package request: the types and the validator

    The declarations of this part are the same, line for line, in
    [pkg/request/request.go] and in the older copy of the file.  Each struct
    has a module of its own, since several of them share field names. *)

(** the struct to use for the body of the request *)
Module Body.
Record t : Type := mk {
  Model         : string;
  Prompt        : string;
  Temperature   : float64;
  Max_Tokens    : int;
  Top_P         : float64;
  Frequence_Pen : float64;
  Presence_Pen  : float64;
  Best_Of       : int
}.
End Body.

Module Message.
Record t : Type := mk { Role : string; Content : string }.
Definition zero : t := {| Role := EmptyString; Content := EmptyString |}.
End Message.

(** the struct to use for the chat models; a nil [Messages] is the empty
    list *)
Module ChatBody.
Record t : Type := mk {
  Model         : string;
  Messages      : list Message.t;
  Temperature   : float64;
  Max_Tokens    : int;
  Top_P         : float64;
  Frequence_Pen : float64;
  Presence_Pen  : float64
}.
Definition zero : t :=
  {| Model := EmptyString; Messages := []; Temperature := S754_zero false;
     Max_Tokens := 0; Top_P := S754_zero false; Frequence_Pen := S754_zero false;
     Presence_Pen := S754_zero false |}.
End ChatBody.

(** the text in the choices the response gives *)
Module APIText.
Record t : Type := mk { Text : string; Message : Message.t; Index : int }.
End APIText.

(** the usage the response gives *)
Module APIUsage.
Record t : Type := mk {
  Prompt_Tokens : int; Completion_Tokens : int; Total_Tokens : int
}.
End APIUsage.

Module ApiErr.
Record t : Type := mk {
  Message : string;
  Type_   : string;
  Param   : option string;
  Code    : string
}.
End ApiErr.

(** the response the api gives; [Err] is a pointer, nil when the response
    has no [error] member *)
Module APIResponse.
Record t : Type := mk {
  Err     : option ApiErr.t;
  ID      : string;
  Object  : string;
  Created : int;
  Choices : list APIText.t;
  Usage   : APIUsage.t
}.
End APIResponse.

(** ** What runs around the calls: the log, the network, panics *)

Module http.
Record Request : Type := mkRequest {
  Method : string;
  URL    : string;
  Header : gmap string (list string);
  Body   : json.value
}.

(** [http.NewRequest] fails on a malformed method or URL.  The program calls
    it with the method [POST] and one of two constant, well-formed URLs, on
    which it succeeds. *)
Definition NewRequest (method url : string) (body : json.value) : error + Request :=
  inr {| Method := method; URL := url; Header := ∅; Body := body |}.

(** [req.Header.Set(key, value)] for a key already in canonical form. *)
Definition Header_Set (req : Request) (key value : string) : Request :=
  {| Method := Method req; URL := URL req;
     Header := <[key := [value]]> (Header req); Body := Body req |}.
End http.

(** What a run is given from outside the code under study. *)
Record World : Type := mkWorld {
  (** [globals.Verbose] *)
  Verbose : bool;
  (** whether [globals.Log] is the logger that [globals.Setup] assigns;
      until then it is the zero value of [zerolog.Logger], which has no
      writer and whose events are all disabled *)
  LogReady : bool;
  (** [client.Do(req)] followed by [io.ReadAll(resp.Body)], whose own error
      the program drops: the bytes read, or the error of the round trip *)
  Do : http.Request -> error + string;
  (** [json.Unmarshal] of the response bytes into an [APIResponse] *)
  Unmarshal : string -> error + APIResponse.t;
  (** the Unicode table behind [strconv.IsPrint] *)
  isPrintTable : N -> bool
}.

Inductive Level : Type := InfoLevel | ErrorLevel | PanicLevel.

(** [Logged lvl msg] is a call of [Msg(msg)] on an event of [globals.Log]
    at level [lvl], whether or not the logger writes it. *)
Inductive Event : Type :=
| Logged (lvl : Level) (msg : string)
| Sent (req : http.Request).

(** A call either returns or panics. *)
Inductive outcome (A : Type) : Type :=
| Returned (a : A)
| Panicked (v : string).
Arguments Returned {A} a.
Arguments Panicked {A} v.

(** A computation: the events it caused, in order, and how it ended. *)
Definition M (A : Type) : Type := list Event * outcome A.

Definition ret {A : Type} (a : A) : M A := ([], Returned a).

Definition bind {A B : Type} (m : M A) (k : A -> M B) : M B :=
  match m with
  | (t, Returned a) => let (t', r) := k a in (t ++ t', r)
  | (t, Panicked v) => (t, Panicked v)
  end.

Definition emit (e : Event) : M unit := ([e], Returned tt).

Definition panic {A : Type} (v : string) : M A := ([], Panicked v).

Declare Scope run_scope.
Delimit Scope run_scope with run.
Notation "x <- m ;; k" := (bind m (fun x => k))
  (at level 100, m at next level, right associativity) : run_scope.
Notation "m ;; k" := (bind m (fun _ => k))
  (at level 100, right associativity) : run_scope.

Definition trace {A : Type} (m : M A) : list Event := fst m.
Definition result {A : Type} (m : M A) : outcome A := snd m.


(** [globals.Log.Error().Msg(msg)] *)
Definition LogError (msg : string) : M unit := emit (Logged ErrorLevel msg).

(** [globals.Log.Panic().Msg(msg)].  On the logger of [globals.Setup],
    [Msg] writes the entry and then panics with the message.  On the zero
    logger the event is disabled: [Panic()] itself panics, with the empty
    string, and [Msg] is not reached. *)
Definition LogPanic {A : Type} (w : World) (msg : string) : M A :=
  if LogReady w then (emit (Logged PanicLevel msg) ;; panic msg)%run
  else panic EmptyString.

(** ** The code of [pkg/request/request.go] *)
Module request.
Import globals.

Definition LogVerbose (w : World) (msg : string) : M unit :=
  if Verbose w then emit (Logged InfoLevel msg) else ret tt.

(** checking the format *)
Definition CheckFormat (body : Body.t) (model : bool) : option error :=
  (* model *)
  if negb model then Some ErrWrongModel
  (* temperature *)
  else if f64.lt (Body.Temperature body) TempRangeMin
          || f64.gt (Body.Temperature body) TempRangeMax
  then Some ErrWrongTempRange
  (* top_p *)
  else if f64.lt (Body.Top_P body) TopPMin || f64.gt (Body.Top_P body) TopPMax
  then Some ErrWrongToppRange
  (* presense penalty *)
  else if f64.lt (Body.Presence_Pen body) PresenceMin
          || f64.gt (Body.Presence_Pen body) PresenceMax
  then Some ErrWrongPresenceRange
  (* frequence penalty *)
  else if f64.lt (Body.Frequence_Pen body) FrequenceMin
          || f64.gt (Body.Frequence_Pen body) FrequenceMax
  then Some ErrWrongFrequenceRange
  (* the best_of *)
  else if (Body.Best_Of body <? BestOfMin) || (Body.Best_Of body >? BestOfMax)
  then Some ErrWrongBestOfRange
  (* if its all good *)
  else None.

Definition API_BASE_URL : string := "https://api.openai.com/v1/".

Definition PROMPT_PREFIX : string :=
  "From a code reviewer's perspective, Review the the git diff below and tell me what I can improve on in the code (the '+' in the git diff is an added line, the '-' is a removed line). Only review the changes that code that has been added i.e. the code denoted by the '+' icon all other codes i.e. codes denoted by '-' and with no indicator, are just for context dont comment on them. Do not suggest changes already made in the git diff. Do not explain the git diff. Only say what could be improved. Focus on what needs to be improved rather than what is already properly implemented. Also go into more detail, give me code snippets of how to enhance the code giving me code suggestions too. Give the response in Markdown".

Definition CHAT_PROMPT_INSTRUCTIONS : string :=
  "You are a very intelligentX and professional senior engineer with over 10 years of experience. You have a deep understanding of software engineering principles and best practices. You are also proficient in a variety of programming languages and technologies. You are passionate about writing high-quality code and ensuring that our code is well-reviewed. You review only the added changed code in the while code review. You are also committed to continuous learning and improvement. When reviewing code, You  typically look for the following: Correctness: Does the code work as intended? Readability: Is the code easy to read and understand? Maintainability: Is the code easy to maintain and extend? Performance: Is the code efficient and performant? Security: Is the code secure and free from vulnerabilities? You provide code reviewers  with specific feedback and suggestions for improvement the cod You will take in a git diff, and review it for the user. You will provide user with detailed code review feedback, including the following: File name under 'File Name' section, Line number under 'Line Number' section, Comment under 'Comment' section, Sugegested Refactored code snippet for code that needs refactoring under 'Suggested Change' section. Please also try to provide the user with specific suggestions for improvement, such as: How to make the code more readable, How to improve the performance of the code, How to make the code more secure, How to improve the overall design of the code. The user appreciates your feedback and the user will use it to improve their code.".

(** Helper function to configure parameters *)
Definition configureParams (model : Model) (maxtokens : int)
    (temperature top_p frequence presence : float64) (bestof : int)
  : Body.t * ChatBody.t :=
  (* Normal GPT3 body struct *)
  let params :=
    {| Body.Model := Name model; Body.Prompt := EmptyString;
       Body.Temperature := temperature; Body.Max_Tokens := maxtokens;
       Body.Top_P := top_p; Body.Frequence_Pen := frequence;
       Body.Presence_Pen := presence; Body.Best_Of := bestof |} in
  (* Chat models struct *)
  let chatParams :=
    {| ChatBody.Model := Name model; ChatBody.Messages := [];
       ChatBody.Temperature := temperature; ChatBody.Max_Tokens := maxtokens;
       ChatBody.Top_P := top_p; ChatBody.Frequence_Pen := frequence;
       ChatBody.Presence_Pen := presence |} in
  (params, chatParams).

(** *** [json.Marshal] at the two request types: the members follow the
    fields in declaration order, under the names of the struct tags *)

Definition Marshal_Message (m : Message.t) : json.value :=
  json.Object [("role", json.encString (Message.Role m));
               ("content", json.encString (Message.Content m))].

(** A nil slice is written [null]. *)
Definition Marshal_Messages (ms : list Message.t) : json.value :=
  match ms with
  | [] => json.Null
  | _ => json.Array (map Marshal_Message ms)
  end.

Definition Marshal_Body (b : Body.t) : error + json.value :=
  (temperature <-! json.encFloat (Body.Temperature b);
   top_p <-! json.encFloat (Body.Top_P b);
   frequency_penalty <-! json.encFloat (Body.Frequence_Pen b);
   presence_penalty <-! json.encFloat (Body.Presence_Pen b);
   inr (json.Object
     [("model", json.encString (Body.Model b));
      ("prompt", json.encString (Body.Prompt b));
      ("temperature", temperature);
      ("max_tokens", json.encInt (Body.Max_Tokens b));
      ("top_p", top_p);
      ("frequency_penalty", frequency_penalty);
      ("presence_penalty", presence_penalty);
      ("best_of", json.encInt (Body.Best_Of b))]))%err.

Definition Marshal_ChatBody (b : ChatBody.t) : error + json.value :=
  (temperature <-! json.encFloat (ChatBody.Temperature b);
   top_p <-! json.encFloat (ChatBody.Top_P b);
   frequency_penalty <-! json.encFloat (ChatBody.Frequence_Pen b);
   presence_penalty <-! json.encFloat (ChatBody.Presence_Pen b);
   inr (json.Object
     [("model", json.encString (ChatBody.Model b));
      ("messages", Marshal_Messages (ChatBody.Messages b));
      ("temperature", temperature);
      ("max_tokens", json.encInt (ChatBody.Max_Tokens b));
      ("top_p", top_p);
      ("frequency_penalty", frequency_penalty);
      ("presence_penalty", presence_penalty)]))%err.

(** *** [json.Unmarshal] into a zero [ChatBody] *)

Definition messageFields : list string := ["role"; "content"].

Definition setMessageField (m : Message.t) (name : string) (v : json.value)
  : json.decoding Message.t :=
  if String.eqb name "role" then
    (s <-? json.decString (Message.Role m) v;
     json.Decoded {| Message.Role := s; Message.Content := Message.Content m |})%dec
  else
    (s <-? json.decString (Message.Content m) v;
     json.Decoded {| Message.Role := Message.Role m; Message.Content := s |})%dec.

(** An element of a fresh slice starts from the zero [Message]. *)
Definition Unmarshal_Message (v : json.value) : json.decoding Message.t :=
  match v with
  | json.Object members =>
      json.decodeMembers messageFields setMessageField members Message.zero
  | json.Null => json.Decoded Message.zero
  | _ => json.Mismatch
  end.

Fixpoint Unmarshal_elems (elems : list json.value) : json.decoding (list Message.t) :=
  match elems with
  | [] => json.Decoded []
  | v :: rest =>
      (m <-? Unmarshal_Message v;
       ms <-? Unmarshal_elems rest;
       json.Decoded (m :: ms))%dec
  end.

Definition Unmarshal_Messages (v : json.value) : json.decoding (list Message.t) :=
  match v with
  | json.Array elems => Unmarshal_elems elems
  | json.Null => json.Decoded []
  | _ => json.Mismatch
  end.

Definition chatFields : list string :=
  ["model"; "messages"; "temperature"; "max_tokens"; "top_p";
   "frequency_penalty"; "presence_penalty"].

Definition setChatField (b : ChatBody.t) (name : string) (v : json.value)
  : json.decoding ChatBody.t :=
  let mk := ChatBody.mk in
  let '(ChatBody.mk model messages temperature max_tokens top_p frequence presence) := b in
  (if String.eqb name "model" then
     x <-? json.decString model v;
     json.Decoded (mk x messages temperature max_tokens top_p frequence presence)
   else if String.eqb name "messages" then
     x <-? Unmarshal_Messages v;
     json.Decoded (mk model x temperature max_tokens top_p frequence presence)
   else if String.eqb name "temperature" then
     x <-? json.decFloat temperature v;
     json.Decoded (mk model messages x max_tokens top_p frequence presence)
   else if String.eqb name "max_tokens" then
     x <-? json.decInt max_tokens v;
     json.Decoded (mk model messages temperature x top_p frequence presence)
   else if String.eqb name "top_p" then
     x <-? json.decFloat top_p v;
     json.Decoded (mk model messages temperature max_tokens x frequence presence)
   else if String.eqb name "frequency_penalty" then
     x <-? json.decFloat frequence v;
     json.Decoded (mk model messages temperature max_tokens top_p x presence)
   else
     x <-? json.decFloat presence v;
     json.Decoded (mk model messages temperature max_tokens top_p frequence x))%dec.

(** [json.Unmarshal(text, &b)] for a zero [b].  An object in which two
    members select [messages] is left out ([None]): there the decoder of Go
    writes the second array over the memory of the first. *)
Definition Unmarshal_ChatBody (v : json.value) : option (json.decoding ChatBody.t) :=
  match v with
  | json.Object members =>
      if (1 <? json.selecting chatFields "messages" members)%nat then None
      else Some (json.decodeMembers chatFields setChatField members ChatBody.zero)
  | json.Null => Some (json.Decoded ChatBody.zero)
  | _ => Some json.Mismatch
  end.

(** The first half of [createRequestBody] (lines 184 to 197): the prompt is
    formatted and, by the family of the model, either the two messages are
    assigned to [chatParams.Messages] or the prompt to [params.Prompt]. *)
Definition withPrompt (model : Model) (params : Body.t) (chatParams : ChatBody.t)
    (gitDiff : string) : Body.t * ChatBody.t :=
  let prompt := PROMPT_PREFIX +:+ nl +:+ gitDiff +:+ nl in
  if Chat model then
    let sysMessage :=
      {| Message.Role := "system"; Message.Content := CHAT_PROMPT_INSTRUCTIONS |} in
    let usrMessage := {| Message.Role := "user"; Message.Content := gitDiff |} in
    (params,
     {| ChatBody.Model := ChatBody.Model chatParams;
        ChatBody.Messages := [sysMessage; usrMessage];
        ChatBody.Temperature := ChatBody.Temperature chatParams;
        ChatBody.Max_Tokens := ChatBody.Max_Tokens chatParams;
        ChatBody.Top_P := ChatBody.Top_P chatParams;
        ChatBody.Frequence_Pen := ChatBody.Frequence_Pen chatParams;
        ChatBody.Presence_Pen := ChatBody.Presence_Pen chatParams |})
  else
    ({| Body.Model := Body.Model params; Body.Prompt := prompt;
        Body.Temperature := Body.Temperature params;
        Body.Max_Tokens := Body.Max_Tokens params;
        Body.Top_P := Body.Top_P params;
        Body.Frequence_Pen := Body.Frequence_Pen params;
        Body.Presence_Pen := Body.Presence_Pen params;
        Body.Best_Of := Body.Best_Of params |},
     chatParams).

(** Helper function to create the request body: the assignments above,
    then [json.Marshal] of the struct of the family. *)
Definition createRequestBody (model : Model) (params : Body.t) (chatParams : ChatBody.t)
    (gitDiff : string) : error + json.value :=
  let '(params, chatParams) := withPrompt model params chatParams gitDiff in
  if Chat model then Marshal_ChatBody chatParams else Marshal_Body params.

(** The loop over the choices of the response. *)
Definition collect (chat : bool) (choices : list APIText.t) (answers : list string)
  : list string :=
  fold_left
    (fun answers c =>
       if chat then answers ++ [Message.Content (APIText.Message c)]
       else if negb (String.length (APIText.Text c) =? 0)%nat
            then answers ++ [APIText.Text c]
            else answers)
    choices answers.

(** Main function with refactored content *)
Definition RequestImprovements (w : World) (key gitDiff rawModel : string)
    (maxtokens : int) (temperature top_p frequence presence : float64) (bestof : int)
  : M (list string * option error) :=
  let answers : list string := [] in
  let model := match Models !! rawModel with Some m => m | None => zeroModel end in
  let hasModel := match Models !! rawModel with Some _ => true | None => false end in
  let '(params, chatParams) :=
    configureParams model maxtokens temperature top_p frequence presence bestof in
  match CheckFormat params hasModel with
  | Some err => ret (answers, Some err)
  | None =>
  match createRequestBody model params chatParams gitDiff with
  | inl err =>
      (LogError ("Error creating request body: " +:+ Error err) ;;
       ret (answers, Some err))%run
  | inr reqBody =>
  let endUrl := if Chat model then "chat/completions" else "completions" in
  let url := API_BASE_URL +:+ endUrl in
  (LogVerbose w "Creating new request" ;;
   match http.NewRequest "POST" url reqBody with
   | inl err =>
       LogError ("Error sending request: " +:+ Error err) ;;
       ret (answers, Some err)
   | inr req =>
   let req := http.Header_Set req "Authorization" ("Bearer " +:+ key) in
   let req := http.Header_Set req "Content-Type" "application/json" in
   LogVerbose w "Requesting GPT" ;;
   emit (Sent req) ;;
   match Do w req with
   | inl err => ret (answers, Some err)
   | inr body =>
   LogVerbose w "Got back the request information" ;;
   match Unmarshal w body with
   | inl err => LogPanic w (Error err)
   | inr apiReq =>
   match APIResponse.Err apiReq with
   | Some err => ret (answers, Some (errorString (ApiErr.Message err)))
   | None =>
       ret (collect (Chat model) (APIResponse.Choices apiReq) answers, None)
   end end end end)%run
  end end.

End request.

(** ** The older copy of the file

    Its types, [LogVerbose], [CheckFormat], the marshalling and the loop over
    the choices are those of [request]; [RequestImprovements] builds the
    structs and the prompt itself. *)
Module request_orig.
Import globals.

(** the instruction *)
Definition promptPrefix : string :=
  "explain the git diff below, and from a code reviewer's perspective, tell me what I can improve on in the code (the '+' in the git diff is an added line, the '-' is a removed line). do not suggest changes already made in the git diff. do not explain the git diff. only say what could be improved. also go into more detail, give me code snippets of how to enhance it  give me refactored code too please.".

(** The background information for chat models *)
Definition chatPromptInstructions : string :=
  "You are a very intelligent and professional senior engineer with over 10 years of experience. You have a deep understanding of software engineering principles and best practices. You are also proficient in a variety of programming languages and technologies. You are passionate about writing high-quality code and ensuring that our code is well-reviewed. You are also committed to continuous learning and improvement. When reviewing code, You  typically look for the following: Correctness: Does the code work as intended? Readability: Is the code easy to read and understand? Maintainability: Is the code easy to maintain and extend? Performance: Is the code efficient and performant? Security: Is the code secure and free from vulnerabilities? You provide code reviewers  with specific feedback and suggestions for improvement the code. You will take in a git diff, and review it for the user. You will provide user with detailed code review feedback, including the following:" +:+
  nl +:+
  nl +:+
  "File name" +:+
  nl +:+
  "Line number" +:+
  nl +:+
  "Comment" +:+
  nl +:+
  "Refactored code snippet" +:+
  nl +:+
  nl +:+
  "Please also try to provide the user with specific suggestions for improvement, such as:" +:+
  nl +:+
  nl +:+
  "How to make the code more readable" +:+
  nl +:+
  "How to improve the performance of the code" +:+
  nl +:+
  "How to make the code more secure" +:+
  nl +:+
  "How to improve the overall design of the code" +:+
  nl +:+
  nl +:+
  "The user appreciates your feedback and the user will use it to improve their code.".

(** Lines 170 to 192 of [RequestImprovements]: the prompt is formatted with
    the verb [%#v] and, by the family of the model, either the two messages
    are assigned to [chatParams.Messages] or the prompt to [params.Prompt]. *)
Definition withPrompt (w : World) (model : Model) (params : Body.t)
    (chatParams : ChatBody.t) (gitDiff : string) : Body.t * ChatBody.t :=
  (* get the prompt using sprintf *)
  let prompt := strconv.Quote (isPrintTable w) promptPrefix +:+ nl +:+
                strconv.Quote (isPrintTable w) gitDiff +:+ nl in
  if Chat model then
    (* The background message *)
    let sysMessage :=
      {| Message.Role := "system"; Message.Content := chatPromptInstructions |} in
    (* The input (what they respond to) *)
    let usrMessage := {| Message.Role := "user"; Message.Content := gitDiff |} in
    (params,
     {| ChatBody.Model := ChatBody.Model chatParams;
        ChatBody.Messages := [sysMessage; usrMessage];
        ChatBody.Temperature := ChatBody.Temperature chatParams;
        ChatBody.Max_Tokens := ChatBody.Max_Tokens chatParams;
        ChatBody.Top_P := ChatBody.Top_P chatParams;
        ChatBody.Frequence_Pen := ChatBody.Frequence_Pen chatParams;
        ChatBody.Presence_Pen := ChatBody.Presence_Pen chatParams |})
  else
    (* set the gpt3 prompt to the prompt defined before *)
    ({| Body.Model := Body.Model params; Body.Prompt := prompt;
        Body.Temperature := Body.Temperature params;
        Body.Max_Tokens := Body.Max_Tokens params;
        Body.Top_P := Body.Top_P params;
        Body.Frequence_Pen := Body.Frequence_Pen params;
        Body.Presence_Pen := Body.Presence_Pen params;
        Body.Best_Of := Body.Best_Of params |},
     chatParams).

(** request the improvements *)
Definition RequestImprovements (w : World) (key gitDiff rawModel : string)
    (maxtokens : int) (temperature top_p frequence presence : float64) (bestof : int)
  : M (list string * option error) :=
  let answers : list string := [] in
  let model := match Models !! rawModel with Some m => m | None => zeroModel end in
  let hasModel := match Models !! rawModel with Some _ => true | None => false end in
  (* get the normal GPT3 body struct *)
  let params :=
    {| Body.Model := Name model; Body.Prompt := EmptyString;
       Body.Temperature := temperature; Body.Max_Tokens := maxtokens;
       Body.Top_P := top_p; Body.Frequence_Pen := frequence;
       Body.Presence_Pen := presence; Body.Best_Of := bestof |} in
  (* Get the struct for the chat models *)
  let chatParams :=
    {| ChatBody.Model := Name model; ChatBody.Messages := [];
       ChatBody.Temperature := temperature; ChatBody.Max_Tokens := maxtokens;
       ChatBody.Top_P := top_p; ChatBody.Frequence_Pen := frequence;
       ChatBody.Presence_Pen := presence |} in
  (* if the params are in the wrong format return an error *)
  match request.CheckFormat params hasModel with
  | Some err => ret (answers, Some err)
  | None =>
  (* make model the actual model: [params.Model] and [chatParams.Model] are
     assigned [model.Name], which they hold already *)
  (* the end of the url *)
  let endUrl := if Chat model then "chat/completions" else "completions" in
  (* request url *)
  let url := "https://api.openai.com/v1/" +:+ endUrl in
  let '(params, chatParams) := withPrompt w model params chatParams gitDiff in
  (* marshal the correct param struct *)
  match (if Chat model then request.Marshal_ChatBody chatParams
         else request.Marshal_Body params) with
  | inl err => ret (answers, Some err)
  | inr reqBody =>
  (request.LogVerbose w "Creating new request" ;;
   match http.NewRequest "POST" url reqBody with
   | inl err =>
       (* the error is logged and the nil request is used all the same *)
       LogError ("Error sending request: " +:+ Error err) ;;
       panic "runtime error: invalid memory address or nil pointer dereference"
   | inr req =>
   (* set the api key *)
   let req := http.Header_Set req "Authorization" ("Bearer " +:+ key) in
   let req := http.Header_Set req "Content-Type" "application/json" in
   (* execute the request *)
   request.LogVerbose w "Requesting GPT" ;;
   emit (Sent req) ;;
   match Do w req with
   | inl err => ret (answers, Some err)
   | inr body =>
   request.LogVerbose w "Got back the request information" ;;
   (* unmarshal (put the json in a struct) the body *)
   match Unmarshal w body with
   | inl err => LogPanic w (Error err)
   | inr apiReq =>
   match APIResponse.Err apiReq with
   | Some err => ret (answers, Some (errorString (ApiErr.Message err)))
   | None =>
       (* append it to the answers array *)
       ret (request.collect (Chat model) (APIResponse.Choices apiReq) answers, None)
   end end end end)%run
  end end.

End request_orig.

(** * Vocabulary of the specification *)

(** A value is out of the range [lo..hi] by the two comparisons of the
    validator: below the minimum or above the maximum. *)
Definition out_of_range (lo hi x : float64) : bool := f64.lt x lo || f64.gt x hi.

(** A float that has a JSON literal: neither a NaN nor an infinity. *)
Definition finite (x : float64) : bool := negb (f64.is_nan x || f64.is_inf x).

(** The ranges of the specification, as closed intervals. *)
Definition temperature_ok (x : float64) : bool := f64.within (f64.of_Z 0) (f64.of_Z 1) x.
Definition topP_ok (x : float64) : bool := f64.within (f64.of_Z 0) (f64.of_Z 1) x.
Definition presence_ok (x : float64) : bool := f64.within (f64.of_Z (-2)) (f64.of_Z 2) x.
Definition frequence_ok (x : float64) : bool := f64.within (f64.of_Z (-2)) (f64.of_Z 2) x.
Definition bestOf_ok (n : int) : bool := (1 <=? n) && (n <=? 20).

(** The checks of the specification that fail on [body], in the order in
    which it lists them, each by its error: the model is not found, or a
    parameter is not in its closed range. *)
Definition violations (body : Body.t) (found : bool) : list error :=
  (if negb found then [ErrWrongModel] else [])
  ++ (if negb (temperature_ok (Body.Temperature body)) then [ErrWrongTempRange] else [])
  ++ (if negb (topP_ok (Body.Top_P body)) then [ErrWrongToppRange] else [])
  ++ (if negb (presence_ok (Body.Presence_Pen body)) then [ErrWrongPresenceRange] else [])
  ++ (if negb (frequence_ok (Body.Frequence_Pen body)) then [ErrWrongFrequenceRange] else [])
  ++ (if negb (bestOf_ok (Body.Best_Of body)) then [ErrWrongBestOfRange] else []).

(** All five parameters within their ranges. *)
Definition in_ranges (temperature top_p frequence presence : float64) (bestof : int) : bool :=
  temperature_ok temperature && topP_ok top_p && presence_ok presence
  && frequence_ok frequence && bestOf_ok bestof.

(** The comments the specification derives from the choices of a response:
    every message content for a chat model, the non-empty texts for a legacy
    one, in the order of the response. *)
Definition comments (chat : bool) (choices : list APIText.t) : list string :=
  if chat then List.map (fun c => Message.Content (APIText.Message c)) choices
  else List.filter (fun s => negb (String.eqb s EmptyString)) (List.map APIText.Text choices).

(** A body for the validator that carries the five checked parameters. *)
Definition bodyOf (temperature top_p frequence presence : float64) (bestof : int) : Body.t :=
  {| Body.Model := EmptyString; Body.Prompt := EmptyString;
     Body.Temperature := temperature; Body.Max_Tokens := 0;
     Body.Top_P := top_p; Body.Frequence_Pen := frequence;
     Body.Presence_Pen := presence; Body.Best_Of := bestof |}.

(** One half, a temperature inside every range. *)
Definition half : float64 := S754_finite false 4503599627370496 (-53).

(** The endpoint of each API family. *)
Definition endpoint (chat : bool) : string :=
  if chat then "https://api.openai.com/v1/chat/completions"
  else "https://api.openai.com/v1/completions".

(** The request of the specification: a POST of [body] to [url] with the
    bearer credential and the JSON content type. *)
Definition postRequest (url key : string) (body : json.value) : http.Request :=
  {| http.Method := "POST"; http.URL := url;
     http.Header := <["Content-Type" := ["application/json"]]>
                      (<["Authorization" := ["Bearer " +:+ key]]> ∅);
     http.Body := body |}.

(** Steps 7 to 11 of the specification on the answer to [req], with a
    panic where the decoding fails: its value is the text of the decoding
    error on the logger of [globals.Setup], the empty string on the zero
    logger. *)
Definition interpret (w : World) (chat : bool) (req : http.Request)
  : outcome (list string * option error) :=
  match Do w req with
  | inl e => Returned ([], Some e)
  | inr body =>
      match Unmarshal w body with
      | inl e => Panicked (if LogReady w then Error e else EmptyString)
      | inr r =>
          match APIResponse.Err r with
          | Some a => Returned ([], Some (errorString (ApiErr.Message a)))
          | None => Returned (comments chat (APIResponse.Choices r), None)
          end
      end
  end.

(** The JSON text of the request of each copy, for parameters that can be
    marshalled. *)
Definition requestJSON (model : globals.Model) (gitDiff : string) (maxtokens : int)
    (temperature top_p frequence presence : float64) (bestof : int) : error + json.value :=
  let '(params, chatParams) :=
    request.configureParams model maxtokens temperature top_p frequence presence bestof in
  request.createRequestBody model params chatParams gitDiff.

Definition requestJSON_orig (w : World) (model : globals.Model) (gitDiff : string)
    (maxtokens : int) (temperature top_p frequence presence : float64) (bestof : int)
  : error + json.value :=
  let '(params, chatParams) :=
    request.configureParams model maxtokens temperature top_p frequence presence bestof in
  let '(params, chatParams) := request_orig.withPrompt w model params chatParams gitDiff in
  if globals.Chat model then request.Marshal_ChatBody chatParams
  else request.Marshal_Body params.

(** The names of the members of a JSON object, in order, and the value of
    the first member of a given name. *)
Definition keys (v : json.value) : list string :=
  match v with
  | json.Object members => List.map fst members
  | _ => []
  end.

Definition member (name : string) (v : json.value) : option json.value :=
  match v with
  | json.Object members =>
      option_map snd (List.find (fun kv => String.eqb (fst kv) name) members)
  | _ => None
  end.

(** [needle] occurs in [hay] as a contiguous run of bytes. *)
Fixpoint occurs (needle hay : string) : bool :=
  String.prefix needle hay
  || match hay with
     | EmptyString => false
     | String _ rest => occurs needle rest
     end.

(** What a reader of the JSON text gets for a message and for a chat
    request: the strings, coerced to valid UTF-8. *)
Definition readMessage (m : Message.t) : Message.t :=
  {| Message.Role := utf8.ToValidUTF8 (Message.Role m);
     Message.Content := utf8.ToValidUTF8 (Message.Content m) |}.

Definition readChatBody (b : ChatBody.t) : ChatBody.t :=
  {| ChatBody.Model := utf8.ToValidUTF8 (ChatBody.Model b);
     ChatBody.Messages := List.map readMessage (ChatBody.Messages b);
     ChatBody.Temperature := ChatBody.Temperature b;
     ChatBody.Max_Tokens := ChatBody.Max_Tokens b;
     ChatBody.Top_P := ChatBody.Top_P b;
     ChatBody.Frequence_Pen := ChatBody.Frequence_Pen b;
     ChatBody.Presence_Pen := ChatBody.Presence_Pen b |}.

(** ** Sample data *)

Definition choice (text content : string) (index : int) : APIText.t :=
  {| APIText.Text := text;
     APIText.Message := {| Message.Role := "assistant"; Message.Content := content |};
     APIText.Index := index |}.

Definition response (err : option ApiErr.t) (choices : list APIText.t) : APIResponse.t :=
  {| APIResponse.Err := err; APIResponse.ID := "cmpl-1";
     APIResponse.Object := "text_completion"; APIResponse.Created := 0;
     APIResponse.Choices := choices;
     APIResponse.Usage := {| APIUsage.Prompt_Tokens := 0;
                             APIUsage.Completion_Tokens := 0;
                             APIUsage.Total_Tokens := 0 |} |}.

Definition invalidKey : ApiErr.t :=
  {| ApiErr.Message := "invalid api key"; ApiErr.Type_ := "invalid_request_error";
     ApiErr.Param := None; ApiErr.Code := "invalid_api_key" |}.

(** A stubbed transport, after [globals.Setup]: every request is answered
    by the bytes [body], which decode to [decoded]. *)
Definition stub (body : string) (decoded : error + APIResponse.t) : World :=
  {| Verbose := false; LogReady := true; Do := fun _ => inr body;
     Unmarshal := fun _ => decoded; isPrintTable := fun _ => false |}.

(** The same world before [globals.Setup]: [globals.Log] is the zero
    logger. *)
Definition unready (w : World) : World :=
  {| Verbose := Verbose w; LogReady := false; Do := Do w; Unmarshal := Unmarshal w;
     isPrintTable := isPrintTable w |}.

(** * The callers and the start-up code *)

(** ** [RequestApi]

    What [RequestApi] is given besides the world of the call: the key that
    [globals.Setup] has read, and glamour's terminal renderer.
    [glamour.NewTermRenderer] yields a renderer or an error; a renderer
    turns a Markdown text into terminal text or fails. *)
Record Terminal : Type := mkTerminal {
  OpenaiKey : string;
  NewTermRenderer : error + (string -> error + string)
}.

Inductive Effect : Type :=
| Inner (e : Event)                       (* an event of the request layer *)
| LoggedErr (err : error) (msg : string)  (* globals.Log.Error().Err(err).Msg(msg) *)
| Println (out : string)                  (* fmt.Println(out) *)
| Fatal (err : error).                    (* log.Fatal(err), which ends in os.Exit(1) *)

(** How a caller ends: it returns, a panic passes through it, or the
    process exits. *)
Inductive ending : Type :=
| Finished
| Panicking (v : string)
| Exited (code : Z).

(** The lines written to the standard output. *)
Definition printed (t : list Effect) : list string :=
  flat_map (fun e => match e with Println out => [out] | _ => [] end) t.

(** The errors written to the log by a caller, with their messages. *)
Definition errorsLogged (t : list Effect) : list (error * string) :=
  flat_map (fun e => match e with LoggedErr err msg => [(err, msg)] | _ => [] end) t.

(** The errors that ended the process. *)
Definition fatals (t : list Effect) : list error :=
  flat_map (fun e => match e with Fatal err => [err] | _ => [] end) t.

(** The requests that went out. *)
Definition requests (t : list Event) : list http.Request :=
  flat_map (fun e => match e with Sent req => [req] | _ => [] end) t.

Module request_main.

(** print each improvement: a renderer is made for every improvement, and
    the first failure ends the process *)
Fixpoint printImprovements (term : Terminal) (improvements : list string)
  : list Effect * ending :=
  match improvements with
  | [] => ([], Finished)
  | improvement :: rest =>
      match NewTermRenderer term with
      | inl err => ([Fatal err], Exited 1)
      | inr renderer =>
          match renderer improvement with
          | inl err => ([Fatal err], Exited 1)
          | inr out =>
              let (t, e) := printImprovements term rest in
              (Println out :: t, e)
          end
      end
  end.

(** request the api *)
Definition RequestApi (w : World) (term : Terminal) (gitDiff model : string)
    (maxtokens : int) (temperature top_p frequence presence : float64) (bestof : int)
  : list Effect * ending :=
  let before := trace (request.LogVerbose w "Requesting for improvements") in
  (* get all the improvements *)
  match request.RequestImprovements w (OpenaiKey term) gitDiff model maxtokens
          temperature top_p frequence presence bestof with
  | (t, Panicked v) => (List.map Inner (before ++ t), Panicking v)
  | (t, Returned (improvements, err)) =>
      let after := trace (request.LogVerbose w "Got improvements") in
      let logged :=
        match err with
        | Some err => [LoggedErr err "Error while getting improvements"]
        | None => []
        end in
      (* print each improvement *)
      let (t', e) := printImprovements term improvements in
      (List.map Inner (before ++ t ++ after) ++ logged ++ t', e)
  end.

End request_main.

Module request_orig_main.

(** request the api; each improvement is printed as it is *)
Definition RequestApi (w : World) (term : Terminal) (gitDiff model : string)
    (maxtokens : int) (temperature top_p frequence presence : float64) (bestof : int)
  : list Effect * ending :=
  let before := trace (request.LogVerbose w "Requesting for improvements") in
  match request_orig.RequestImprovements w (OpenaiKey term) gitDiff model maxtokens
          temperature top_p frequence presence bestof with
  | (t, Panicked v) => (List.map Inner (before ++ t), Panicking v)
  | (t, Returned (improvements, err)) =>
      let after := trace (request.LogVerbose w "Got improvements") in
      let logged :=
        match err with
        | Some err => [LoggedErr err "Error while getting improvements"]
        | None => []
        end in
      (List.map Inner (before ++ t ++ after) ++ logged ++ List.map Println improvements,
       Finished)
  end.

End request_orig_main.

(** ** [globals.Setup]

    The process environment and the reading of an env file.  [readEnv path]
    is godotenv's reading and parsing of the file: its variables, or the
    error of opening or parsing it. *)
Record OS : Type := mkOS {
  environ : gmap string string;
  readEnv : string -> error + gmap string string
}.

(** [os.Getenv]: the empty string for a variable that is not set. *)
Definition Getenv (env : gmap string string) (name : string) : string :=
  match env !! name with
  | Some v => v
  | None => EmptyString
  end.

Definition hasByte (n : N) (s : string) : bool :=
  existsb (fun c => (N_of_ascii c =? n)%N) (String.list_ascii_of_string s).

(** [os.Setenv] refuses an empty name, a name with [=] or a NUL byte, and
    a value with a NUL byte. *)
Definition setenv_ok (name value : string) : bool :=
  negb (String.eqb name EmptyString) && negb (hasByte 61 name)
  && negb (hasByte 0 name) && negb (hasByte 0 value).

(** [godotenv.Load(path)]: on an error nothing is set; otherwise every
    variable of the file that the environment does not have yet is set,
    the refusals of [os.Setenv] being ignored. *)
Definition godotenv_Load (os : OS) (path : string) : option error * gmap string string :=
  match readEnv os path with
  | inl err => (Some err, environ os)
  | inr vars =>
      (None, environ os ∪ filter (fun kv => setenv_ok (fst kv) (snd kv) = true) vars)
  end.

(** An entry of the zerolog logger at error level: its string fields, its
    error field and its message. *)
Record LogEntry : Type := mkLogEntry {
  fields : list (string * string);
  errField : option error;
  message : string
}.

(** The start-up code of the newer [globals] *)
Module globals_setup.

(** The package variables that [Setup] assigns; [Console] tells whether the
    logger writes through zerolog's console writer. *)
Record Vars : Type := mkVars {
  Verbose : bool;
  Console : bool;
  EnvFile : string;
  OpenaiKey : string
}.

Definition Setup (os : OS) (json verbose : bool)
  : list LogEntry * Vars * gmap string string :=
  (* set the environment file *)
  let EnvFile := ".rgpt.env" in
  let home := Getenv (environ os) "HOME" in
  (* load the environment file *)
  let '(err, env) := godotenv_Load os (home +:+ "/" +:+ EnvFile) in
  let loadLog :=
    match err with
    | Some err =>
        (* if the error says the environement file doesn't exist *)
        (if occurs "no such file" (Error err)
         then [ {| fields := [("Env File", EnvFile); ("Home env var", home)];
                   errField := Some err;
                   message := "Env file not found. Did you follow the instructions in the INSTALLATION.md?" |} ]
         else [])
        ++ [ {| fields := []; errField := Some err;
                message := "Error while loading environment variable" |} ]
    | None => []
    end in
  (* set the openapi key to the environment variable *)
  let OpenaiKey := Getenv env "OPENAI_KEY" in
  let keyLog :=
    if (String.length OpenaiKey =? 0)%nat
    then [ {| fields := [("Env file", EnvFile)]; errField := None;
              message := "Open Ai API Key is empty" |} ]
    else [] in
  (loadLog ++ keyLog,
   {| Verbose := verbose; Console := negb json; EnvFile := EnvFile; OpenaiKey := OpenaiKey |},
   env).

End globals_setup.

(** The start-up code of [pkg/globals/globals.go] *)
Module globals_orig.

Record Vars : Type := mkVars {
  EnvFile : string;
  OpenaiKey : string
}.

(** [Setup] returns with the variables assigned, or the process exits
    after [log.Fatalln] has written an error. *)
Inductive started : Type :=
| Ready (vars : Vars) (env : gmap string string)
| Fatalln (err : error).

Definition Setup (os : OS) : started :=
  (* set the environment file *)
  let EnvFile := ".rgpt.env" in
  let home := Getenv (environ os) "HOME" in
  (* load the environment file *)
  let '(err, env) := godotenv_Load os (home +:+ "/" +:+ EnvFile) in
  match err with
  | Some err =>
      (* if the error says the environement file doesn't exist *)
      if occurs "no such file" (Error err)
      then Fatalln (errorString
             ".rgpt.env not found. Did you follow the instructions in the INSTALLATION.md?")
      else Fatalln err
  | None =>
      (* set the openapi key to the environment variable *)
      Ready {| EnvFile := EnvFile; OpenaiKey := Getenv env "OPENAI_KEY" |} env
  end.

End globals_orig.

(** The env file that [Setup] loads: [.rgpt.env] under [$HOME]. *)
Definition envPath (os : OS) : string :=
  Getenv (environ os) "HOME" +:+ "/" +:+ ".rgpt.env".

(** A process whose environment is [env] and whose env file holds [file]. *)
Definition machine (env : list (string * string)) (file : error + list (string * string)) : OS :=
  {| environ := list_to_map env;
     readEnv := fun _ => match file with
                         | inl e => inl e
                         | inr vars => inr (list_to_map vars)
                         end |}.

(** ** The shape of a run *)

(** The entries [LogVerbose] leaves. *)
Definition info (w : World) (msg : string) : list Event :=
  if Verbose w then [Logged InfoLevel msg] else [].

(** The events that follow the sending of [req]. *)
Definition answerTrace (w : World) (req : http.Request) : list Event :=
  match Do w req with
  | inl _ => []
  | inr body =>
      info w "Got back the request information"
      ++ match Unmarshal w body with
         | inl e => if LogReady w then [Logged PanicLevel (Error e)] else []
         | inr _ => []
         end
  end.

(** The model a raw alias stands for, and whether the registry has it. *)
Definition modelOf (alias : string) : globals.Model :=
  match globals.Models !! alias with
  | Some m => m
  | None => globals.zeroModel
  end.

Definition known (alias : string) : bool :=
  match globals.Models !! alias with
  | Some _ => true
  | None => false
  end.

(** A world that differs in its verbosity, in its decoder. *)
Definition withVerbose (v : bool) (w : World) : World :=
  {| Verbose := v; LogReady := LogReady w; Do := Do w; Unmarshal := Unmarshal w;
     isPrintTable := isPrintTable w |}.

Definition withUnmarshal (u : string -> error + APIResponse.t) (w : World) : World :=
  {| Verbose := Verbose w; LogReady := LogReady w; Do := Do w; Unmarshal := u;
     isPrintTable := isPrintTable w |}.

(** Bytes below 128 only. *)
Definition isASCII (s : string) : bool :=
  forallb (fun c => (N_of_ascii c <? 128)%N) (String.list_ascii_of_string s).

(** Printable ASCII other than the double quote and the backslash: the
    bytes that [strconv.Quote] copies. *)
Definition isPlain (s : string) : bool :=
  forallb (fun c => let b := N_of_ascii c in
                    ((32 <=? b) && (b <=? 126) && negb (b =? 34) && negb (b =? 92))%N)
          (String.list_ascii_of_string s).

(** A terminal whose renderer frames a text, and one whose renderer fails
    on the empty text. *)
Definition framing : Terminal :=
  {| OpenaiKey := "sk-1";
     NewTermRenderer := inr (fun s => inr ("| " +:+ s)) |}.

Definition fussy : Terminal :=
  {| OpenaiKey := "sk-1";
     NewTermRenderer :=
       inr (fun s => if String.eqb s EmptyString then inl (errorString "nothing to render")
                     else inr ("| " +:+ s)) |}.

(** * The floating-point order *)

(** The bounds of the ranges, and one half, are binary64 values. *)
Lemma bounds_are_binary64 :
  Forall (fun x => f64.valid x = true)
    [globals.TempRangeMin; globals.TempRangeMax; globals.TopPMin; globals.TopPMax;
     globals.PresenceMin; globals.PresenceMax; globals.FrequenceMin; globals.FrequenceMax;
     half; f64.NaN].
Proof. repeat constructor. Qed.

Lemma SFcompare_antisym (x y : spec_float) :
  SFcompare y x = option_map CompOpp (SFcompare x y).
Proof.
  destruct x as [sx|sx| |sx mx ex], y as [sy|sy| |sy my ey]; cbn;
    try reflexivity;
    try (destruct sx; reflexivity); try (destruct sy; reflexivity);
    try (destruct sx, sy; reflexivity).
  change (Pos.compare_cont Eq my mx) with (my ?= mx)%positive.
  change (Pos.compare_cont Eq mx my) with (mx ?= my)%positive.
  rewrite (Z.compare_antisym ey ex), (Pos.compare_antisym my mx).
  destruct sx, sy, (ey ?= ex), (my ?= mx)%positive; reflexivity.
Qed.

(** Off NaN, "not below" is "at least". *)
Lemma lt_is_not_le (x y : float64) :
  f64.is_nan x = false -> f64.is_nan y = false ->
  f64.lt x y = negb (f64.le y x).
Proof.
  intros Hx Hy. unfold f64.lt, f64.le, SFltb, SFleb.
  rewrite (SFcompare_antisym x y).
  destruct (SFcompare x y) as [[]|] eqn:E; try reflexivity.
  destruct x, y; try discriminate; cbn in E;
    repeat match type of E with
           | context [if ?b then _ else _] => destruct b
           end; discriminate.
Qed.

Lemma out_of_range_within (lo hi x : float64) :
  f64.is_nan lo = false -> f64.is_nan hi = false -> f64.is_nan x = false ->
  out_of_range lo hi x = negb (f64.within lo hi x).
Proof.
  intros Hlo Hhi Hx. unfold out_of_range, f64.within, f64.gt.
  fold (f64.lt hi x).
  rewrite (lt_is_not_le x lo), (lt_is_not_le hi x) by assumption.
  now rewrite negb_andb.
Qed.

(** A NaN passes both comparisons of a range check. *)
Lemma out_of_range_NaN (lo hi : float64) : out_of_range lo hi f64.NaN = false.
Proof. unfold out_of_range, f64.lt, f64.gt, SFltb. destruct lo, hi; reflexivity. Qed.

Lemma within_not_nan (lo hi x : float64) : f64.within lo hi x = true -> f64.is_nan x = false.
Proof.
  destruct x; try reflexivity.
  unfold f64.within, f64.le, SFleb. destruct lo; discriminate.
Qed.

(** Between two finite bounds there is no infinity. *)
Lemma within_not_inf (lo hi x : float64) :
  f64.is_inf lo = false -> f64.is_inf hi = false ->
  f64.within lo hi x = true -> f64.is_inf x = false.
Proof.
  intros Hlo Hhi. destruct x as [| s | |]; try reflexivity.
  unfold f64.within, f64.le, SFleb.
  destruct lo, hi, s; try discriminate; cbn; try discriminate;
    repeat match goal with
           | |- context [if ?b then _ else _] => destruct b
           end; discriminate.
Qed.

(** * The validator *)

(** The validator, with each pair of comparisons named. *)
Lemma CheckFormat_tests (body : Body.t) (found : bool) :
  request.CheckFormat body found =
  if negb found then Some ErrWrongModel
  else if out_of_range globals.TempRangeMin globals.TempRangeMax (Body.Temperature body)
  then Some ErrWrongTempRange
  else if out_of_range globals.TopPMin globals.TopPMax (Body.Top_P body)
  then Some ErrWrongToppRange
  else if out_of_range globals.PresenceMin globals.PresenceMax (Body.Presence_Pen body)
  then Some ErrWrongPresenceRange
  else if out_of_range globals.FrequenceMin globals.FrequenceMax (Body.Frequence_Pen body)
  then Some ErrWrongFrequenceRange
  else if (Body.Best_Of body <? 1) || (20 <? Body.Best_Of body)
  then Some ErrWrongBestOfRange
  else None.
Proof.
  unfold request.CheckFormat, out_of_range, globals.BestOfMin, globals.BestOfMax.
  rewrite Z.gtb_ltb. reflexivity.
Qed.

Lemma CheckFormat_unknown (body : Body.t) : request.CheckFormat body false = Some ErrWrongModel.
Proof. reflexivity. Qed.

(** Off NaN the validator accepts exactly the closed ranges of the
    specification. *)
Lemma CheckFormat_ranges_off_NaN (t p f pr : float64) (b : int) :
  f64.is_nan t = false -> f64.is_nan p = false ->
  f64.is_nan f = false -> f64.is_nan pr = false ->
  request.CheckFormat (bodyOf t p f pr b) true = None <-> in_ranges t p f pr b = true.
Proof.
  intros Ht Hp Hf Hpr.
  rewrite CheckFormat_tests. unfold in_ranges, bodyOf; cbn [negb Body.Temperature
    Body.Top_P Body.Presence_Pen Body.Frequence_Pen Body.Best_Of].
  unfold temperature_ok, topP_ok, presence_ok, frequence_ok, bestOf_ok.
  rewrite !out_of_range_within by (assumption || reflexivity).
  change (f64.of_Z 0) with globals.TempRangeMin.
  change (f64.of_Z 1) with globals.TempRangeMax.
  change (f64.of_Z (-2)) with globals.PresenceMin.
  change (f64.of_Z 2) with globals.PresenceMax.
  change globals.TopPMin with globals.TempRangeMin.
  change globals.TopPMax with globals.TempRangeMax.
  change globals.FrequenceMin with globals.PresenceMin.
  change globals.FrequenceMax with globals.PresenceMax.
  destruct (f64.within globals.TempRangeMin globals.TempRangeMax t);
    [|split; discriminate].
  destruct (f64.within globals.TempRangeMin globals.TempRangeMax p);
    [|split; discriminate].
  destruct (f64.within globals.PresenceMin globals.PresenceMax pr);
    [|split; discriminate].
  destruct (f64.within globals.PresenceMin globals.PresenceMax f);
    [|split; discriminate].
  cbn [negb app andb].
  destruct (Z.ltb_spec b 1), (Z.ltb_spec 20 b), (Z.leb_spec 1 b), (Z.leb_spec b 20);
    cbn; split; (discriminate || reflexivity || lia).
Qed.

Lemma CheckFormat_fields (body : Body.t) (found : bool) :
  request.CheckFormat body found =
  request.CheckFormat (bodyOf (Body.Temperature body) (Body.Top_P body)
                         (Body.Frequence_Pen body) (Body.Presence_Pen body)
                         (Body.Best_Of body)) found.
Proof. reflexivity. Qed.

Lemma in_ranges_not_nan (t p f pr : float64) (b : int) :
  in_ranges t p f pr b = true ->
  f64.is_nan t = false /\ f64.is_nan p = false /\ f64.is_nan f = false
  /\ f64.is_nan pr = false.
Proof.
  unfold in_ranges. rewrite !andb_true_iff. intros [[[[Ht Hp] Hpr] Hf] _].
  repeat split; eapply within_not_nan; eassumption.
Qed.

Lemma in_ranges_encFloat (t p f pr : float64) (b : int) :
  in_ranges t p f pr b = true ->
  json.encFloat t = inr (json.Float t) /\ json.encFloat p = inr (json.Float p)
  /\ json.encFloat f = inr (json.Float f) /\ json.encFloat pr = inr (json.Float pr).
Proof.
  intros H. destruct (in_ranges_not_nan _ _ _ _ _ H) as (Nt & Np & Nf & Npr).
  revert H. unfold in_ranges. rewrite !andb_true_iff. intros [[[[Ht Hp] Hpr] Hf] _].
  unfold json.encFloat.
  rewrite Nt, Np, Nf, Npr.
  apply within_not_inf in Ht, Hp, Hf, Hpr; try reflexivity.
  rewrite Ht, Hp, Hf, Hpr. auto.
Qed.

Lemma in_ranges_CheckFormat (body : Body.t) :
  in_ranges (Body.Temperature body) (Body.Top_P body) (Body.Frequence_Pen body)
    (Body.Presence_Pen body) (Body.Best_Of body) = true ->
  request.CheckFormat body true = None.
Proof.
  intros H. rewrite CheckFormat_fields.
  destruct (in_ranges_not_nan _ _ _ _ _ H) as (Nt & Np & Nf & Npr).
  now apply CheckFormat_ranges_off_NaN.
Qed.

(** * The loop over the choices *)

Lemma length_zero_eqb (s : string) :
  (String.length s =? 0)%nat = String.eqb s EmptyString.
Proof. destruct s; reflexivity. Qed.

Lemma collect_app (chat : bool) (choices : list APIText.t) (answers : list string) :
  request.collect chat choices answers = answers ++ comments chat choices.
Proof.
  unfold request.collect, comments.
  revert answers. induction choices as [|c choices IH]; intros answers; cbn [fold_left].
  - destruct chat; cbn; now rewrite app_nil_r.
  - rewrite IH. destruct chat; cbn [List.map List.filter].
    + now rewrite <- app_assoc.
    + rewrite length_zero_eqb.
      destruct (String.eqb (APIText.Text c) EmptyString); cbn [negb].
      * reflexivity.
      * now rewrite <- app_assoc.
Qed.

Lemma collect_comments (chat : bool) (choices : list APIText.t) :
  request.collect chat choices [] = comments chat choices.
Proof. apply collect_app. Qed.

(** * A run with parameters in their ranges *)

Lemma requestJSON_ok (model : globals.Model) (gitDiff : string) (maxtokens : int)
    (t p f pr : float64) (b : int) :
  in_ranges t p f pr b = true ->
  exists body, requestJSON model gitDiff maxtokens t p f pr b = inr body.
Proof.
  intros H. destruct (in_ranges_encFloat _ _ _ _ _ H) as (Et & Ep & Ef & Epr).
  unfold requestJSON, request.configureParams, request.createRequestBody, request.withPrompt.
  destruct (globals.Chat model);
    unfold request.Marshal_ChatBody, request.Marshal_Body;
    cbn [ChatBody.Temperature ChatBody.Top_P ChatBody.Frequence_Pen ChatBody.Presence_Pen
         Body.Temperature Body.Top_P Body.Frequence_Pen Body.Presence_Pen];
    rewrite Et, Ep, Ef, Epr; cbn [bindE]; eauto.
Qed.

Lemma request_run (w : World) (key gitDiff alias : string) (model : globals.Model)
    (maxtokens : int) (t p f pr : float64) (b : int) :
  globals.Models !! alias = Some model ->
  in_ranges t p f pr b = true ->
  exists body,
    requestJSON model gitDiff maxtokens t p f pr b = inr body
    /\ result (request.RequestImprovements w key gitDiff alias maxtokens t p f pr b)
       = interpret w (globals.Chat model) (postRequest (endpoint (globals.Chat model)) key body)
    /\ Sent (postRequest (endpoint (globals.Chat model)) key body)
       ∈ trace (request.RequestImprovements w key gitDiff alias maxtokens t p f pr b).
Proof.
  intros Hm Hr. destruct (requestJSON_ok model gitDiff maxtokens _ _ _ _ _ Hr) as [body Hb].
  exists body. split; [exact Hb|].
  unfold requestJSON in Hb.
  destruct (request.configureParams model maxtokens t p f pr b) as [params chatParams] eqn:Ec.
  assert (Hc : request.CheckFormat params true = None).
  { apply in_ranges_CheckFormat. unfold request.configureParams in Ec.
    injection Ec as <- _. exact Hr. }
  unfold request.RequestImprovements. rewrite Hm. cbv beta iota zeta.
  rewrite Ec, Hc, Hb.
  replace (request.API_BASE_URL +:+ (if globals.Chat model then "chat/completions" else "completions"))
    with (endpoint (globals.Chat model)) by (destruct (globals.Chat model); reflexivity).
  unfold http.NewRequest, http.Header_Set, request.LogVerbose, LogPanic, LogError, postRequest, interpret.
  cbn [http.Method http.URL http.Header http.Body].
  match goal with |- context [Do w ?r] => set (req := r) end.
  destruct (Verbose w), (LogReady w), (Do w req) as [e|resp];
    try destruct (Unmarshal w resp) as [e|r];
    try destruct (APIResponse.Err r);
    cbn [bind emit ret panic result trace fst snd app];
    rewrite ?collect_comments; (split; [reflexivity | set_solver]).
Qed.


Lemma requestJSON_orig_ok (w : World) (model : globals.Model) (gitDiff : string)
    (maxtokens : int) (t p f pr : float64) (b : int) :
  in_ranges t p f pr b = true ->
  exists body, requestJSON_orig w model gitDiff maxtokens t p f pr b = inr body.
Proof.
  intros H. destruct (in_ranges_encFloat _ _ _ _ _ H) as (Et & Ep & Ef & Epr).
  unfold requestJSON_orig, request.configureParams, request_orig.withPrompt.
  destruct (globals.Chat model);
    unfold request.Marshal_ChatBody, request.Marshal_Body;
    cbn [ChatBody.Temperature ChatBody.Top_P ChatBody.Frequence_Pen ChatBody.Presence_Pen
         Body.Temperature Body.Top_P Body.Frequence_Pen Body.Presence_Pen];
    rewrite Et, Ep, Ef, Epr; cbn [bindE]; eauto.
Qed.

Lemma request_orig_run (w : World) (key gitDiff alias : string) (model : globals.Model)
    (maxtokens : int) (t p f pr : float64) (b : int) :
  globals.Models !! alias = Some model ->
  in_ranges t p f pr b = true ->
  exists body,
    requestJSON_orig w model gitDiff maxtokens t p f pr b = inr body
    /\ result (request_orig.RequestImprovements w key gitDiff alias maxtokens t p f pr b)
       = interpret w (globals.Chat model) (postRequest (endpoint (globals.Chat model)) key body)
    /\ Sent (postRequest (endpoint (globals.Chat model)) key body)
       ∈ trace (request_orig.RequestImprovements w key gitDiff alias maxtokens t p f pr b).
Proof.
  intros Hm Hr.
  destruct (requestJSON_orig_ok w model gitDiff maxtokens _ _ _ _ _ Hr) as [body Hb].
  exists body. split; [exact Hb|].
  unfold requestJSON_orig, request.configureParams in Hb.
  unfold request_orig.RequestImprovements. rewrite Hm. cbv beta iota zeta.
  rewrite in_ranges_CheckFormat by exact Hr.
  match type of Hb with
  | (let '(_, _) := ?x in _) = _ => destruct x as [params chatParams]
  end.
  rewrite Hb.
  replace ("https://api.openai.com/v1/" +:+
           (if globals.Chat model then "chat/completions" else "completions"))
    with (endpoint (globals.Chat model)) by (destruct (globals.Chat model); reflexivity).
  unfold http.NewRequest, http.Header_Set, request.LogVerbose, LogPanic, LogError,
    postRequest, interpret.
  cbn [http.Method http.URL http.Header http.Body].
  match goal with |- context [Do w ?r] => set (req := r) end.
  destruct (Verbose w), (LogReady w), (Do w req) as [e|resp];
    try destruct (Unmarshal w resp) as [e|r];
    try destruct (APIResponse.Err r);
    cbn [bind emit ret panic result trace fst snd app];
    rewrite ?collect_comments; (split; [reflexivity | set_solver]).
Qed.

Lemma request_shape (w : World) (key gitDiff alias : string) (maxtokens : int)
    (t p f pr : float64) (b : int) :
  request.RequestImprovements w key gitDiff alias maxtokens t p f pr b =
  match request.CheckFormat (bodyOf t p f pr b) (known alias) with
  | Some e => ([], Returned ([], Some e))
  | None =>
      match requestJSON (modelOf alias) gitDiff maxtokens t p f pr b with
      | inl e =>
          ([Logged ErrorLevel ("Error creating request body: " +:+ Error e)],
           Returned ([], Some e))
      | inr j =>
          let req := postRequest (endpoint (globals.Chat (modelOf alias))) key j in
          (info w "Creating new request" ++ info w "Requesting GPT" ++ [Sent req]
           ++ answerTrace w req,
           interpret w (globals.Chat (modelOf alias)) req)
      end
  end.
Proof.
  unfold request.RequestImprovements, requestJSON, known, modelOf.
  set (model := match globals.Models !! alias with Some m => m | None => globals.zeroModel end).
  set (found := match globals.Models !! alias with Some _ => true | None => false end).
  unfold request.configureParams. cbv beta iota zeta.
  rewrite CheckFormat_fields.
  cbn [Body.Temperature Body.Top_P Body.Frequence_Pen Body.Presence_Pen Body.Best_Of].
  destruct (request.CheckFormat (bodyOf t p f pr b) found); [reflexivity|].
  destruct (request.createRequestBody model _ _ gitDiff) as [e|j]; [reflexivity|].
  replace (request.API_BASE_URL +:+ (if globals.Chat model then "chat/completions" else "completions"))
    with (endpoint (globals.Chat model)) by (destruct (globals.Chat model); reflexivity).
  unfold http.NewRequest, http.Header_Set, request.LogVerbose, LogPanic, LogError,
    postRequest, interpret, answerTrace, info.
  cbn [http.Method http.URL http.Header http.Body].
  match goal with |- context [Do w ?r] => set (req := r) end.
  destruct (Verbose w), (LogReady w), (Do w req) as [e|resp];
    try destruct (Unmarshal w resp) as [e|r];
    try destruct (APIResponse.Err r);
    cbn [bind emit ret panic fst snd app];
    rewrite ?collect_comments; reflexivity.
Qed.

Lemma request_orig_shape (w : World) (key gitDiff alias : string) (maxtokens : int)
    (t p f pr : float64) (b : int) :
  request_orig.RequestImprovements w key gitDiff alias maxtokens t p f pr b =
  match request.CheckFormat (bodyOf t p f pr b) (known alias) with
  | Some e => ([], Returned ([], Some e))
  | None =>
      match requestJSON_orig w (modelOf alias) gitDiff maxtokens t p f pr b with
      | inl e => ([], Returned ([], Some e))
      | inr j =>
          let req := postRequest (endpoint (globals.Chat (modelOf alias))) key j in
          (info w "Creating new request" ++ info w "Requesting GPT" ++ [Sent req]
           ++ answerTrace w req,
           interpret w (globals.Chat (modelOf alias)) req)
      end
  end.
Proof.
  unfold request_orig.RequestImprovements, requestJSON_orig, known, modelOf.
  set (model := match globals.Models !! alias with Some m => m | None => globals.zeroModel end).
  set (found := match globals.Models !! alias with Some _ => true | None => false end).
  unfold request.configureParams. cbv beta iota zeta.
  rewrite CheckFormat_fields.
  cbn [Body.Temperature Body.Top_P Body.Frequence_Pen Body.Presence_Pen Body.Best_Of].
  destruct (request.CheckFormat (bodyOf t p f pr b) found); [reflexivity|].
  destruct (request_orig.withPrompt w model _ _ gitDiff) as [params chatParams].
  destruct (if globals.Chat model then request.Marshal_ChatBody chatParams
            else request.Marshal_Body params) as [e|j]; [reflexivity|].
  replace ("https://api.openai.com/v1/" +:+
           (if globals.Chat model then "chat/completions" else "completions"))
    with (endpoint (globals.Chat model)) by (destruct (globals.Chat model); reflexivity).
  unfold http.NewRequest, http.Header_Set, request.LogVerbose, LogPanic, LogError,
    postRequest, interpret, answerTrace, info.
  cbn [http.Method http.URL http.Header http.Body].
  match goal with |- context [Do w ?r] => set (req := r) end.
  destruct (Verbose w), (LogReady w), (Do w req) as [e|resp];
    try destruct (Unmarshal w resp) as [e|r];
    try destruct (APIResponse.Err r);
    cbn [bind emit ret panic fst snd app];
    rewrite ?collect_comments; reflexivity.
Qed.

(** With the model known and the parameters in their ranges, each copy
    builds its request, sends it and goes by the answer. *)
Lemma run_in_ranges (w : World) (key gitDiff alias : string) (model : globals.Model)
    (maxtokens : int) (t p f pr : float64) (b : int) :
  globals.Models !! alias = Some model ->
  in_ranges t p f pr b = true ->
  exists j j' : json.value,
    requestJSON model gitDiff maxtokens t p f pr b = inr j
    /\ requestJSON_orig w model gitDiff maxtokens t p f pr b = inr j'
    /\ request.RequestImprovements w key gitDiff alias maxtokens t p f pr b
       = (let req := postRequest (endpoint (globals.Chat model)) key j in
          (info w "Creating new request" ++ info w "Requesting GPT" ++ [Sent req]
           ++ answerTrace w req,
           interpret w (globals.Chat model) req))
    /\ request_orig.RequestImprovements w key gitDiff alias maxtokens t p f pr b
       = (let req := postRequest (endpoint (globals.Chat model)) key j' in
          (info w "Creating new request" ++ info w "Requesting GPT" ++ [Sent req]
           ++ answerTrace w req,
           interpret w (globals.Chat model) req)).
Proof.
  intros Hm Hr.
  destruct (requestJSON_ok model gitDiff maxtokens _ _ _ _ _ Hr) as [j Hj].
  destruct (requestJSON_orig_ok w model gitDiff maxtokens _ _ _ _ _ Hr) as [j' Hj'].
  exists j, j'. split; [exact Hj|]. split; [exact Hj'|].
  rewrite request_shape, request_orig_shape. unfold known, modelOf. rewrite Hm.
  rewrite (in_ranges_CheckFormat (bodyOf t p f pr b)) by exact Hr.
  rewrite Hj, Hj'. split; reflexivity.
Qed.

(** * The claims about the validator *)

(** Off NaN the validator answers with the error of the first check of
    the specification that fails, in the order model, temperature, top_p,
    presence penalty, frequence penalty, best_of, whatever the later
    parameters are. *)
Lemma CheckFormat_first_violation (body : Body.t) (found : bool) :
  f64.is_nan (Body.Temperature body) = false -> f64.is_nan (Body.Top_P body) = false ->
  f64.is_nan (Body.Presence_Pen body) = false ->
  f64.is_nan (Body.Frequence_Pen body) = false ->
  request.CheckFormat body found = head (violations body found).
Proof.
  intros Ht Hp Hpr Hf. rewrite CheckFormat_tests. unfold violations.
  rewrite !out_of_range_within by (assumption || reflexivity).
  unfold temperature_ok, topP_ok, presence_ok, frequence_ok, bestOf_ok.
  change (f64.of_Z 0) with globals.TempRangeMin.
  change (f64.of_Z 1) with globals.TempRangeMax.
  change (f64.of_Z (-2)) with globals.PresenceMin.
  change (f64.of_Z 2) with globals.PresenceMax.
  change globals.TopPMin with globals.TempRangeMin.
  change globals.TopPMax with globals.TempRangeMax.
  change globals.FrequenceMin with globals.PresenceMin.
  change globals.FrequenceMax with globals.PresenceMax.
  destruct found; cbn [negb app]; [|reflexivity].
  destruct (f64.within globals.TempRangeMin globals.TempRangeMax (Body.Temperature body));
    [|reflexivity].
  destruct (f64.within globals.TempRangeMin globals.TempRangeMax (Body.Top_P body));
    [|reflexivity].
  destruct (f64.within globals.PresenceMin globals.PresenceMax (Body.Presence_Pen body));
    [|reflexivity].
  destruct (f64.within globals.PresenceMin globals.PresenceMax (Body.Frequence_Pen body));
    [|reflexivity].
  cbn [negb app].
  destruct (Z.ltb_spec (Body.Best_Of body) 1), (Z.ltb_spec 20 (Body.Best_Of body)),
    (Z.leb_spec 1 (Body.Best_Of body)), (Z.leb_spec (Body.Best_Of body) 20);
    cbn; (reflexivity || lia).
Qed.

(** In both copies a call on an alias outside the registry returns
    [ErrWrongModel], without a comment and without any event, whatever the
    other arguments are. *)
Lemma unknown_alias_rejected (w : World) (key gitDiff alias : string) (maxtokens : int)
    (t p f pr : float64) (b : int) :
  globals.Models !! alias = None ->
  request.RequestImprovements w key gitDiff alias maxtokens t p f pr b
    = ([], Returned ([], Some ErrWrongModel))
  /\ request_orig.RequestImprovements w key gitDiff alias maxtokens t p f pr b
    = ([], Returned ([], Some ErrWrongModel)).
Proof.
  intros Hm. unfold request.RequestImprovements, request_orig.RequestImprovements.
  rewrite Hm. split; reflexivity.
Qed.

(** C1, at the input on which the validator departs from it: with the
    model found, a NaN temperature, a top_p of 3 and every other parameter
    inside its range, two checks of the specification fail, the one on the
    temperature and the one on top_p, in that order; the validator answers
    with the error of the second, [ErrWrongToppRange], and so do both
    copies of [RequestImprovements].  A NaN fails neither comparison of its
    range check, so the first failed check is passed over. *)
Theorem CheckFormat_first_failure_skips_NaN :
  temperature_ok f64.NaN = false
  /\ topP_ok (f64.of_Z 3) = false
  /\ violations (bodyOf f64.NaN (f64.of_Z 3) half half 1) true
     = [ErrWrongTempRange; ErrWrongToppRange]
  /\ request.CheckFormat (bodyOf f64.NaN (f64.of_Z 3) half half 1) true
     = Some ErrWrongToppRange
  /\ request.RequestImprovements (stub EmptyString (inl ErrWrongKey)) "key" "diff" "turbo" 16
       f64.NaN (f64.of_Z 3) half half 1
     = ([], Returned ([], Some ErrWrongToppRange))
  /\ request_orig.RequestImprovements (stub EmptyString (inl ErrWrongKey)) "key" "diff"
       "turbo" 16 f64.NaN (f64.of_Z 3) half half 1
     = ([], Returned ([], Some ErrWrongToppRange)).
Proof. repeat split; vm_compute; reflexivity. Qed.

(** C2, at the input on which the validator departs from it: with the model
    found, a NaN temperature and every other parameter inside its range, the
    validator answers success although the temperature is not in [0, 1]; the
    call then gets as far as [json.Marshal], which refuses the value. *)
Theorem CheckFormat_accepts_NaN :
  request.CheckFormat (bodyOf f64.NaN half half half 1) true = None
  /\ temperature_ok f64.NaN = false
  /\ topP_ok half = true /\ presence_ok half = true /\ frequence_ok half = true
  /\ bestOf_ok 1 = true
  /\ request.RequestImprovements (stub EmptyString (inl ErrWrongKey)) "key" "diff" "turbo" 16
       f64.NaN half half half 1
     = ([Logged ErrorLevel "Error creating request body: json: unsupported value: NaN"],
        Returned ([], Some (UnsupportedValueError f64.NaN))).
Proof. repeat split; vm_compute; reflexivity. Qed.

(** C10. For a chat model, whose request has no [best_of] member, best_of
    is range-checked all the same: when the four earlier range checks pass
    and best_of is below 1 or above 20, both copies return
    [ErrWrongBestOfRange] with no comment and no event at all, so before a
    request body is built and before anything is sent. *)
Theorem chat_bestOf_still_checked (w : World) (key gitDiff alias : string)
    (model : globals.Model) (maxtokens : int) (t p f pr : float64) (b : int) :
  globals.Models !! alias = Some model ->
  globals.Chat model = true ->
  out_of_range globals.TempRangeMin globals.TempRangeMax t = false ->
  out_of_range globals.TopPMin globals.TopPMax p = false ->
  out_of_range globals.PresenceMin globals.PresenceMax pr = false ->
  out_of_range globals.FrequenceMin globals.FrequenceMax f = false ->
  b < 1 \/ 20 < b ->
  request.RequestImprovements w key gitDiff alias maxtokens t p f pr b
    = ([], Returned ([], Some ErrWrongBestOfRange))
  /\ request_orig.RequestImprovements w key gitDiff alias maxtokens t p f pr b
    = ([], Returned ([], Some ErrWrongBestOfRange)).
Proof.
  intros Hm _ Ht Hp Hpr Hf Hb.
  assert (Hc : forall name prompt,
             request.CheckFormat
               {| Body.Model := name; Body.Prompt := prompt; Body.Temperature := t;
                  Body.Max_Tokens := maxtokens; Body.Top_P := p; Body.Frequence_Pen := f;
                  Body.Presence_Pen := pr; Body.Best_Of := b |} true
             = Some ErrWrongBestOfRange).
  { intros name prompt. rewrite CheckFormat_tests.
    cbn [negb Body.Temperature Body.Top_P Body.Presence_Pen Body.Frequence_Pen Body.Best_Of].
    rewrite Ht, Hp, Hpr, Hf. cbn [app].
    destruct (Z.ltb_spec b 1), (Z.ltb_spec 20 b); cbn; (reflexivity || lia). }
  unfold request.RequestImprovements, request_orig.RequestImprovements, request.configureParams.
  rewrite Hm. cbv beta iota zeta. rewrite !Hc. split; reflexivity.
Qed.

(** [gpt4] with a best_of of 21. *)
Lemma chat_bestOf_still_checked_witness :
  request.RequestImprovements (stub EmptyString (inl ErrWrongKey)) "key" "diff" "gpt4" 16
    half half half half 21
  = ([], Returned ([], Some ErrWrongBestOfRange)).
Proof.
  assert (Hm : globals.Models !! "gpt4" = Some globals.GPT4) by (vm_compute; reflexivity).
  assert (H01 : out_of_range globals.TempRangeMin globals.TempRangeMax half = false)
    by (vm_compute; reflexivity).
  assert (H22 : out_of_range globals.PresenceMin globals.PresenceMax half = false)
    by (vm_compute; reflexivity).
  assert (Hb : 21 < 1 \/ 20 < 21) by (right; lia).
  exact (proj1 (chat_bestOf_still_checked (stub EmptyString (inl ErrWrongKey)) "key" "diff"
                  "gpt4" globals.GPT4 16 half half half half 21 Hm eq_refl H01 H01 H22 H22 Hb)).
Defined.

(** * The claims about the outcome of a call *)

(** Every way in which [bind] can end in a return. *)
Lemma bind_returned {A B : Type} (m : M A) (k : A -> M B) (r : B) :
  result (bind m k) = Returned r ->
  exists a, result m = Returned a /\ result (k a) = Returned r.
Proof.
  unfold result, bind. destruct m as [t [a|v]].
  - destruct (k a) as [t' r'] eqn:E. cbn [snd]. intros ->. exists a. now rewrite E.
  - discriminate.
Qed.

Ltac returned H :=
  repeat match type of H with
    | result (bind _ _) = Returned _ =>
        let a := fresh "a" in
        let Ha := fresh "Ha" in
        apply bind_returned in H; destruct H as (a & Ha & H)
    end.

(** The part of a call that follows the sending of the request returns an
    error only with no comment. *)
Lemma after_request_no_comment (w : World) (chat : bool) (body : error + string)
    (answers : list string) (e : error) :
  result
    (match body with
     | inl err => ret ([], Some err)
     | inr body =>
         (request.LogVerbose w "Got back the request information" ;;
          match Unmarshal w body with
          | inl err => LogPanic w (Error err)
          | inr apiReq =>
              match APIResponse.Err apiReq with
              | Some err => ret ([], Some (errorString (ApiErr.Message err)))
              | None => ret (request.collect chat (APIResponse.Choices apiReq) [], None)
              end
          end)%run
     end) = Returned (answers, Some e) ->
  answers = [].
Proof.
  destruct body as [err|body].
  - cbn. congruence.
  - intros H. returned H.
    destruct (Unmarshal w body) as [err|apiReq].
    + unfold LogPanic in H. destruct (LogReady w); [returned H|]; discriminate.
    + destruct (APIResponse.Err apiReq); cbn in H; congruence.
Qed.


(** The older copy, likewise. *)
Lemma error_without_comments_orig (w : World) (key gitDiff rawModel : string)
    (maxtokens : int) (t p f pr : float64) (b : int) (answers : list string) (e : error) :
  result (request_orig.RequestImprovements w key gitDiff rawModel maxtokens t p f pr b)
    = Returned (answers, Some e) ->
  answers = [].
Proof.
  unfold request_orig.RequestImprovements. cbv beta iota zeta.
  destruct (request.CheckFormat _ _); [cbn; congruence|].
  destruct (request_orig.withPrompt _ _ _ _ _) as [params chatParams].
  destruct (if globals.Chat _ then _ else _) as [err|reqBody].
  - cbn. congruence.
  - unfold http.NewRequest. intros H. returned H.
    eapply after_request_no_comment. exact H.
Qed.


(** * The claims about the interpretation of the response *)

Section StubbedTransport.

Variables (w : World) (key gitDiff alias : string) (model : globals.Model).
Variables (maxtokens : int) (t p f pr : float64) (b : int).
Variable body : string.

Hypothesis known : globals.Models !! alias = Some model.
Hypothesis valid : in_ranges t p f pr b = true.
Hypothesis answered : forall req, Do w req = inr body.

(** With the model known, the parameters in their ranges and the transport
    answering [body], each copy ends as the decoding of [body] decides. *)
Lemma answered_run :
  let ending :=
    match Unmarshal w body with
    | inl e => Panicked (if LogReady w then Error e else EmptyString)
    | inr r =>
        match APIResponse.Err r with
        | Some a => Returned ([], Some (errorString (ApiErr.Message a)))
        | None => Returned (comments (globals.Chat model) (APIResponse.Choices r), None)
        end
    end in
  result (request.RequestImprovements w key gitDiff alias maxtokens t p f pr b) = ending
  /\ result (request_orig.RequestImprovements w key gitDiff alias maxtokens t p f pr b) = ending.
Proof.
  destruct (request_run w key gitDiff alias model maxtokens t p f pr b known valid)
    as (j & _ & H & _).
  destruct (request_orig_run w key gitDiff alias model maxtokens t p f pr b known valid)
    as (j' & _ & H' & _).
  cbv zeta. rewrite H, H'. unfold interpret. rewrite !answered. split; reflexivity.
Qed.

End StubbedTransport.

(** C3. When the response carries no error, both copies return, without an
    error, the comments read off the choices in the order of the response:
    for a chat model the content of the message of every choice, empty or
    not; for a legacy model the texts of non-zero length.  The loop of the
    code computes exactly that list.  Three legacy choices whose texts are
    empty, "improve X" and empty give the one comment "improve X", and a
    single chat
    choice with the content "looks fine" gives that one comment. *)
Theorem choices_become_comments :
  (forall (w : World) (key gitDiff alias : string) (model : globals.Model)
      (maxtokens : int) (t p f pr : float64) (b : int) (body : string) (r : APIResponse.t),
      globals.Models !! alias = Some model ->
      in_ranges t p f pr b = true ->
      (forall req, Do w req = inr body) ->
      Unmarshal w body = inr r ->
      APIResponse.Err r = None ->
      let expected :=
        if globals.Chat model
        then List.map (fun c => Message.Content (APIText.Message c)) (APIResponse.Choices r)
        else List.filter (fun s => negb (String.eqb s EmptyString))
               (List.map APIText.Text (APIResponse.Choices r)) in
      result (request.RequestImprovements w key gitDiff alias maxtokens t p f pr b)
        = Returned (expected, None)
      /\ result (request_orig.RequestImprovements w key gitDiff alias maxtokens t p f pr b)
        = Returned (expected, None))
  /\ (forall (chat : bool) (choices : list APIText.t),
        request.collect chat choices [] = comments chat choices)
  /\ (forall c1 c2 c3 : APIText.t,
        APIText.Text c1 = EmptyString -> APIText.Text c2 = "improve X" ->
        APIText.Text c3 = EmptyString ->
        request.collect false [c1; c2; c3] [] = ["improve X"])
  /\ (forall c : APIText.t,
        Message.Content (APIText.Message c) = "looks fine" ->
        request.collect true [c] [] = ["looks fine"]).
Proof.
  split; [|split; [|split]].
  - intros w key gitDiff alias model maxtokens t p f pr b body r Hm Hr Hd Hu He.
    pose proof (answered_run w key gitDiff alias model maxtokens t p f pr b body Hm Hr Hd) as R.
    cbv zeta in R. rewrite Hu, He in R. exact R.
  - exact collect_comments.
  - intros c1 c2 c3 H1 H2 H3. rewrite collect_comments. cbn. now rewrite H1, H2, H3.
  - intros c Hc. rewrite collect_comments. cbn. now rewrite Hc.
Qed.

(** The two responses of the specification, behind a stubbed transport. *)
Lemma choices_become_comments_witness :
  result (request.RequestImprovements
            (stub "{}" (inr (response None [choice EmptyString EmptyString 0;
                                            choice "improve X" EmptyString 1;
                                            choice EmptyString EmptyString 2])))
            "key" "diff" "davinci" 16 half half half half 1)
    = Returned (["improve X"], None)
  /\ result (request.RequestImprovements
               (stub "{}" (inr (response None [choice EmptyString "looks fine" 0])))
               "key" "diff" "turbo" 16 half half half half 1)
    = Returned (["looks fine"], None).
Proof.
  destruct choices_become_comments as (Hrun & _).
  assert (Hd : globals.Models !! "davinci" = Some globals.Davinci) by (vm_compute; reflexivity).
  assert (Ht : globals.Models !! "turbo" = Some globals.Turbo) by (vm_compute; reflexivity).
  assert (Hr : in_ranges half half half half 1 = true) by (vm_compute; reflexivity).
  split.
  - exact (proj1 (Hrun (stub "{}" (inr (response None [choice EmptyString EmptyString 0;
                                                        choice "improve X" EmptyString 1;
                                                        choice EmptyString EmptyString 2])))
                    "key" "diff" "davinci" globals.Davinci 16 half half half half 1 "{}"
                    (response None [choice EmptyString EmptyString 0;
                                    choice "improve X" EmptyString 1;
                                    choice EmptyString EmptyString 2])
                    Hd Hr (fun _ => eq_refl) eq_refl eq_refl)).
  - exact (proj1 (Hrun (stub "{}" (inr (response None [choice EmptyString "looks fine" 0])))
                    "key" "diff" "turbo" globals.Turbo 16 half half half half 1 "{}"
                    (response None [choice EmptyString "looks fine" 0])
                    Ht Hr (fun _ => eq_refl) eq_refl eq_refl)).
Defined.

(** C4. When the decoded response has its error member set, both copies
    return an error whose text is exactly the message of that member, and
    no comment, whatever choices the response has. *)
Theorem upstream_error_returned (w : World) (key gitDiff alias : string)
    (model : globals.Model) (maxtokens : int) (t p f pr : float64) (b : int)
    (body : string) (r : APIResponse.t) (a : ApiErr.t) :
  globals.Models !! alias = Some model ->
  in_ranges t p f pr b = true ->
  (forall req, Do w req = inr body) ->
  Unmarshal w body = inr r ->
  APIResponse.Err r = Some a ->
  exists e : error,
    Error e = ApiErr.Message a
    /\ result (request.RequestImprovements w key gitDiff alias maxtokens t p f pr b)
       = Returned ([], Some e)
    /\ result (request_orig.RequestImprovements w key gitDiff alias maxtokens t p f pr b)
       = Returned ([], Some e).
Proof.
  intros Hm Hr Hd Hu He.
  pose proof (answered_run w key gitDiff alias model maxtokens t p f pr b body Hm Hr Hd) as R.
  cbv zeta in R. rewrite Hu, He in R.
  exists (errorString (ApiErr.Message a)). split; [reflexivity | exact R].
Qed.

(** A response with the error "invalid api key" and a choice. *)
Lemma upstream_error_returned_witness :
  exists e : error,
    Error e = "invalid api key"
    /\ result (request.RequestImprovements
                 (stub "{}" (inr (response (Some invalidKey) [choice "improve X" "fine" 0])))
                 "key" "diff" "davinci" 16 half half half half 1)
       = Returned ([], Some e)
    /\ result (request_orig.RequestImprovements
                 (stub "{}" (inr (response (Some invalidKey) [choice "improve X" "fine" 0])))
                 "key" "diff" "davinci" 16 half half half half 1)
       = Returned ([], Some e).
Proof.
  assert (Hd : globals.Models !! "davinci" = Some globals.Davinci) by (vm_compute; reflexivity).
  assert (Hr : in_ranges half half half half 1 = true) by (vm_compute; reflexivity).
  exact (upstream_error_returned
           (stub "{}" (inr (response (Some invalidKey) [choice "improve X" "fine" 0])))
           "key" "diff" "davinci" globals.Davinci 16 half half half half 1 "{}"
           (response (Some invalidKey) [choice "improve X" "fine" 0]) invalidKey
           Hd Hr (fun _ => eq_refl) eq_refl eq_refl).
Defined.

(** C5, as stated, fails: on a body that does not decode, the call returns
    nothing to its caller, neither comments nor an error. *)
Lemma decode_failure_not_returned :
  ~ (exists (answers : list string) (err : option error),
        result (request.RequestImprovements
                  (stub "<html>" (inl (UnmarshalError
                     "invalid character '<' looking for beginning of value")))
                  "key" "diff" "davinci" 16 half half half half 1)
        = Returned (answers, err)).
Proof.
  intros (answers & err & H).
  assert (E : result (request.RequestImprovements
                        (stub "<html>" (inl (UnmarshalError
                           "invalid character '<' looking for beginning of value")))
                        "key" "diff" "davinci" 16 half half half half 1)
              = Panicked "invalid character '<' looking for beginning of value")
    by (vm_compute; reflexivity).
  rewrite E in H. discriminate.
Qed.

(** C5, amended.  When the bytes of the response do not decode, neither
    copy returns: the call panics, so the failure is fatal to it and no
    pair of comments and error reaches the caller.  With the logger that
    [globals.Setup] assigns, the panic value is the text of the decoding
    error, after [Msg] has been called with that text on a panic-level
    event, so the failure is not swallowed.  With the zero logger, which
    [globals.Log] is until [Setup] has run, the panic value is the empty
    string and no panic-level event gets its message: the text of the
    decoding error is lost.  A failure of the transport is a different
    ending: its error is returned, with no comment. *)
Theorem decode_failure_panics :
  (forall (w : World) (key gitDiff alias : string) (model : globals.Model)
      (maxtokens : int) (t p f pr : float64) (b : int) (body : string) (e : error),
      globals.Models !! alias = Some model ->
      in_ranges t p f pr b = true ->
      (forall req, Do w req = inr body) ->
      Unmarshal w body = inl e ->
      let run := request.RequestImprovements w key gitDiff alias maxtokens t p f pr b in
      let run_orig :=
        request_orig.RequestImprovements w key gitDiff alias maxtokens t p f pr b in
      (LogReady w = true ->
         result run = Panicked (Error e) /\ result run_orig = Panicked (Error e)
         /\ Logged PanicLevel (Error e) ∈ trace run
         /\ Logged PanicLevel (Error e) ∈ trace run_orig)
      /\ (LogReady w = false ->
            result run = Panicked EmptyString /\ result run_orig = Panicked EmptyString
            /\ (forall msg : string,
                  (Logged PanicLevel msg ∉ trace run)
                  /\ (Logged PanicLevel msg ∉ trace run_orig))))
  /\ (forall (w : World) (key gitDiff alias : string) (model : globals.Model)
        (maxtokens : int) (t p f pr : float64) (b : int) (e : error),
        globals.Models !! alias = Some model ->
        in_ranges t p f pr b = true ->
        (forall req, Do w req = inl e) ->
        result (request.RequestImprovements w key gitDiff alias maxtokens t p f pr b)
          = Returned ([], Some e)
        /\ result (request_orig.RequestImprovements w key gitDiff alias maxtokens t p f pr b)
          = Returned ([], Some e)).
Proof.
  split.
  - intros w key gitDiff alias model maxtokens t p f pr b body e Hm Hr Hd Hu.
    destruct (run_in_ranges w key gitDiff alias model maxtokens t p f pr b Hm Hr)
      as (j & j' & _ & _ & -> & ->).
    cbv zeta. unfold result, trace, interpret, answerTrace, info. cbn [fst snd].
    rewrite !Hd, Hu.
    split; intros ->.
    + split; [reflexivity|]. split; [reflexivity|].
      destruct (Verbose w); cbn [app]; rewrite !elem_of_cons; auto 10.
    + split; [reflexivity|]. split; [reflexivity|].
      intros msg. destruct (Verbose w); cbn [app]; rewrite ?elem_of_cons, !elem_of_nil;
        split; intros H; decompose [or] H; discriminate || assumption.
  - intros w key gitDiff alias model maxtokens t p f pr b e Hm Hr Hd.
    destruct (run_in_ranges w key gitDiff alias model maxtokens t p f pr b Hm Hr)
      as (j & j' & _ & _ & -> & ->).
    cbv zeta. unfold result, interpret. cbn [snd]. rewrite !Hd. split; reflexivity.
Qed.

(** An HTML page where JSON was expected, after [globals.Setup] and before
    it. *)
Lemma decode_failure_panics_witness :
  (result (request.RequestImprovements
             (stub "<html>" (inl (UnmarshalError
                "invalid character '<' looking for beginning of value")))
             "key" "diff" "davinci" 16 half half half half 1)
   = Panicked "invalid character '<' looking for beginning of value"
   /\ Logged PanicLevel "invalid character '<' looking for beginning of value"
      ∈ trace (request.RequestImprovements
                 (stub "<html>" (inl (UnmarshalError
                    "invalid character '<' looking for beginning of value")))
                 "key" "diff" "davinci" 16 half half half half 1))
  /\ (result (request.RequestImprovements
                (unready (stub "<html>" (inl (UnmarshalError
                   "invalid character '<' looking for beginning of value"))))
                "key" "diff" "davinci" 16 half half half half 1)
      = Panicked EmptyString
      /\ Logged PanicLevel "invalid character '<' looking for beginning of value"
         ∉ trace (request.RequestImprovements
                    (unready (stub "<html>" (inl (UnmarshalError
                       "invalid character '<' looking for beginning of value"))))
                    "key" "diff" "davinci" 16 half half half half 1)).
Proof.
  assert (Hd : globals.Models !! "davinci" = Some globals.Davinci) by (vm_compute; reflexivity).
  assert (Hr : in_ranges half half half half 1 = true) by (vm_compute; reflexivity).
  pose proof (proj1 decode_failure_panics
           (stub "<html>" (inl (UnmarshalError
              "invalid character '<' looking for beginning of value")))
           "key" "diff" "davinci" globals.Davinci 16 half half half half 1 "<html>"
           (UnmarshalError "invalid character '<' looking for beginning of value")
           Hd Hr (fun _ => eq_refl) eq_refl) as Hready.
  pose proof (proj1 decode_failure_panics
           (unready (stub "<html>" (inl (UnmarshalError
              "invalid character '<' looking for beginning of value"))))
           "key" "diff" "davinci" globals.Davinci 16 half half half half 1 "<html>"
           (UnmarshalError "invalid character '<' looking for beginning of value")
           Hd Hr (fun _ => eq_refl) eq_refl) as Hzero.
  cbv zeta in Hready, Hzero.
  split.
  - destruct (proj1 Hready eq_refl) as (R & _ & L & _). split; [exact R | exact L].
  - destruct (proj2 Hzero eq_refl) as (R & _ & N). split; [exact R | exact (proj1 (N _))].
Defined.

(** * The claims about the request *)

Lemma prefix_app (needle post : string) : String.prefix needle (needle +:+ post) = true.
Proof.
  induction needle as [|a needle IH].
  - cbn. destruct post; reflexivity.
  - change (String.prefix (String a needle) (String a (needle +:+ post)) = true).
    cbn [String.prefix]. destruct (Ascii.ascii_dec a a); [exact IH | congruence].
Qed.

Lemma occurs_app (pre needle post : string) : occurs needle (pre +:+ needle +:+ post) = true.
Proof.
  induction pre as [|a pre IH].
  - change (occurs needle (needle +:+ post) = true).
    pose proof (prefix_app needle post) as H.
    destruct (needle +:+ post); cbn [occurs]; rewrite H; reflexivity.
  - change (occurs needle (String a (pre +:+ needle +:+ post)) = true).
    cbn [occurs]. rewrite IH. apply orb_true_r.
Qed.

(** ** The JSON text of a legacy request *)

Lemma Marshal_Body_prompt (b : Body.t) (j : json.value) :
  request.Marshal_Body b = inr j ->
  member "prompt" j = Some (json.Str (utf8.ToValidUTF8 (Body.Prompt b))).
Proof.
  unfold request.Marshal_Body, bindE.
  destruct (json.encFloat (Body.Temperature b)); [discriminate|].
  destruct (json.encFloat (Body.Top_P b)); [discriminate|].
  destruct (json.encFloat (Body.Frequence_Pen b)); [discriminate|].
  destruct (json.encFloat (Body.Presence_Pen b)); [discriminate|].
  intros [= <-]. reflexivity.
Qed.

(** C6, as stated, fails in the older copy: there the prompt of a legacy
    request need not even contain the diff text.  A diff of two lines is
    written with its line break escaped. *)
Lemma orig_prompt_not_verbatim :
  ~ (forall (w : World) (gitDiff : string),
        exists pre post : string,
          Body.Prompt (fst (request_orig.withPrompt w globals.Davinci
                              (bodyOf half half half half 1) ChatBody.zero gitDiff))
          = pre +:+ gitDiff +:+ post).
Proof.
  intros H.
  destruct (H (stub EmptyString (inl ErrWrongKey)) ("+a" +:+ nl +:+ "-b")) as (pre & post & E).
  assert (Hin : occurs ("+a" +:+ nl +:+ "-b")
                  (Body.Prompt (fst (request_orig.withPrompt (stub EmptyString (inl ErrWrongKey))
                                       globals.Davinci (bodyOf half half half half 1)
                                       ChatBody.zero ("+a" +:+ nl +:+ "-b")))) = true)
    by (rewrite E; apply occurs_app).
  assert (Hout : occurs ("+a" +:+ nl +:+ "-b")
                   (Body.Prompt (fst (request_orig.withPrompt (stub EmptyString (inl ErrWrongKey))
                                        globals.Davinci (bodyOf half half half half 1)
                                        ChatBody.zero ("+a" +:+ nl +:+ "-b")))) = false)
    by (vm_compute; reflexivity).
  congruence.
Qed.

(** C6, amended.  For a legacy model and every diff text,
    [pkg/request/request.go] sets the prompt of the request to the fixed
    prefix, a line break, the diff text as it is and a line break, and
    marshals the struct that holds it; the older copy sets it to the prefix
    and the diff text each in Go-quoted form ([%#v]), each followed by a line
    break.  With the parameters in their ranges, the request that is sent
    carries that prompt, coerced to valid UTF-8, as its [prompt] member. *)
Theorem legacy_prompt :
  (forall (model : globals.Model) (params : Body.t) (chatParams : ChatBody.t)
      (gitDiff : string),
      globals.Chat model = false ->
      Body.Prompt (fst (request.withPrompt model params chatParams gitDiff))
        = request.PROMPT_PREFIX +:+ nl +:+ gitDiff +:+ nl
      /\ request.createRequestBody model params chatParams gitDiff
        = request.Marshal_Body (fst (request.withPrompt model params chatParams gitDiff)))
  /\ (forall (w : World) (model : globals.Model) (params : Body.t) (chatParams : ChatBody.t)
        (gitDiff : string),
        globals.Chat model = false ->
        Body.Prompt (fst (request_orig.withPrompt w model params chatParams gitDiff))
          = strconv.Quote (isPrintTable w) request_orig.promptPrefix +:+ nl +:+
            strconv.Quote (isPrintTable w) gitDiff +:+ nl)
  /\ (forall (w : World) (key gitDiff alias : string) (model : globals.Model)
        (maxtokens : int) (t p f pr : float64) (b : int),
        globals.Models !! alias = Some model ->
        globals.Chat model = false ->
        in_ranges t p f pr b = true ->
        (exists body : json.value,
            Sent (postRequest (endpoint false) key body)
              ∈ trace (request.RequestImprovements w key gitDiff alias maxtokens t p f pr b)
            /\ member "prompt" body
               = Some (json.Str (utf8.ToValidUTF8
                                   (request.PROMPT_PREFIX +:+ nl +:+ gitDiff +:+ nl))))
        /\ (exists body : json.value,
               Sent (postRequest (endpoint false) key body)
                 ∈ trace (request_orig.RequestImprovements w key gitDiff alias maxtokens
                            t p f pr b)
               /\ member "prompt" body
                  = Some (json.Str (utf8.ToValidUTF8
                                      (strconv.Quote (isPrintTable w) request_orig.promptPrefix
                                       +:+ nl +:+
                                       strconv.Quote (isPrintTable w) gitDiff +:+ nl))))).
Proof.
  split; [|split].
  - intros model params chatParams gitDiff Hc.
    unfold request.createRequestBody, request.withPrompt. rewrite Hc. split; reflexivity.
  - intros w model params chatParams gitDiff Hc.
    unfold request_orig.withPrompt. rewrite Hc. reflexivity.
  - intros w key gitDiff alias model maxtokens t p f pr b Hm Hc Hr. split.
    + destruct (request_run w key gitDiff alias model maxtokens t p f pr b Hm Hr)
        as (body & Hb & _ & Hs).
      exists body. rewrite Hc in Hs. split; [exact Hs|].
      unfold requestJSON, request.configureParams, request.createRequestBody,
        request.withPrompt in Hb.
      rewrite Hc in Hb. apply Marshal_Body_prompt in Hb. exact Hb.
    + destruct (request_orig_run w key gitDiff alias model maxtokens t p f pr b Hm Hr)
        as (body & Hb & _ & Hs).
      exists body. rewrite Hc in Hs. split; [exact Hs|].
      unfold requestJSON_orig, request.configureParams, request_orig.withPrompt in Hb.
      rewrite Hc in Hb. apply Marshal_Body_prompt in Hb. exact Hb.
Qed.

(** A diff of two lines, for [davinci]. *)
Lemma legacy_prompt_witness :
  Body.Prompt (fst (request.withPrompt globals.Davinci (bodyOf half half half half 1)
                      ChatBody.zero ("+a" +:+ nl +:+ "-b")))
  = request.PROMPT_PREFIX +:+ nl +:+ ("+a" +:+ nl +:+ "-b") +:+ nl.
Proof.
  exact (proj1 (proj1 legacy_prompt globals.Davinci (bodyOf half half half half 1)
                  ChatBody.zero ("+a" +:+ nl +:+ "-b") eq_refl)).
Defined.

(** ** The JSON text of a chat request, and its reading back *)

Lemma encFloat_finite (x : float64) :
  finite x = true -> json.encFloat x = inr (json.Float x).
Proof.
  unfold finite, json.encFloat. destruct (f64.is_nan x || f64.is_inf x);
    [discriminate | reflexivity].
Qed.

Lemma in_ranges_finite (t p f pr : float64) (b : int) :
  in_ranges t p f pr b = true ->
  finite t = true /\ finite p = true /\ finite f = true /\ finite pr = true.
Proof.
  intros H. destruct (in_ranges_not_nan _ _ _ _ _ H) as (Nt & Np & Nf & Npr).
  revert H. unfold in_ranges. rewrite !andb_true_iff. intros [[[[Ht Hp] Hpr] Hf] _].
  apply within_not_inf in Ht, Hp, Hf, Hpr; try reflexivity.
  unfold finite. rewrite Nt, Np, Nf, Npr, Ht, Hp, Hf, Hpr. auto.
Qed.

Lemma Unmarshal_Marshal_Message (m : Message.t) :
  request.Unmarshal_Message (request.Marshal_Message m) = json.Decoded (readMessage m).
Proof. reflexivity. Qed.

Lemma Unmarshal_Marshal_elems (ms : list Message.t) :
  request.Unmarshal_elems (List.map request.Marshal_Message ms)
  = json.Decoded (List.map readMessage ms).
Proof.
  induction ms as [|m ms IH]; [reflexivity|].
  cbn [List.map request.Unmarshal_elems].
  rewrite Unmarshal_Marshal_Message, IH. reflexivity.
Qed.

Lemma Unmarshal_Marshal_Messages (ms : list Message.t) :
  request.Unmarshal_Messages (request.Marshal_Messages ms)
  = json.Decoded (List.map readMessage ms).
Proof.
  destruct ms as [|m ms]; [reflexivity|].
  unfold request.Marshal_Messages, request.Unmarshal_Messages.
  apply Unmarshal_Marshal_elems.
Qed.

(** A chat request whose floats are finite is marshalled, and is read back
    as it was written, up to the coercion of its strings to valid UTF-8. *)
Lemma Unmarshal_Marshal_ChatBody (b : ChatBody.t) :
  finite (ChatBody.Temperature b) = true -> finite (ChatBody.Top_P b) = true ->
  finite (ChatBody.Frequence_Pen b) = true -> finite (ChatBody.Presence_Pen b) = true ->
  json.inInt64 (ChatBody.Max_Tokens b) = true ->
  exists j : json.value,
    request.Marshal_ChatBody b = inr j
    /\ request.Unmarshal_ChatBody j = Some (json.Decoded (readChatBody b)).
Proof.
  destruct b as [model messages t mt p f pr];
    cbn [ChatBody.Model ChatBody.Messages ChatBody.Temperature ChatBody.Max_Tokens
         ChatBody.Top_P ChatBody.Frequence_Pen ChatBody.Presence_Pen].
  intros Ht Hp Hf Hpr Hmt.
  unfold request.Marshal_ChatBody.
  cbn [ChatBody.Model ChatBody.Messages ChatBody.Temperature ChatBody.Max_Tokens
       ChatBody.Top_P ChatBody.Frequence_Pen ChatBody.Presence_Pen].
  rewrite (encFloat_finite t Ht), (encFloat_finite p Hp), (encFloat_finite f Hf),
    (encFloat_finite pr Hpr).
  cbn [bindE]. eexists. split; [reflexivity|].
  unfold request.Unmarshal_ChatBody.
  change (json.selecting request.chatFields "messages" _) with 1%nat.
  cbn [Nat.ltb Nat.leb].
  cbn [json.decodeMembers json.fieldOf List.find String.eqb Ascii.eqb Bool.eqb
       request.chatFields request.setChatField json.bindD json.decString json.decFloat
       json.decInt json.encString json.encInt ChatBody.zero].
  rewrite Unmarshal_Marshal_Messages.
  cbn [json.bindD request.setChatField String.eqb Ascii.eqb Bool.eqb json.decFloat
       json.decInt json.encInt].
  rewrite Hmt. reflexivity.
Qed.

Lemma ToValidUTF8_instructions :
  utf8.ToValidUTF8 request.CHAT_PROMPT_INSTRUCTIONS = request.CHAT_PROMPT_INSTRUCTIONS.
Proof. vm_compute; reflexivity. Qed.

Lemma ToValidUTF8_chatPromptInstructions :
  utf8.ToValidUTF8 request_orig.chatPromptInstructions = request_orig.chatPromptInstructions.
Proof. vm_compute; reflexivity. Qed.

(** C7. For a chat model and every diff text, the chat request that is
    built holds exactly two messages: first one of role [system] whose
    content is the fixed instruction, a constant in which the diff text has
    no part, then one of role [user] whose content is the diff text as it
    is; that struct is what is marshalled.  The older copy does the same
    with its own fixed instruction.  With finite floats and a max_tokens
    that is a Go [int], the request of each copy is marshalled, and reading
    the JSON text back gives the two messages in the same order, [system]
    first and [user] second, the diff text coerced to valid UTF-8; in
    general, a chat request with finite floats is marshalled and read back
    as it was written, its messages in the order in which they were
    written. *)
Theorem chat_messages :
  (forall (model : globals.Model) (params : Body.t) (chatParams : ChatBody.t)
      (gitDiff : string),
      globals.Chat model = true ->
      ChatBody.Messages (snd (request.withPrompt model params chatParams gitDiff))
        = [ {| Message.Role := "system"; Message.Content := request.CHAT_PROMPT_INSTRUCTIONS |};
            {| Message.Role := "user"; Message.Content := gitDiff |} ]
      /\ request.createRequestBody model params chatParams gitDiff
        = request.Marshal_ChatBody (snd (request.withPrompt model params chatParams gitDiff)))
  /\ (forall (w : World) (model : globals.Model) (params : Body.t) (chatParams : ChatBody.t)
        (gitDiff : string),
        globals.Chat model = true ->
        ChatBody.Messages (snd (request_orig.withPrompt w model params chatParams gitDiff))
          = [ {| Message.Role := "system";
                 Message.Content := request_orig.chatPromptInstructions |};
              {| Message.Role := "user"; Message.Content := gitDiff |} ])
  /\ (forall (w : World) (model : globals.Model) (gitDiff : string) (maxtokens : int)
        (t p f pr : float64) (b : int),
        globals.Chat model = true ->
        finite t = true -> finite p = true -> finite f = true -> finite pr = true ->
        json.inInt64 maxtokens = true ->
        (exists (j : json.value) (back : ChatBody.t),
            requestJSON model gitDiff maxtokens t p f pr b = inr j
            /\ request.Unmarshal_ChatBody j = Some (json.Decoded back)
            /\ ChatBody.Messages back
               = [ {| Message.Role := "system";
                      Message.Content := request.CHAT_PROMPT_INSTRUCTIONS |};
                   {| Message.Role := "user";
                      Message.Content := utf8.ToValidUTF8 gitDiff |} ]
            /\ List.map Message.Role (ChatBody.Messages back) = ["system"; "user"])
        /\ (exists (j : json.value) (back : ChatBody.t),
               requestJSON_orig w model gitDiff maxtokens t p f pr b = inr j
               /\ request.Unmarshal_ChatBody j = Some (json.Decoded back)
               /\ ChatBody.Messages back
                  = [ {| Message.Role := "system";
                         Message.Content := request_orig.chatPromptInstructions |};
                      {| Message.Role := "user";
                         Message.Content := utf8.ToValidUTF8 gitDiff |} ]
               /\ List.map Message.Role (ChatBody.Messages back) = ["system"; "user"]))
  /\ (forall b : ChatBody.t,
        finite (ChatBody.Temperature b) = true -> finite (ChatBody.Top_P b) = true ->
        finite (ChatBody.Frequence_Pen b) = true ->
        finite (ChatBody.Presence_Pen b) = true ->
        json.inInt64 (ChatBody.Max_Tokens b) = true ->
        exists (j : json.value) (back : ChatBody.t),
          request.Marshal_ChatBody b = inr j
          /\ request.Unmarshal_ChatBody j = Some (json.Decoded back)
          /\ ChatBody.Messages back = List.map readMessage (ChatBody.Messages b)).
Proof.
  split; [|split; [|split]].
  - intros model params chatParams gitDiff Hc.
    unfold request.createRequestBody, request.withPrompt. rewrite Hc. split; reflexivity.
  - intros w model params chatParams gitDiff Hc.
    unfold request_orig.withPrompt. rewrite Hc. reflexivity.
  - intros w model gitDiff maxtokens t p f pr b Hc Ht Hp Hf Hpr Hmt.
    unfold requestJSON, requestJSON_orig, request.configureParams, request.createRequestBody,
      request.withPrompt, request_orig.withPrompt.
    rewrite Hc.
    cbn [ChatBody.Model ChatBody.Messages ChatBody.Temperature ChatBody.Max_Tokens
         ChatBody.Top_P ChatBody.Frequence_Pen ChatBody.Presence_Pen].
    split.
    + match goal with
      | |- context [request.Marshal_ChatBody ?c] =>
          destruct (Unmarshal_Marshal_ChatBody c Ht Hp Hf Hpr Hmt) as (j & Hj & Hback)
      end.
      exists j. eexists. split; [exact Hj|]. split; [exact Hback|].
      unfold readChatBody, readMessage.
      cbn [ChatBody.Messages List.map Message.Role Message.Content].
      rewrite ToValidUTF8_instructions. split; reflexivity.
    + match goal with
      | |- context [request.Marshal_ChatBody ?c] =>
          destruct (Unmarshal_Marshal_ChatBody c Ht Hp Hf Hpr Hmt) as (j & Hj & Hback)
      end.
      exists j. eexists. split; [exact Hj|]. split; [exact Hback|].
      unfold readChatBody, readMessage.
      cbn [ChatBody.Messages List.map Message.Role Message.Content].
      rewrite ToValidUTF8_chatPromptInstructions. split; reflexivity.
  - intros b Ht Hp Hf Hpr Hmt.
    destruct (Unmarshal_Marshal_ChatBody b Ht Hp Hf Hpr Hmt) as (j & Hj & Hback).
    exists j. eexists. split; [exact Hj|]. split; [exact Hback|]. reflexivity.
Qed.

(** A diff of two lines, for [turbo]: the request is marshalled, and read
    back with its two messages in order. *)
Lemma chat_messages_witness :
  exists (j : json.value) (back : ChatBody.t),
    requestJSON globals.Turbo ("+a" +:+ nl +:+ "-b") 16 half half half half 1 = inr j
    /\ member "messages" j
       = Some (json.Array
                 [json.Object [("role", json.Str "system");
                               ("content", json.Str request.CHAT_PROMPT_INSTRUCTIONS)];
                  json.Object [("role", json.Str "user");
                               ("content", json.Str ("+a" +:+ nl +:+ "-b"))]])
    /\ request.Unmarshal_ChatBody j = Some (json.Decoded back)
    /\ ChatBody.Messages back
       = [ {| Message.Role := "system"; Message.Content := request.CHAT_PROMPT_INSTRUCTIONS |};
           {| Message.Role := "user"; Message.Content := "+a" +:+ nl +:+ "-b" |} ].
Proof.
  destruct (proj1 (proj1 (proj2 (proj2 chat_messages))
                     (stub EmptyString (inl ErrWrongKey)) globals.Turbo ("+a" +:+ nl +:+ "-b")
                     16 half half half half 1 eq_refl eq_refl eq_refl eq_refl eq_refl eq_refl))
    as (j & back & Hj & Hback & Hm & _).
  exists j, back. split; [exact Hj|]. split; [|split; [exact Hback|]].
  - assert (E : requestJSON globals.Turbo ("+a" +:+ nl +:+ "-b") 16 half half half half 1
                = inr (json.Object
                         [("model", json.Str "gpt-3.5-turbo");
                          ("messages",
                           json.Array
                             [json.Object [("role", json.Str "system");
                                           ("content",
                                            json.Str request.CHAT_PROMPT_INSTRUCTIONS)];
                              json.Object [("role", json.Str "user");
                                           ("content", json.Str ("+a" +:+ nl +:+ "-b"))]]);
                          ("temperature", json.Float half); ("max_tokens", json.Int 16);
                          ("top_p", json.Float half); ("frequency_penalty", json.Float half);
                          ("presence_penalty", json.Float half)]))
      by (vm_compute; reflexivity).
    rewrite E in Hj. injection Hj as <-. reflexivity.
  - assert (U : utf8.ToValidUTF8 ("+a" +:+ nl +:+ "-b") = "+a" +:+ nl +:+ "-b")
      by (vm_compute; reflexivity).
    rewrite Hm, U. reflexivity.
Defined.

Lemma createRequestBody_chat (model : globals.Model) (params params' : Body.t)
    (chatParams : ChatBody.t) (gitDiff : string) :
  globals.Chat model = true ->
  request.createRequestBody model params chatParams gitDiff
  = request.createRequestBody model params' chatParams gitDiff.
Proof.
  intros Hc. unfold request.createRequestBody, request.withPrompt. rewrite Hc. reflexivity.
Qed.

(** The members of a marshalled chat request. *)
Lemma chat_json_members (model : globals.Model) (params : Body.t) (chatParams : ChatBody.t)
    (gitDiff : string) (j : json.value) :
  globals.Chat model = true ->
  request.createRequestBody model params chatParams gitDiff = inr j ->
  keys j = ["model"; "messages"; "temperature"; "max_tokens"; "top_p";
            "frequency_penalty"; "presence_penalty"]
  /\ (exists m1 m2 : json.value,
         member "messages" j = Some (json.Array [m1; m2])
         /\ keys m1 = ["role"; "content"] /\ keys m2 = ["role"; "content"])
  /\ member "prompt" j = None
  /\ member "best_of" j = None.
Proof.
  intros Hc.
  unfold request.createRequestBody, request.withPrompt. rewrite Hc.
  unfold request.Marshal_ChatBody, bindE.
  cbn [ChatBody.Model ChatBody.Messages ChatBody.Temperature ChatBody.Max_Tokens
       ChatBody.Top_P ChatBody.Frequence_Pen ChatBody.Presence_Pen].
  destruct (json.encFloat (ChatBody.Temperature chatParams)); [discriminate|].
  destruct (json.encFloat (ChatBody.Top_P chatParams)); [discriminate|].
  destruct (json.encFloat (ChatBody.Frequence_Pen chatParams)); [discriminate|].
  destruct (json.encFloat (ChatBody.Presence_Pen chatParams)); [discriminate|].
  intros [= <-]. split; [reflexivity|]. split; [|split; reflexivity].
  do 2 eexists. split; [reflexivity|]. split; reflexivity.
Qed.

Lemma requestJSON_finite (model : globals.Model) (gitDiff : string) (maxtokens : int)
    (t p f pr : float64) (b : int) :
  finite t = true -> finite p = true -> finite f = true -> finite pr = true ->
  exists j : json.value, requestJSON model gitDiff maxtokens t p f pr b = inr j.
Proof.
  intros Ht Hp Hf Hpr.
  unfold requestJSON, request.configureParams, request.createRequestBody, request.withPrompt.
  destruct (globals.Chat model);
    unfold request.Marshal_ChatBody, request.Marshal_Body;
    cbn [ChatBody.Temperature ChatBody.Top_P ChatBody.Frequence_Pen ChatBody.Presence_Pen
         Body.Temperature Body.Top_P Body.Frequence_Pen Body.Presence_Pen];
    rewrite (encFloat_finite t Ht), (encFloat_finite p Hp), (encFloat_finite f Hf),
      (encFloat_finite pr Hpr); cbn [bindE]; eauto.
Qed.

(** C9. For a chat model and finite floats, the request is marshalled, and
    its JSON text has exactly the members model, messages, temperature,
    max_tokens, top_p, frequency_penalty and presence_penalty; messages is
    an array of two objects with the members role and content; there is no
    member prompt and no member best_of.  The value of best_of leaves no
    mark: the JSON text is the same for any two values.  With a model of the
    registry and the parameters in their ranges, the request that the run
    sends to the chat endpoint has those members and no best_of, and the
    whole run is the same for any other best_of inside the range.  The
    validator does not go by the API family: for a chat model as for a
    legacy one, with the four floats in their ranges its answer is decided
    by the range of best_of alone. *)
Theorem chat_request_members :
  (forall (model : globals.Model) (gitDiff : string) (maxtokens : int)
      (t p f pr : float64) (b : int),
      globals.Chat model = true ->
      finite t = true -> finite p = true -> finite f = true -> finite pr = true ->
      exists j : json.value,
        requestJSON model gitDiff maxtokens t p f pr b = inr j
        /\ keys j = ["model"; "messages"; "temperature"; "max_tokens"; "top_p";
                     "frequency_penalty"; "presence_penalty"]
        /\ (exists m1 m2 : json.value,
               member "messages" j = Some (json.Array [m1; m2])
               /\ keys m1 = ["role"; "content"] /\ keys m2 = ["role"; "content"])
        /\ member "prompt" j = None
        /\ member "best_of" j = None)
  /\ (forall (model : globals.Model) (params : Body.t) (chatParams : ChatBody.t)
        (gitDiff : string) (j : json.value),
        globals.Chat model = true ->
        request.createRequestBody model params chatParams gitDiff = inr j ->
        keys j = ["model"; "messages"; "temperature"; "max_tokens"; "top_p";
                  "frequency_penalty"; "presence_penalty"]
        /\ (exists m1 m2 : json.value,
               member "messages" j = Some (json.Array [m1; m2])
               /\ keys m1 = ["role"; "content"] /\ keys m2 = ["role"; "content"])
        /\ member "prompt" j = None
        /\ member "best_of" j = None)
  /\ (forall (model : globals.Model) (gitDiff : string) (maxtokens : int)
        (t p f pr : float64) (b b' : int),
        globals.Chat model = true ->
        requestJSON model gitDiff maxtokens t p f pr b
        = requestJSON model gitDiff maxtokens t p f pr b')
  /\ (forall (w : World) (key gitDiff alias : string) (model : globals.Model)
        (maxtokens : int) (t p f pr : float64) (b : int),
        globals.Models !! alias = Some model ->
        globals.Chat model = true ->
        in_ranges t p f pr b = true ->
        (exists j : json.value,
            Sent (postRequest "https://api.openai.com/v1/chat/completions" key j)
              ∈ trace (request.RequestImprovements w key gitDiff alias maxtokens t p f pr b)
            /\ keys j = ["model"; "messages"; "temperature"; "max_tokens"; "top_p";
                         "frequency_penalty"; "presence_penalty"]
            /\ member "prompt" j = None
            /\ member "best_of" j = None)
        /\ (forall b' : int,
               in_ranges t p f pr b' = true ->
               request.RequestImprovements w key gitDiff alias maxtokens t p f pr b
               = request.RequestImprovements w key gitDiff alias maxtokens t p f pr b'))
  /\ (forall (model : globals.Model) (maxtokens : int) (t p f pr : float64) (b : int),
        temperature_ok t = true -> topP_ok p = true ->
        presence_ok pr = true -> frequence_ok f = true ->
        request.CheckFormat (fst (request.configureParams model maxtokens t p f pr b)) true
        = if bestOf_ok b then None else Some ErrWrongBestOfRange).
Proof.
  split; [|split; [|split; [|split]]].
  - intros model gitDiff maxtokens t p f pr b Hc Ht Hp Hf Hpr.
    destruct (requestJSON_finite model gitDiff maxtokens t p f pr b Ht Hp Hf Hpr) as [j Hj].
    exists j. split; [exact Hj|].
    unfold requestJSON, request.configureParams in Hj.
    exact (chat_json_members _ _ _ _ _ Hc Hj).
  - exact chat_json_members.
  - intros model gitDiff maxtokens t p f pr b b' Hc.
    unfold requestJSON, request.configureParams. now apply createRequestBody_chat.
  - intros w key gitDiff alias model maxtokens t p f pr b Hm Hc Hr. split.
    + destruct (request_run w key gitDiff alias model maxtokens t p f pr b Hm Hr)
        as (j & Hj & _ & Hs).
      exists j. rewrite Hc in Hs. split; [exact Hs|].
      unfold requestJSON, request.configureParams in Hj.
      destruct (chat_json_members _ _ _ _ _ Hc Hj) as (K & _ & P & B). auto.
    + intros b' Hr'.
      unfold request.RequestImprovements, request.configureParams. rewrite Hm.
      cbv beta iota zeta.
      rewrite !in_ranges_CheckFormat by assumption.
      rewrite (createRequestBody_chat model _
                 {| Body.Model := globals.Name model; Body.Prompt := EmptyString;
                    Body.Temperature := t; Body.Max_Tokens := maxtokens; Body.Top_P := p;
                    Body.Frequence_Pen := f; Body.Presence_Pen := pr; Body.Best_Of := b' |}
                 _ gitDiff Hc).
      reflexivity.
  - intros model maxtokens t p f pr b Ht Hp Hpr Hf.
    rewrite CheckFormat_first_violation;
      unfold request.configureParams;
      cbn [fst Body.Temperature Body.Top_P Body.Presence_Pen Body.Frequence_Pen Body.Best_Of];
      try (eapply within_not_nan; eassumption).
    unfold violations.
    cbn [fst Body.Temperature Body.Top_P Body.Presence_Pen Body.Frequence_Pen Body.Best_Of].
    rewrite Ht, Hp, Hpr, Hf. cbn [negb app].
    destruct (bestOf_ok b); reflexivity.
Qed.

(** [turbo] with a best_of of 7: the JSON text of the request, and the
    request that the run sends. *)
Lemma chat_request_members_witness :
  (exists j : json.value,
      requestJSON globals.Turbo "diff" 16 half half half half 7 = inr j
      /\ keys j = ["model"; "messages"; "temperature"; "max_tokens"; "top_p";
                   "frequency_penalty"; "presence_penalty"]
      /\ member "best_of" j = None)
  /\ (exists j : json.value,
         Sent (postRequest "https://api.openai.com/v1/chat/completions" "key" j)
           ∈ trace (request.RequestImprovements
                      (stub "{}" (inr (response None [choice EmptyString "looks fine" 0])))
                      "key" "diff" "turbo" 16 half half half half 7)
         /\ keys j = ["model"; "messages"; "temperature"; "max_tokens"; "top_p";
                      "frequency_penalty"; "presence_penalty"]
         /\ member "best_of" j = None).
Proof.
  assert (Hm : globals.Models !! "turbo" = Some globals.Turbo) by (vm_compute; reflexivity).
  assert (Hr : in_ranges half half half half 7 = true) by (vm_compute; reflexivity).
  split.
  - destruct (proj1 chat_request_members globals.Turbo "diff" 16 half half half half 7
                eq_refl eq_refl eq_refl eq_refl eq_refl) as (j & Hj & K & _ & _ & B).
    exists j. auto.
  - destruct (proj1 (proj1 (proj2 (proj2 (proj2 chat_request_members)))
                       (stub "{}" (inr (response None [choice EmptyString "looks fine" 0])))
                       "key" "diff" "turbo" globals.Turbo
                       16 half half half half 7 Hm eq_refl Hr))
      as (j & Hs & K & _ & B).
    exists j. auto.
Defined.

(** * Further properties of the request layer *)

(** ** The shape of every run *)

Lemma requests_app (t1 t2 : list Event) : requests (t1 ++ t2) = requests t1 ++ requests t2.
Proof. apply flat_map_app. Qed.

Lemma requests_info (w : World) (msg : string) : requests (info w msg) = [].
Proof. unfold info. destruct (Verbose w); reflexivity. Qed.

Lemma requests_answerTrace (w : World) (req : http.Request) : requests (answerTrace w req) = [].
Proof.
  unfold answerTrace. destruct (Do w req) as [e|body]; [reflexivity|].
  rewrite requests_app, requests_info.
  destruct (Unmarshal w body); [destruct (LogReady w)|]; reflexivity.
Qed.

Lemma elem_of_requests (t : list Event) (req : http.Request) :
  Sent req ∈ t <-> req ∈ requests t.
Proof.
  induction t as [|e t IH]; cbn.
  - split; intros H; inversion H.
  - rewrite elem_of_cons, elem_of_app, <- IH. destruct e as [lvl msg|r]; cbn.
    + split; [intros [H|H]; [discriminate | now right] | intros [H|H]; [inversion H | now right]].
    + rewrite list_elem_of_singleton.
      split; (intros [H|H]; [left; congruence | now right]).
Qed.

(** The requests of a run of each copy. *)
Lemma requests_request (w : World) (key gitDiff alias : string) (maxtokens : int)
    (t p f pr : float64) (b : int) :
  requests (trace (request.RequestImprovements w key gitDiff alias maxtokens t p f pr b)) =
  match request.CheckFormat (bodyOf t p f pr b) (known alias),
        requestJSON (modelOf alias) gitDiff maxtokens t p f pr b with
  | None, inr j => [postRequest (endpoint (globals.Chat (modelOf alias))) key j]
  | _, _ => []
  end.
Proof.
  rewrite request_shape.
  destruct (request.CheckFormat _ _); [reflexivity|].
  destruct (requestJSON _ _ _ _ _ _ _ _); [reflexivity|].
  cbv zeta. unfold trace. cbn [fst].
  rewrite !requests_app, !requests_info, requests_answerTrace. reflexivity.
Qed.

Lemma requests_request_orig (w : World) (key gitDiff alias : string) (maxtokens : int)
    (t p f pr : float64) (b : int) :
  requests (trace (request_orig.RequestImprovements w key gitDiff alias maxtokens t p f pr b)) =
  match request.CheckFormat (bodyOf t p f pr b) (known alias),
        requestJSON_orig w (modelOf alias) gitDiff maxtokens t p f pr b with
  | None, inr j => [postRequest (endpoint (globals.Chat (modelOf alias))) key j]
  | _, _ => []
  end.
Proof.
  rewrite request_orig_shape.
  destruct (request.CheckFormat _ _); [reflexivity|].
  destruct (requestJSON_orig _ _ _ _ _ _ _ _ _); [reflexivity|].
  cbv zeta. unfold trace. cbn [fst].
  rewrite !requests_app, !requests_info, requests_answerTrace. reflexivity.
Qed.

(** X1. A call makes a single attempt: whatever the arguments and the
    world, a run of either copy sends at most one request. *)
Theorem at_most_one_request (w : World) (key gitDiff alias : string) (maxtokens : int)
    (t p f pr : float64) (b : int) :
  (length (requests (trace (request.RequestImprovements w key gitDiff alias maxtokens
                              t p f pr b))) <= 1)%nat
  /\ (length (requests (trace (request_orig.RequestImprovements w key gitDiff alias maxtokens
                                 t p f pr b))) <= 1)%nat.
Proof.
  rewrite requests_request, requests_request_orig.
  destruct (request.CheckFormat (bodyOf t p f pr b) (known alias)).
  - cbn. lia.
  - destruct (requestJSON (modelOf alias) gitDiff maxtokens t p f pr b),
      (requestJSON_orig w (modelOf alias) gitDiff maxtokens t p f pr b); cbn; lia.
Qed.

(** X2. Every request that a run of [request.go] sends is a POST to the
    endpoint of the family of the model, chat/completions for a chat model
    and completions otherwise; its headers are the bearer authorization
    with the key and the JSON content type, and no other; its body is the
    marshalled request, and the validator had accepted the parameters. *)
Theorem sent_request_shape (w : World) (key gitDiff alias : string) (maxtokens : int)
    (t p f pr : float64) (b : int) (req : http.Request) :
  Sent req ∈ trace (request.RequestImprovements w key gitDiff alias maxtokens t p f pr b) ->
  http.Method req = "POST"
  /\ http.URL req = (if globals.Chat (modelOf alias)
                     then "https://api.openai.com/v1/chat/completions"
                     else "https://api.openai.com/v1/completions")
  /\ http.Header req !! "Authorization" = Some ["Bearer " +:+ key]
  /\ http.Header req !! "Content-Type" = Some ["application/json"]
  /\ (forall name, name <> "Authorization" -> name <> "Content-Type" ->
        http.Header req !! name = None)
  /\ requestJSON (modelOf alias) gitDiff maxtokens t p f pr b = inr (http.Body req)
  /\ request.CheckFormat (bodyOf t p f pr b) (known alias) = None.
Proof.
  rewrite elem_of_requests, requests_request.
  destruct (request.CheckFormat _ _) as [e|]; [intros H; inversion H|].
  destruct (requestJSON _ _ _ _ _ _ _ _) as [e|j]; [intros H; inversion H|].
  rewrite list_elem_of_singleton. intros ->.
  unfold postRequest, endpoint. cbn [http.Method http.URL http.Header http.Body].
  split; [reflexivity|]. split; [reflexivity|]. split; [|split; [|split; [|split]]].
  - rewrite lookup_insert_ne by discriminate. apply lookup_insert_eq.
  - apply lookup_insert_eq.
  - intros name H1 H2. rewrite !lookup_insert_ne by congruence. apply lookup_empty.
  - reflexivity.
  - reflexivity.
Qed.

(** A call for [davinci] with all parameters in range sends its request
    to the completions endpoint. *)
Lemma sent_request_shape_witness :
  exists req : http.Request,
    Sent req ∈ trace (request.RequestImprovements (stub "{}" (inr (response None [])))
                        "sk-1" "diff" "davinci" 16 half half half half 1)
    /\ http.URL req = "https://api.openai.com/v1/completions".
Proof.
  assert (Hd : globals.Models !! "davinci" = Some globals.Davinci) by (vm_compute; reflexivity).
  assert (Hr : in_ranges half half half half 1 = true) by (vm_compute; reflexivity).
  destruct (request_run (stub "{}" (inr (response None []))) "sk-1" "diff" "davinci"
              globals.Davinci 16 half half half half 1 Hd Hr) as (j & _ & _ & Hs).
  eexists. split; [exact Hs|].
  destruct (sent_request_shape _ _ _ _ _ _ _ _ _ _ _ Hs) as (_ & Hu & _).
  rewrite Hu. unfold modelOf. rewrite Hd. reflexivity.
Defined.

(** X3. A call returns comments without an error only after the one
    request of the run was answered and the answer decoded to a response
    without error; the comments are then those of its choices.  There is
    no success without the network. *)
Theorem success_means_answered (w : World) (key gitDiff alias : string) (maxtokens : int)
    (t p f pr : float64) (b : int) (answers : list string) :
  result (request.RequestImprovements w key gitDiff alias maxtokens t p f pr b)
    = Returned (answers, None) ->
  exists (req : http.Request) (body : string) (r : APIResponse.t),
    requests (trace (request.RequestImprovements w key gitDiff alias maxtokens t p f pr b))
      = [req]
    /\ Do w req = inr body
    /\ Unmarshal w body = inr r
    /\ APIResponse.Err r = None
    /\ answers = comments (globals.Chat (modelOf alias)) (APIResponse.Choices r).
Proof.
  rewrite requests_request, request_shape.
  destruct (request.CheckFormat _ _) as [e|]; [discriminate|].
  destruct (requestJSON _ _ _ _ _ _ _ _) as [e|j]; [discriminate|].
  cbv zeta. unfold result, interpret. cbn [snd].
  set (req := postRequest _ key j).
  destruct (Do w req) as [e|body] eqn:Ed; [discriminate|].
  destruct (Unmarshal w body) as [e|r] eqn:Eu; [discriminate|].
  destruct (APIResponse.Err r) eqn:Ee; [discriminate|].
  intros [= <-]. exists req, body, r. auto.
Qed.

(** A chat answer with one choice. *)
Lemma success_means_answered_witness :
  exists (req : http.Request) (body : string) (r : APIResponse.t),
    requests (trace (request.RequestImprovements
                       (stub "{}" (inr (response None [choice EmptyString "looks fine" 0])))
                       "sk-1" "diff" "turbo" 16 half half half half 1))
      = [req]
    /\ Do (stub "{}" (inr (response None [choice EmptyString "looks fine" 0]))) req = inr body
    /\ Unmarshal (stub "{}" (inr (response None [choice EmptyString "looks fine" 0]))) body
       = inr r
    /\ APIResponse.Err r = None
    /\ ["looks fine"] = comments (globals.Chat (modelOf "turbo")) (APIResponse.Choices r).
Proof.
  assert (H : result (request.RequestImprovements
                        (stub "{}" (inr (response None [choice EmptyString "looks fine" 0])))
                        "sk-1" "diff" "turbo" 16 half half half half 1)
              = Returned (["looks fine"], None)) by (vm_compute; reflexivity).
  exact (success_means_answered _ _ _ _ _ _ _ _ _ _ _ H).
Defined.



(** ** What the validator lets through to the encoder *)

Lemma out_of_range_inf (lo hi : float64) (s : bool) :
  f64.is_nan lo = false -> f64.is_inf lo = false ->
  f64.is_nan hi = false -> f64.is_inf hi = false ->
  out_of_range lo hi (S754_infinity s) = true.
Proof.
  unfold out_of_range, f64.lt, f64.gt, SFltb.
  destruct lo, hi, s; try discriminate; intros _ _ _ _; cbn;
    repeat match goal with
           | |- context [if ?b then _ else _] => destruct b
           end; reflexivity.
Qed.

(** What a success of the validator says, check by check. *)
Lemma CheckFormat_None (t p f pr : float64) (b : int) (found : bool) :
  request.CheckFormat (bodyOf t p f pr b) found = None <->
  found = true
  /\ out_of_range globals.TempRangeMin globals.TempRangeMax t = false
  /\ out_of_range globals.TopPMin globals.TopPMax p = false
  /\ out_of_range globals.PresenceMin globals.PresenceMax pr = false
  /\ out_of_range globals.FrequenceMin globals.FrequenceMax f = false
  /\ 1 <= b <= 20.
Proof.
  rewrite CheckFormat_tests.
  cbn [Body.Temperature Body.Top_P Body.Presence_Pen Body.Frequence_Pen Body.Best_Of bodyOf].
  destruct found; cbn [negb app]; [|split; [discriminate | intros [H _]; discriminate]].
  destruct (out_of_range globals.TempRangeMin globals.TempRangeMax t);
    [split; [discriminate | intros (_ & H & _); discriminate]|].
  destruct (out_of_range globals.TopPMin globals.TopPMax p);
    [split; [discriminate | intros (_ & _ & H & _); discriminate]|].
  destruct (out_of_range globals.PresenceMin globals.PresenceMax pr);
    [split; [discriminate | intros (_ & _ & _ & H & _); discriminate]|].
  destruct (out_of_range globals.FrequenceMin globals.FrequenceMax f);
    [split; [discriminate | intros (_ & _ & _ & _ & H & _); discriminate]|].
  cbn [app].
  destruct (Z.ltb_spec b 1) as [L1|L1], (Z.ltb_spec 20 b) as [L2|L2]; cbn;
    (split; [try discriminate; intros _; repeat split; lia | intros (_ & _ & _ & _ & _ & Hb)];
     try reflexivity; lia).
Qed.

Lemma in_range_not_inf (lo hi x : float64) :
  f64.is_nan lo = false -> f64.is_inf lo = false ->
  f64.is_nan hi = false -> f64.is_inf hi = false ->
  out_of_range lo hi x = false -> f64.is_inf x = false.
Proof.
  intros H1 H2 H3 H4 H. destruct x as [| s | |]; try reflexivity.
  rewrite out_of_range_inf in H by assumption. discriminate.
Qed.

(** The four floats that pass the validator are NaN or finite. *)
Lemma CheckFormat_no_inf (t p f pr : float64) (b : int) (found : bool) :
  request.CheckFormat (bodyOf t p f pr b) found = None ->
  f64.is_inf t = false /\ f64.is_inf p = false /\ f64.is_inf f = false /\ f64.is_inf pr = false.
Proof.
  rewrite CheckFormat_None. intros (_ & Ht & Hp & Hpr & Hf & _).
  repeat split; eapply in_range_not_inf; try eassumption; reflexivity.
Qed.

Lemma encFloat_cases (x : float64) :
  f64.is_inf x = false ->
  json.encFloat x = if f64.is_nan x then inl (UnsupportedValueError f64.NaN) else inr (json.Float x).
Proof. destruct x; (discriminate || reflexivity). Qed.

(** Without infinities, both copies marshal a request unless one of the
    four floats is NaN. *)
Lemma requestJSON_cases (w : World) (model : globals.Model) (gitDiff : string)
    (maxtokens : int) (t p f pr : float64) (b : int) :
  f64.is_inf t = false -> f64.is_inf p = false ->
  f64.is_inf f = false -> f64.is_inf pr = false ->
  if f64.is_nan t || f64.is_nan p || f64.is_nan f || f64.is_nan pr
  then requestJSON model gitDiff maxtokens t p f pr b = inl (UnsupportedValueError f64.NaN)
       /\ requestJSON_orig w model gitDiff maxtokens t p f pr b
          = inl (UnsupportedValueError f64.NaN)
  else (exists j, requestJSON model gitDiff maxtokens t p f pr b = inr j)
       /\ (exists j, requestJSON_orig w model gitDiff maxtokens t p f pr b = inr j).
Proof.
  intros Ht Hp Hf Hpr.
  unfold requestJSON, requestJSON_orig, request.configureParams, request.createRequestBody,
    request.withPrompt, request_orig.withPrompt.
  destruct (globals.Chat model);
    unfold request.Marshal_ChatBody, request.Marshal_Body;
    cbn [ChatBody.Temperature ChatBody.Top_P ChatBody.Frequence_Pen ChatBody.Presence_Pen
         Body.Temperature Body.Top_P Body.Frequence_Pen Body.Presence_Pen];
    rewrite !encFloat_cases by assumption;
    destruct (f64.is_nan t), (f64.is_nan p), (f64.is_nan f), (f64.is_nan pr);
    cbn [bindE orb]; (split; eauto).
Qed.

(** X5. Among the parameters that the validator accepts, the ones that
    cannot be marshalled are exactly those with a NaN among the four
    floats.  With one, [request.go] logs the error of [json.Marshal] and
    returns it, the older copy returns it without a log entry, and neither
    sends a request; without one, the request is marshalled and sent. *)
Theorem accepted_NaN_fails_to_marshal (w : World) (key gitDiff alias : string)
    (maxtokens : int) (t p f pr : float64) (b : int) :
  request.CheckFormat (bodyOf t p f pr b) (known alias) = None ->
  if f64.is_nan t || f64.is_nan p || f64.is_nan f || f64.is_nan pr
  then request.RequestImprovements w key gitDiff alias maxtokens t p f pr b
       = ([Logged ErrorLevel "Error creating request body: json: unsupported value: NaN"],
          Returned ([], Some (UnsupportedValueError f64.NaN)))
       /\ request_orig.RequestImprovements w key gitDiff alias maxtokens t p f pr b
          = ([], Returned ([], Some (UnsupportedValueError f64.NaN)))
  else length (requests (trace (request.RequestImprovements w key gitDiff alias maxtokens
                                  t p f pr b))) = 1%nat
       /\ length (requests (trace (request_orig.RequestImprovements w key gitDiff alias
                                     maxtokens t p f pr b))) = 1%nat.
Proof.
  intros Hc. destruct (CheckFormat_no_inf _ _ _ _ _ _ Hc) as (It & Ip & If & Ipr).
  pose proof (requestJSON_cases w (modelOf alias) gitDiff maxtokens t p f pr b It Ip If Ipr) as J.
  rewrite requests_request, requests_request_orig, request_shape, request_orig_shape, Hc.
  destruct (f64.is_nan t || f64.is_nan p || f64.is_nan f || f64.is_nan pr).
  - destruct J as [-> ->]. split; reflexivity.
  - destruct J as [[j ->] [j' ->]]. split; reflexivity.
Qed.

(** A NaN top_p for [davinci]. *)
Lemma accepted_NaN_fails_to_marshal_witness :
  request.RequestImprovements (stub "{}" (inr (response None []))) "sk-1" "diff" "davinci" 16
    half f64.NaN half half 1
  = ([Logged ErrorLevel "Error creating request body: json: unsupported value: NaN"],
     Returned ([], Some (UnsupportedValueError f64.NaN))).
Proof.
  assert (Hc : request.CheckFormat (bodyOf half f64.NaN half half 1) (known "davinci") = None)
    by (vm_compute; reflexivity).
  exact (proj1 (accepted_NaN_fails_to_marshal (stub "{}" (inr (response None []))) "sk-1"
                  "diff" "davinci" 16 half f64.NaN half half 1 Hc)).
Defined.

(** ** Verbosity and the decoder *)

(** X6. Verbosity only adds log entries.  A run with the verbose flag set
    one way or the other ends the same way and sends the same requests;
    and with the flag unset a run leaves no entry at info level. *)
Theorem verbosity_only_logs (w : World) (v : bool) (key gitDiff alias : string)
    (maxtokens : int) (t p f pr : float64) (b : int) :
  result (request.RequestImprovements (withVerbose v w) key gitDiff alias maxtokens t p f pr b)
    = result (request.RequestImprovements w key gitDiff alias maxtokens t p f pr b)
  /\ requests (trace (request.RequestImprovements (withVerbose v w) key gitDiff alias
                        maxtokens t p f pr b))
     = requests (trace (request.RequestImprovements w key gitDiff alias maxtokens t p f pr b))
  /\ (forall msg : string,
         Logged InfoLevel msg
           ∉ trace (request.RequestImprovements (withVerbose false w) key gitDiff alias
                      maxtokens t p f pr b)).
Proof.
  rewrite !requests_request, !request_shape.
  destruct (request.CheckFormat _ _) as [e|].
  { split; [reflexivity|]. split; [reflexivity|]. intros msg H. inversion H. }
  destruct (requestJSON _ _ _ _ _ _ _ _) as [e|j].
  { split; [reflexivity|]. split; [reflexivity|]. intros msg H. unfold trace in H. cbn in H.
    apply list_elem_of_singleton in H. discriminate. }
  cbv zeta. split; [reflexivity|]. split; [reflexivity|].
  intros msg. unfold trace, answerTrace, info.
  cbn [fst Verbose LogReady withVerbose Do Unmarshal app].
  set (req := postRequest _ key j).
  destruct (Do w req) as [e|body];
    [|destruct (Unmarshal w body); [destruct (LogReady w)|]];
    cbn [app]; intros H;
    repeat (apply elem_of_cons in H; destruct H as [H|H]; [discriminate|]);
    inversion H.
Qed.

(** X7. On a failure of the transport the decoder is not consulted: the
    whole run, trace and outcome, is the same whatever the decoder is; the
    error of the transport is returned when the parameters are in range. *)
Theorem transport_failure_skips_decoding (w : World)
    (u : string -> error + APIResponse.t) (e : error) (key gitDiff alias : string)
    (maxtokens : int) (t p f pr : float64) (b : int) :
  (forall req, Do w req = inl e) ->
  request.RequestImprovements (withUnmarshal u w) key gitDiff alias maxtokens t p f pr b
    = request.RequestImprovements w key gitDiff alias maxtokens t p f pr b
  /\ request_orig.RequestImprovements (withUnmarshal u w) key gitDiff alias maxtokens
       t p f pr b
     = request_orig.RequestImprovements w key gitDiff alias maxtokens t p f pr b
  /\ (known alias = true -> in_ranges t p f pr b = true ->
      result (request.RequestImprovements w key gitDiff alias maxtokens t p f pr b)
        = Returned ([], Some e)).
Proof.
  intros Hd. rewrite !request_shape, !request_orig_shape.
  change (requestJSON_orig (withUnmarshal u w)) with (requestJSON_orig w).
  destruct (request.CheckFormat _ _) as [e0|] eqn:Hc.
  { split; [reflexivity|]. split; [reflexivity|]. intros Hk Hr.
    rewrite Hk, (in_ranges_CheckFormat (bodyOf t p f pr b) Hr) in Hc. discriminate. }
  split; [|split].
  - destruct (requestJSON _ _ _ _ _ _ _ _) as [e0|j]; [reflexivity|].
    cbv zeta. unfold interpret, answerTrace, info.
    cbn [Verbose withUnmarshal Do Unmarshal]. rewrite !Hd. reflexivity.
  - destruct (requestJSON_orig _ _ _ _ _ _ _ _ _) as [e0|j]; [reflexivity|].
    cbv zeta. unfold interpret, answerTrace, info.
    cbn [Verbose withUnmarshal Do Unmarshal]. rewrite !Hd. reflexivity.
  - intros Hk Hr.
    destruct (requestJSON_ok (modelOf alias) gitDiff maxtokens _ _ _ _ _ Hr) as [j ->].
    cbv zeta. unfold result, interpret. cbn [snd]. rewrite Hd. reflexivity.
Qed.

(** A transport that refuses every connection. *)
Lemma transport_failure_skips_decoding_witness :
  request.RequestImprovements
    (withUnmarshal (fun _ => inl ErrWrongKey)
       {| Verbose := false; LogReady := true;
          Do := fun _ => inl (TransportError "connection refused");
          Unmarshal := fun _ => inr (response None []); isPrintTable := fun _ => false |})
    "sk-1" "diff" "davinci" 16 half half half half 1
  = request.RequestImprovements
      {| Verbose := false; LogReady := true;
          Do := fun _ => inl (TransportError "connection refused");
         Unmarshal := fun _ => inr (response None []); isPrintTable := fun _ => false |}
      "sk-1" "diff" "davinci" 16 half half half half 1.
Proof.
  exact (proj1 (transport_failure_skips_decoding
                  {| Verbose := false; LogReady := true;
          Do := fun _ => inl (TransportError "connection refused");
                     Unmarshal := fun _ => inr (response None []);
                     isPrintTable := fun _ => false |}
                  (fun _ => inl ErrWrongKey) (TransportError "connection refused")
                  "sk-1" "diff" "davinci" 16 half half half half 1 (fun _ => eq_refl))).
Defined.

(** ** The registry and the JSON text of a request *)

Lemma Models_lookup (alias : string) :
  globals.Models !! alias =
  if String.eqb alias "turbo" then Some globals.Turbo
  else if String.eqb alias "davinci" then Some globals.Davinci
  else if String.eqb alias "curie" then Some globals.Curie
  else if String.eqb alias "babbage" then Some globals.Babbage
  else if String.eqb alias "ada" then Some globals.Ada
  else if String.eqb alias "gpt4" then Some globals.GPT4
  else None.
Proof.
  unfold globals.Models.
  destruct (String.eqb_spec alias "turbo") as [->|H1]; [vm_compute; reflexivity|].
  destruct (String.eqb_spec alias "davinci") as [->|H2]; [vm_compute; reflexivity|].
  destruct (String.eqb_spec alias "curie") as [->|H3]; [vm_compute; reflexivity|].
  destruct (String.eqb_spec alias "babbage") as [->|H4]; [vm_compute; reflexivity|].
  destruct (String.eqb_spec alias "ada") as [->|H5]; [vm_compute; reflexivity|].
  destruct (String.eqb_spec alias "gpt4") as [->|H6]; [vm_compute; reflexivity|].
  rewrite !lookup_insert_ne by congruence. apply lookup_empty.
Qed.

(** X8. The registry is a closed set of six aliases, matched exactly and
    with their case: a lookup finds a model only for turbo, davinci, curie,
    babbage, ada and gpt4; the chat models are those of turbo and gpt4; and
    no two aliases share an API name. *)
Theorem registry_closed (alias : string) (m : globals.Model) :
  globals.Models !! alias = Some m ->
  (alias, m) ∈ [("turbo", globals.Turbo); ("davinci", globals.Davinci);
                ("curie", globals.Curie); ("babbage", globals.Babbage);
                ("ada", globals.Ada); ("gpt4", globals.GPT4)]
  /\ (globals.Chat m = true <-> alias = "turbo" \/ alias = "gpt4")
  /\ (forall (alias' : string) (m' : globals.Model),
         globals.Models !! alias' = Some m' ->
         globals.Name m' = globals.Name m -> alias' = alias).
Proof.
  assert (Hcases : forall a x, globals.Models !! a = Some x ->
            (a = "turbo" /\ x = globals.Turbo) \/ (a = "davinci" /\ x = globals.Davinci)
            \/ (a = "curie" /\ x = globals.Curie) \/ (a = "babbage" /\ x = globals.Babbage)
            \/ (a = "ada" /\ x = globals.Ada) \/ (a = "gpt4" /\ x = globals.GPT4)).
  { intros a x. rewrite Models_lookup.
    destruct (String.eqb_spec a "turbo") as [->|_]; [intros [= <-]; tauto|].
    destruct (String.eqb_spec a "davinci") as [->|_]; [intros [= <-]; tauto|].
    destruct (String.eqb_spec a "curie") as [->|_]; [intros [= <-]; tauto|].
    destruct (String.eqb_spec a "babbage") as [->|_]; [intros [= <-]; tauto|].
    destruct (String.eqb_spec a "ada") as [->|_]; [intros [= <-]; tauto|].
    destruct (String.eqb_spec a "gpt4") as [->|_]; [intros [= <-]; tauto|].
    discriminate. }
  intros H. apply Hcases in H.
  split; [|split].
  - rewrite !elem_of_cons.
    destruct H as [[-> ->]|[[-> ->]|[[-> ->]|[[-> ->]|[[-> ->]|[-> ->]]]]]]; tauto.
  - destruct H as [[-> ->]|[[-> ->]|[[-> ->]|[[-> ->]|[[-> ->]|[-> ->]]]]]]; cbn;
      split; try tauto; try discriminate; intros [E|E]; discriminate.
  - intros alias' m' H' Hn. apply Hcases in H'.
    destruct H as [[-> ->]|[[-> ->]|[[-> ->]|[[-> ->]|[[-> ->]|[-> ->]]]]]];
      destruct H' as [[-> ->]|[[-> ->]|[[-> ->]|[[-> ->]|[[-> ->]|[-> ->]]]]]];
      (reflexivity || discriminate).
Qed.

(** The alias [gpt4]. *)
Lemma registry_closed_witness : globals.Chat globals.GPT4 = true <-> "gpt4" = "turbo" \/ "gpt4" = "gpt4".
Proof.
  assert (Hm : globals.Models !! "gpt4" = Some globals.GPT4) by (vm_compute; reflexivity).
  exact (proj1 (proj2 (registry_closed "gpt4" globals.GPT4 Hm))).
Defined.

(** The API names of the registry are ASCII, so the encoder keeps them. *)
Lemma registry_name_kept (alias : string) (m : globals.Model) :
  globals.Models !! alias = Some m ->
  utf8.ToValidUTF8 (globals.Name m) = globals.Name m.
Proof.
  rewrite Models_lookup.
  repeat match goal with
         | |- context [if ?c then _ else _] =>
             destruct c; [intros [= <-]; vm_compute; reflexivity|]
         end.
  discriminate.
Qed.

Lemma encFloat_inr (x : float64) (v : json.value) :
  json.encFloat x = inr v -> v = json.Float x.
Proof. unfold json.encFloat. destruct (f64.is_nan x || f64.is_inf x); congruence. Qed.

(** X9. The JSON text of a legacy request has exactly the members model,
    prompt, temperature, max_tokens, top_p, frequency_penalty,
    presence_penalty and best_of, in this order; model is the API name the
    registry gives for the alias, and the numbers are those of the caller,
    max_tokens and best_of included, unchanged. *)
Theorem legacy_request_json (alias : string) (model : globals.Model) (gitDiff : string)
    (maxtokens : int) (t p f pr : float64) (b : int) (j : json.value) :
  globals.Models !! alias = Some model ->
  globals.Chat model = false ->
  requestJSON model gitDiff maxtokens t p f pr b = inr j ->
  j = json.Object
        [("model", json.Str (globals.Name model));
         ("prompt", json.Str (utf8.ToValidUTF8
                                (request.PROMPT_PREFIX +:+ nl +:+ gitDiff +:+ nl)));
         ("temperature", json.Float t);
         ("max_tokens", json.Int maxtokens);
         ("top_p", json.Float p);
         ("frequency_penalty", json.Float f);
         ("presence_penalty", json.Float pr);
         ("best_of", json.Int b)].
Proof.
  intros Hm Hc.
  unfold requestJSON, request.configureParams, request.createRequestBody, request.withPrompt.
  rewrite Hc. unfold request.Marshal_Body, bindE, json.encString, json.encInt.
  cbn [Body.Model Body.Prompt Body.Temperature Body.Max_Tokens Body.Top_P
       Body.Frequence_Pen Body.Presence_Pen Body.Best_Of].
  rewrite (registry_name_kept alias model Hm).
  destruct (json.encFloat t) as [|vt] eqn:Et; [discriminate|].
  destruct (json.encFloat p) as [|vp] eqn:Ep; [discriminate|].
  destruct (json.encFloat f) as [|vf] eqn:Ef; [discriminate|].
  destruct (json.encFloat pr) as [|vpr] eqn:Epr; [discriminate|].
  apply encFloat_inr in Et, Ep, Ef, Epr. subst. intros [= <-]. reflexivity.
Qed.

(** [curie] with a negative max_tokens. *)
Lemma legacy_request_json_witness :
  requestJSON globals.Curie "diff" (-5) half half half half 7
  = inr (json.Object
           [("model", json.Str "text-curie-001");
            ("prompt", json.Str (utf8.ToValidUTF8
                                   (request.PROMPT_PREFIX +:+ nl +:+ "diff" +:+ nl)));
            ("temperature", json.Float half);
            ("max_tokens", json.Int (-5));
            ("top_p", json.Float half);
            ("frequency_penalty", json.Float half);
            ("presence_penalty", json.Float half);
            ("best_of", json.Int 7)]).
Proof.
  assert (Hm : globals.Models !! "curie" = Some globals.Curie) by (vm_compute; reflexivity).
  destruct (requestJSON globals.Curie "diff" (-5) half half half half 7) as [e|j] eqn:E.
  - vm_compute in E. discriminate.
  - f_equal. exact (legacy_request_json "curie" globals.Curie "diff" (-5)
                      half half half half 7 j Hm eq_refl E).
Defined.

(** X10. The JSON text of a chat request carries the API name of the
    registry as model, the two messages, the fixed instruction unchanged
    under role system and the diff text under role user, and the four
    floats and max_tokens of the caller, unchanged. *)
Theorem chat_request_json (alias : string) (model : globals.Model) (gitDiff : string)
    (maxtokens : int) (t p f pr : float64) (b : int) (j : json.value) :
  globals.Models !! alias = Some model ->
  globals.Chat model = true ->
  requestJSON model gitDiff maxtokens t p f pr b = inr j ->
  j = json.Object
        [("model", json.Str (globals.Name model));
         ("messages",
          json.Array
            [json.Object [("role", json.Str "system");
                          ("content", json.Str request.CHAT_PROMPT_INSTRUCTIONS)];
             json.Object [("role", json.Str "user");
                          ("content", json.Str (utf8.ToValidUTF8 gitDiff))]]);
         ("temperature", json.Float t);
         ("max_tokens", json.Int maxtokens);
         ("top_p", json.Float p);
         ("frequency_penalty", json.Float f);
         ("presence_penalty", json.Float pr)].
Proof.
  intros Hm Hc.
  unfold requestJSON, request.configureParams, request.createRequestBody, request.withPrompt.
  rewrite Hc. unfold request.Marshal_ChatBody, bindE, json.encString, json.encInt.
  cbn [ChatBody.Model ChatBody.Messages ChatBody.Temperature ChatBody.Max_Tokens
       ChatBody.Top_P ChatBody.Frequence_Pen ChatBody.Presence_Pen].
  rewrite (registry_name_kept alias model Hm).
  unfold request.Marshal_Messages, request.Marshal_Message, json.encString.
  cbn [List.map Message.Role Message.Content].
  rewrite ToValidUTF8_instructions.
  change (utf8.ToValidUTF8 "system") with "system".
  change (utf8.ToValidUTF8 "user") with "user".
  destruct (json.encFloat t) as [|vt] eqn:Et; [discriminate|].
  destruct (json.encFloat p) as [|vp] eqn:Ep; [discriminate|].
  destruct (json.encFloat f) as [|vf] eqn:Ef; [discriminate|].
  destruct (json.encFloat pr) as [|vpr] eqn:Epr; [discriminate|].
  apply encFloat_inr in Et, Ep, Ef, Epr. subst. intros [= <-]. reflexivity.
Qed.

(** [turbo]. *)
Lemma chat_request_json_witness :
  requestJSON globals.Turbo "diff" 16 half half half half 1
  = inr (json.Object
           [("model", json.Str "gpt-3.5-turbo");
            ("messages",
             json.Array
               [json.Object [("role", json.Str "system");
                             ("content", json.Str request.CHAT_PROMPT_INSTRUCTIONS)];
                json.Object [("role", json.Str "user");
                             ("content", json.Str (utf8.ToValidUTF8 "diff"))]]);
            ("temperature", json.Float half);
            ("max_tokens", json.Int 16);
            ("top_p", json.Float half);
            ("frequency_penalty", json.Float half);
            ("presence_penalty", json.Float half)]).
Proof.
  assert (Hm : globals.Models !! "turbo" = Some globals.Turbo) by (vm_compute; reflexivity).
  destruct (requestJSON globals.Turbo "diff" 16 half half half half 1) as [e|j] eqn:E.
  - vm_compute in E. discriminate.
  - f_equal. exact (chat_request_json "turbo" globals.Turbo "diff" 16
                      half half half half 1 j Hm eq_refl E).
Defined.

(** ** Diff texts that travel unchanged *)

Lemma isASCII_cons (c : ascii) (s : string) :
  isASCII (String c s) = (N_of_ascii c <? 128)%N && isASCII s.
Proof. reflexivity. Qed.

Lemma isASCII_app (s1 s2 : string) : isASCII (s1 +:+ s2) = isASCII s1 && isASCII s2.
Proof.
  induction s1 as [|c s1 IH]; [reflexivity|].
  change (String c s1 +:+ s2) with (String c (s1 +:+ s2)).
  rewrite !isASCII_cons, IH. apply andb_assoc.
Qed.

Lemma runeLen_ascii (c : ascii) (s : string) :
  (N_of_ascii c <? 128)%N = true -> utf8.runeLen c s = 1%nat.
Proof.
  intros H. unfold utf8.runeLen, utf8.byte_in.
  apply N.ltb_lt in H.
  replace (0 <=? N_of_ascii c)%N with true by (symmetry; apply N.leb_le; lia).
  replace (N_of_ascii c <=? 127)%N with true by (symmetry; apply N.leb_le; lia).
  reflexivity.
Qed.

(** The encoder keeps an ASCII string as it is. *)
Lemma ToValidUTF8_ascii (s : string) : isASCII s = true -> utf8.ToValidUTF8 s = s.
Proof.
  unfold utf8.ToValidUTF8. induction s as [|c s IH]; [reflexivity|].
  rewrite isASCII_cons, andb_true_iff. intros [Hc Hs].
  cbn [utf8.coerce_from]. rewrite (runeLen_ascii c s Hc), IH by exact Hs. reflexivity.
Qed.

(** X11. An ASCII diff text reaches the wire unchanged in
    [request.go]: the prompt member of a legacy request is the fixed
    prefix, a line break, the diff text and a line break, byte for byte;
    the content of the user message of a chat request is the diff text. *)
Theorem ascii_diff_unchanged (model : globals.Model) (gitDiff : string) (maxtokens : int)
    (t p f pr : float64) (b : int) (j : json.value) :
  isASCII gitDiff = true ->
  requestJSON model gitDiff maxtokens t p f pr b = inr j ->
  if globals.Chat model
  then exists system : json.value,
         member "messages" j
         = Some (json.Array [system; json.Object [("role", json.Str "user");
                                                  ("content", json.Str gitDiff)]])
  else member "prompt" j
       = Some (json.Str (request.PROMPT_PREFIX +:+ nl +:+ gitDiff +:+ nl)).
Proof.
  intros Ha.
  assert (Hp : utf8.ToValidUTF8 (request.PROMPT_PREFIX +:+ nl +:+ gitDiff +:+ nl)
               = request.PROMPT_PREFIX +:+ nl +:+ gitDiff +:+ nl).
  { apply ToValidUTF8_ascii. rewrite !isASCII_app, Ha.
    replace (isASCII request.PROMPT_PREFIX) with true by (vm_compute; reflexivity).
    reflexivity. }
  unfold requestJSON, request.configureParams, request.createRequestBody, request.withPrompt.
  destruct (globals.Chat model).
  - unfold request.Marshal_ChatBody, bindE.
    cbn [ChatBody.Model ChatBody.Messages ChatBody.Temperature ChatBody.Max_Tokens
         ChatBody.Top_P ChatBody.Frequence_Pen ChatBody.Presence_Pen].
    destruct (json.encFloat t); [discriminate|].
    destruct (json.encFloat p); [discriminate|].
    destruct (json.encFloat f); [discriminate|].
    destruct (json.encFloat pr); [discriminate|].
    intros [= <-]. eexists.
    unfold member, request.Marshal_Messages, request.Marshal_Message, json.encString.
    cbn [List.find fst snd String.eqb Ascii.eqb Bool.eqb option_map List.map
         Message.Role Message.Content].
    rewrite (ToValidUTF8_ascii gitDiff Ha). reflexivity.
  - intros Hj. apply Marshal_Body_prompt in Hj. cbn [Body.Prompt] in Hj.
    rewrite Hp in Hj. exact Hj.
Qed.

(** A diff of two lines, for [davinci]. *)
Lemma ascii_diff_unchanged_witness :
  exists j : json.value,
    requestJSON globals.Davinci ("+a" +:+ nl +:+ "-b") 16 half half half half 1 = inr j
    /\ member "prompt" j
       = Some (json.Str (request.PROMPT_PREFIX +:+ nl +:+ ("+a" +:+ nl +:+ "-b") +:+ nl)).
Proof.
  assert (Hr : in_ranges half half half half 1 = true) by (vm_compute; reflexivity).
  destruct (requestJSON_ok globals.Davinci ("+a" +:+ nl +:+ "-b") 16 _ _ _ _ _ Hr) as [j Hj].
  exists j. split; [exact Hj|].
  assert (Ha : isASCII ("+a" +:+ nl +:+ "-b") = true) by (vm_compute; reflexivity).
  exact (ascii_diff_unchanged globals.Davinci ("+a" +:+ nl +:+ "-b") 16
           half half half half 1 j Ha Hj).
Defined.

Lemma append_assoc (a b c : string) : (a +:+ b) +:+ c = a +:+ (b +:+ c).
Proof.
  induction a as [|x a IH]; [reflexivity|].
  change (String x ((a +:+ b) +:+ c) = String x (a +:+ (b +:+ c))). now rewrite IH.
Qed.

Lemma isPlain_cons (c : ascii) (s : string) :
  isPlain (String c s)
  = ((32 <=? N_of_ascii c) && (N_of_ascii c <=? 126) && negb (N_of_ascii c =? 34)
     && negb (N_of_ascii c =? 92))%N && isPlain s.
Proof. reflexivity. Qed.

(** [strconv.Quote] copies a plain string between two double quotes,
    whatever the Unicode table is. *)
Lemma quote_from_plain (table : N -> bool) (s : string) :
  isPlain s = true -> strconv.quote_from table 0 s = s.
Proof.
  induction s as [|c s IH]; [reflexivity|].
  rewrite isPlain_cons, !andb_true_iff, !negb_true_iff.
  intros [[[[H1 H2] H3] H4] Hs].
  cbn [strconv.quote_from].
  assert (Hlt : (N_of_ascii c <? 128)%N = true)
    by (apply N.ltb_lt; apply N.leb_le in H2; lia).
  rewrite (runeLen_ascii c s Hlt).
  assert (Hv : utf8.runeValue 1 c s = N_of_ascii c) by (destruct s; reflexivity).
  rewrite Hv. unfold strconv.escapedRune, strconv.IsPrint.
  rewrite H3, H4, H1, H2.
  replace (N_of_ascii c <=? 255)%N with true
    by (symmetry; apply N.leb_le; apply N.leb_le in H2; lia).
  cbn [orb andb strconv.prefix]. rewrite IH by exact Hs. reflexivity.
Qed.

(** X12. In the older copy, a diff text of printable ASCII without double
    quote and backslash is not altered but wrapped: the prompt of a legacy
    request is the prefix between double quotes, a line break, the diff
    text between double quotes, and a line break, whatever the Unicode
    table of the Go release is. *)
Theorem orig_prompt_plain (w : World) (model : globals.Model) (params : Body.t)
    (chatParams : ChatBody.t) (gitDiff : string) :
  globals.Chat model = false ->
  isPlain gitDiff = true ->
  Body.Prompt (fst (request_orig.withPrompt w model params chatParams gitDiff))
  = String strconv.dquote request_orig.promptPrefix +:+ String strconv.dquote nl
    +:+ String strconv.dquote gitDiff +:+ String strconv.dquote nl.
Proof.
  intros Hc Hp. unfold request_orig.withPrompt. rewrite Hc. cbn [fst Body.Prompt].
  unfold strconv.Quote.
  rewrite (quote_from_plain _ gitDiff Hp).
  rewrite (quote_from_plain _ request_orig.promptPrefix) by (vm_compute; reflexivity).
  rewrite !append_assoc. cbn [String.append]. reflexivity.
Qed.

(** A one-line diff for [ada]. *)
Lemma orig_prompt_plain_witness :
  Body.Prompt (fst (request_orig.withPrompt (stub EmptyString (inl ErrWrongKey)) globals.Ada
                      (bodyOf half half half half 1) ChatBody.zero "+x := 1"))
  = String strconv.dquote request_orig.promptPrefix +:+ String strconv.dquote nl
    +:+ String strconv.dquote "+x := 1" +:+ String strconv.dquote nl.
Proof.
  assert (Hp : isPlain "+x := 1" = true) by (vm_compute; reflexivity).
  exact (orig_prompt_plain (stub EmptyString (inl ErrWrongKey)) globals.Ada
           (bodyOf half half half half 1) ChatBody.zero "+x := 1" eq_refl Hp).
Defined.

(** ** The comments and the exact ranges *)

Lemma comments_legacy_nonempty (choices : list APIText.t) :
  Forall (fun s => s <> EmptyString) (comments false choices).
Proof.
  unfold comments. apply List.Forall_forall. intros s Hs.
  apply filter_In in Hs. destruct Hs as [_ Hs].
  destruct (String.eqb_spec s EmptyString); [discriminate | assumption].
Qed.

Lemma comments_length (chat : bool) (choices : list APIText.t) :
  (length (comments chat choices) <= length choices)%nat
  /\ (chat = true -> length (comments chat choices) = length choices).
Proof.
  unfold comments. destruct chat.
  - rewrite length_map. split; [lia | reflexivity].
  - split; [|discriminate].
    etransitivity; [apply List.filter_length_le|]. rewrite length_map. lia.
Qed.

(** X13. A legacy model never yields an empty comment: every comment that
    a call of either copy returns for a model outside the chat family is a
    non-empty string.  The loop yields at most one comment per choice, and
    for a chat model exactly one per choice. *)
Theorem legacy_comments_nonempty (w : World) (key gitDiff alias : string) (maxtokens : int)
    (t p f pr : float64) (b : int) (answers : list string) (err : option error) :
  globals.Chat (modelOf alias) = false ->
  result (request.RequestImprovements w key gitDiff alias maxtokens t p f pr b)
    = Returned (answers, err)
  \/ result (request_orig.RequestImprovements w key gitDiff alias maxtokens t p f pr b)
     = Returned (answers, err) ->
  Forall (fun s => s <> EmptyString) answers
  /\ (forall (chat : bool) (choices : list APIText.t),
         (length (request.collect chat choices []) <= length choices)%nat
         /\ (chat = true -> length (request.collect chat choices []) = length choices)).
Proof.
  intros Hc H. split; [|intros chat choices; rewrite collect_comments; apply comments_length].
  assert (Hi : forall req, interpret w false req = Returned (answers, err) ->
               Forall (fun s => s <> EmptyString) answers).
  { intros req. unfold interpret.
    destruct (Do w req) as [e|body]; [intros [= <- _]; constructor|].
    destruct (Unmarshal w body) as [e|r]; [discriminate|].
    destruct (APIResponse.Err r); intros [= <- _];
      [constructor | apply comments_legacy_nonempty]. }
  rewrite request_shape, request_orig_shape, Hc in H.
  destruct (request.CheckFormat _ _) as [e|].
  { destruct H as [H|H]; injection H as <- _; constructor. }
  destruct H as [H|H].
  - destruct (requestJSON _ _ _ _ _ _ _ _) as [e|j]; [injection H as <- _; constructor|].
    eapply Hi, H.
  - destruct (requestJSON_orig _ _ _ _ _ _ _ _ _) as [e|j]; [injection H as <- _; constructor|].
    eapply Hi, H.
Qed.

(** Three legacy choices, two of them without text. *)
Lemma legacy_comments_nonempty_witness :
  Forall (fun s => s <> EmptyString) ["improve X"].
Proof.
  assert (Hc : globals.Chat (modelOf "davinci") = false) by (vm_compute; reflexivity).
  assert (H : result (request.RequestImprovements
                        (stub "{}" (inr (response None [choice EmptyString EmptyString 0;
                                                        choice "improve X" EmptyString 1;
                                                        choice EmptyString EmptyString 2])))
                        "sk-1" "diff" "davinci" 16 half half half half 1)
              = Returned (["improve X"], None)) by (vm_compute; reflexivity).
  exact (proj1 (legacy_comments_nonempty _ "sk-1" "diff" "davinci" 16 half half half half 1
                  _ _ Hc (or_introl H))).
Defined.

(** X14. Off NaN the validator decides by the closed ranges, bounds
    included: with the model found and no NaN among the four floats, it
    answers with the error of the first of temperature in [0, 1], top_p in
    [0, 1], presence penalty in [-2, 2], frequence penalty in [-2, 2] and
    best_of in [1, 20] that does not hold, and with success when all hold.
    Infinities are refused and a negative zero is taken as zero. *)
Theorem validator_exact_off_NaN (t p f pr : float64) (b : int) :
  f64.is_nan t = false -> f64.is_nan p = false ->
  f64.is_nan f = false -> f64.is_nan pr = false ->
  request.CheckFormat (bodyOf t p f pr b) true =
  if negb (temperature_ok t) then Some ErrWrongTempRange
  else if negb (topP_ok p) then Some ErrWrongToppRange
  else if negb (presence_ok pr) then Some ErrWrongPresenceRange
  else if negb (frequence_ok f) then Some ErrWrongFrequenceRange
  else if negb (bestOf_ok b) then Some ErrWrongBestOfRange
  else None.
Proof.
  intros Ht Hp Hf Hpr.
  rewrite CheckFormat_tests.
  cbn [negb Body.Temperature Body.Top_P Body.Presence_Pen Body.Frequence_Pen Body.Best_Of
       bodyOf app].
  rewrite !out_of_range_within by (assumption || reflexivity).
  unfold temperature_ok, topP_ok, presence_ok, frequence_ok, bestOf_ok.
  change (f64.of_Z 0) with globals.TempRangeMin.
  change (f64.of_Z 1) with globals.TempRangeMax.
  change (f64.of_Z (-2)) with globals.PresenceMin.
  change (f64.of_Z 2) with globals.PresenceMax.
  change globals.TopPMin with globals.TempRangeMin.
  change globals.TopPMax with globals.TempRangeMax.
  change globals.FrequenceMin with globals.PresenceMin.
  change globals.FrequenceMax with globals.PresenceMax.
  destruct (f64.within globals.TempRangeMin globals.TempRangeMax t); [|reflexivity].
  destruct (f64.within globals.TempRangeMin globals.TempRangeMax p); [|reflexivity].
  destruct (f64.within globals.PresenceMin globals.PresenceMax pr); [|reflexivity].
  destruct (f64.within globals.PresenceMin globals.PresenceMax f); [|reflexivity].
  cbn [negb app].
  destruct (Z.ltb_spec b 1), (Z.ltb_spec 20 b), (Z.leb_spec 1 b), (Z.leb_spec b 20);
    cbn; (reflexivity || lia).
Qed.

(** The bounds themselves, with a negative zero: accepted; and a positive
    infinity as top_p: refused. *)
Lemma validator_exact_off_NaN_witness :
  request.CheckFormat (bodyOf (S754_zero true) (f64.of_Z 1) (f64.of_Z 2) (f64.of_Z (-2)) 20) true
    = None
  /\ request.CheckFormat (bodyOf half (S754_infinity false) half half 1) true
     = Some ErrWrongToppRange.
Proof.
  split.
  - exact (validator_exact_off_NaN (S754_zero true) (f64.of_Z 1) (f64.of_Z 2) (f64.of_Z (-2)) 20
             eq_refl eq_refl eq_refl eq_refl).
  - exact (validator_exact_off_NaN half (S754_infinity false) half half 1
             eq_refl eq_refl eq_refl eq_refl).
Defined.

(** X26. Off NaN the first failure wins: with no NaN among the four
    floats, the validator answers with the error of the first check of the
    specification that fails, in the order model, temperature, top_p,
    presence penalty, frequence penalty, best_of, and with success when
    none fails, whatever the later parameters are.  With the flag unset it
    answers [ErrWrongModel] for every body, NaN or not, and both copies of
    [RequestImprovements] return that error on an alias outside the
    registry, without a comment and without any event. *)
Theorem first_failure_off_NaN :
  (forall (body : Body.t) (found : bool),
      f64.is_nan (Body.Temperature body) = false -> f64.is_nan (Body.Top_P body) = false ->
      f64.is_nan (Body.Presence_Pen body) = false ->
      f64.is_nan (Body.Frequence_Pen body) = false ->
      request.CheckFormat body found = head (violations body found))
  /\ (forall body : Body.t, request.CheckFormat body false = Some ErrWrongModel)
  /\ (forall (w : World) (key gitDiff alias : string) (maxtokens : int)
        (t p f pr : float64) (b : int),
        globals.Models !! alias = None ->
        request.RequestImprovements w key gitDiff alias maxtokens t p f pr b
          = ([], Returned ([], Some ErrWrongModel))
        /\ request_orig.RequestImprovements w key gitDiff alias maxtokens t p f pr b
          = ([], Returned ([], Some ErrWrongModel))).
Proof.
  split; [exact CheckFormat_first_violation|]. split; [exact CheckFormat_unknown|].
  exact unknown_alias_rejected.
Qed.

(** A body on which the last five checks all fail; and an alias outside
    the registry, with other parameters out of range as well. *)
Lemma first_failure_off_NaN_witness :
  request.CheckFormat
    (bodyOf (S754_infinity false) (f64.of_Z 3) (f64.of_Z 5) (S754_infinity true) 0) true
  = Some ErrWrongTempRange
  /\ request.RequestImprovements (stub EmptyString (inl ErrWrongKey)) "key" "diff" "gpt5" 16
       f64.NaN (S754_infinity false) f64.NaN f64.NaN 0
     = ([], Returned ([], Some ErrWrongModel)).
Proof.
  destruct first_failure_off_NaN as (Hhead & _ & Hrun).
  assert (Hm : globals.Models !! "gpt5" = None) by (vm_compute; reflexivity).
  split.
  - rewrite (Hhead (bodyOf (S754_infinity false) (f64.of_Z 3) (f64.of_Z 5)
                      (S754_infinity true) 0) true eq_refl eq_refl eq_refl eq_refl).
    vm_compute; reflexivity.
  - exact (proj1 (Hrun (stub EmptyString (inl ErrWrongKey)) "key" "diff" "gpt5" 16
                    f64.NaN (S754_infinity false) f64.NaN f64.NaN 0 Hm)).
Defined.

(** * Properties of the callers *)

Lemma printed_app (t1 t2 : list Effect) : printed (t1 ++ t2) = printed t1 ++ printed t2.
Proof. apply flat_map_app. Qed.

Lemma printed_Inner (t : list Event) : printed (List.map Inner t) = [].
Proof. induction t as [|e t IH]; [reflexivity | exact IH]. Qed.

Lemma printed_Println (l : list string) : printed (List.map Println l) = l.
Proof. induction l as [|x l IH]; [reflexivity|]. cbn. unfold printed in IH. now rewrite IH. Qed.

(** In both copies an error comes back without a comment. *)
Lemma returned_error_no_comments (w : World) (key gitDiff alias : string) (maxtokens : int)
    (t p f pr : float64) (b : int) (answers : list string) (e : error) :
  result (request.RequestImprovements w key gitDiff alias maxtokens t p f pr b)
    = Returned (answers, Some e)
  \/ result (request_orig.RequestImprovements w key gitDiff alias maxtokens t p f pr b)
     = Returned (answers, Some e) ->
  answers = [].
Proof.
  assert (Hi : forall chat req, interpret w chat req = Returned (answers, Some e) ->
               answers = []).
  { intros chat req. unfold interpret.
    destruct (Do w req) as [e0|body]; [congruence|].
    destruct (Unmarshal w body) as [e0|r]; [discriminate|].
    destruct (APIResponse.Err r); congruence. }
  rewrite request_shape, request_orig_shape.
  destruct (request.CheckFormat _ _) as [e0|].
  { intros [H|H]; injection H as <- _; reflexivity. }
  intros [H|H].
  - destruct (requestJSON _ _ _ _ _ _ _ _) as [e0|j]; [injection H as <- _; reflexivity|].
    eapply Hi, H.
  - destruct (requestJSON_orig _ _ _ _ _ _ _ _ _) as [e0|j];
      [injection H as <- _; reflexivity|].
    eapply Hi, H.
Qed.

(** What [printImprovements] writes when every improvement renders. *)
Lemma printImprovements_ok (term : Terminal) (renderer : string -> error + string)
    (improvements outs : list string) :
  NewTermRenderer term = inr renderer ->
  Forall2 (fun a out => renderer a = inr out) improvements outs ->
  request_main.printImprovements term improvements = (List.map Println outs, Finished).
Proof.
  intros Hn H. induction H as [|a out improvements outs Ha _ IH]; [reflexivity|].
  cbn [request_main.printImprovements List.map]. rewrite Hn, Ha, IH. reflexivity.
Qed.

Lemma errorsLogged_app (t1 t2 : list Effect) :
  errorsLogged (t1 ++ t2) = errorsLogged t1 ++ errorsLogged t2.
Proof. apply flat_map_app. Qed.

Lemma errorsLogged_Inner (t : list Event) : errorsLogged (List.map Inner t) = [].
Proof. induction t as [|e t IH]; [reflexivity | exact IH]. Qed.

Lemma errorsLogged_Println (l : list string) : errorsLogged (List.map Println l) = [].
Proof. induction l as [|x l IH]; [reflexivity | exact IH]. Qed.

(** X15. When the call fails, [RequestApi] logs the error once, prints
    nothing and returns normally: the failure does not end the process and
    does not reach the caller of [RequestApi].  This holds in both copies,
    whatever the renderer is. *)
Theorem RequestApi_on_error (w : World) (term : Terminal) (gitDiff model : string)
    (maxtokens : int) (t p f pr : float64) (b : int) (answers : list string) (e : error) :
  (result (request.RequestImprovements w (OpenaiKey term) gitDiff model maxtokens
             t p f pr b) = Returned (answers, Some e) ->
   let run := request_main.RequestApi w term gitDiff model maxtokens t p f pr b in
   snd run = Finished /\ printed (fst run) = []
   /\ errorsLogged (fst run) = [(e, "Error while getting improvements")])
  /\ (result (request_orig.RequestImprovements w (OpenaiKey term) gitDiff model maxtokens
                t p f pr b) = Returned (answers, Some e) ->
      let run := request_orig_main.RequestApi w term gitDiff model maxtokens t p f pr b in
      snd run = Finished /\ printed (fst run) = []
      /\ errorsLogged (fst run) = [(e, "Error while getting improvements")]).
Proof.
  split; intros H.
  - pose proof (returned_error_no_comments w _ _ _ _ _ _ _ _ _ _ _ (or_introl H)) as ->.
    unfold request_main.RequestApi. unfold result in H.
    destruct (request.RequestImprovements _ _ _ _ _ _ _ _ _ _) as [tr r].
    cbn [snd] in H. subst r. cbn [request_main.printImprovements fst snd].
    rewrite !printed_app, !errorsLogged_app, printed_Inner, errorsLogged_Inner.
    repeat split.
  - pose proof (returned_error_no_comments w _ _ _ _ _ _ _ _ _ _ _ (or_intror H)) as ->.
    unfold request_orig_main.RequestApi. unfold result in H.
    destruct (request_orig.RequestImprovements _ _ _ _ _ _ _ _ _ _) as [tr r].
    cbn [snd] in H. subst r. cbn [fst snd List.map].
    rewrite !printed_app, !errorsLogged_app, printed_Inner, errorsLogged_Inner.
    repeat split.
Qed.

(** A rejected temperature. *)
Lemma RequestApi_on_error_witness :
  let run := request_main.RequestApi (stub "{}" (inr (response None []))) framing "diff"
               "davinci" 16 (f64.of_Z 3) half half half 1 in
  snd run = Finished /\ printed (fst run) = []
  /\ errorsLogged (fst run) = [(ErrWrongTempRange, "Error while getting improvements")].
Proof.
  assert (H : result (request.RequestImprovements (stub "{}" (inr (response None [])))
                        (OpenaiKey framing) "diff" "davinci" 16 (f64.of_Z 3) half half half 1)
              = Returned ([], Some ErrWrongTempRange)) by (vm_compute; reflexivity).
  exact (proj1 (RequestApi_on_error (stub "{}" (inr (response None []))) framing "diff"
                  "davinci" 16 (f64.of_Z 3) half half half 1 [] ErrWrongTempRange) H).
Defined.

Lemma fatals_app (t1 t2 : list Effect) : fatals (t1 ++ t2) = fatals t1 ++ fatals t2.
Proof. apply flat_map_app. Qed.

Lemma fatals_Inner (t : list Event) : fatals (List.map Inner t) = [].
Proof. induction t as [|e t IH]; [reflexivity | exact IH]. Qed.

Lemma fatals_Println (l : list string) : fatals (List.map Println l) = [].
Proof. induction l as [|x l IH]; [reflexivity | exact IH]. Qed.

(** What [printImprovements] does when an improvement does not render. *)
Lemma printImprovements_failure (term : Terminal) (renderer : string -> error + string)
    (before : list string) (outs : list string) (bad : string) (after : list string)
    (e : error) :
  NewTermRenderer term = inr renderer ->
  Forall2 (fun a out => renderer a = inr out) before outs ->
  renderer bad = inl e ->
  request_main.printImprovements term (before ++ bad :: after)
  = (List.map Println outs ++ [Fatal e], Exited 1).
Proof.
  intros Hn H Hb. induction H as [|a out before outs Ha _ IH].
  - cbn [app request_main.printImprovements List.map]. rewrite Hn, Hb. reflexivity.
  - cbn [app request_main.printImprovements List.map]. rewrite Hn, Ha, IH. reflexivity.
Qed.

(** X16. After a successful call, [RequestApi] of [request.go] prints the
    rendering of each comment, one line per comment and in the order of the
    comments, logs no error and returns, provided the renderer can be made
    and renders every comment. *)
Theorem RequestApi_prints_rendered (w : World) (term : Terminal)
    (renderer : string -> error + string) (gitDiff model : string)
    (maxtokens : int) (t p f pr : float64) (b : int) (answers outs : list string) :
  result (request.RequestImprovements w (OpenaiKey term) gitDiff model maxtokens t p f pr b)
    = Returned (answers, None) ->
  NewTermRenderer term = inr renderer ->
  Forall2 (fun a out => renderer a = inr out) answers outs ->
  let run := request_main.RequestApi w term gitDiff model maxtokens t p f pr b in
  snd run = Finished /\ printed (fst run) = outs
  /\ errorsLogged (fst run) = [] /\ fatals (fst run) = [].
Proof.
  intros H Hn Ho. unfold request_main.RequestApi. unfold result in H.
  destruct (request.RequestImprovements _ _ _ _ _ _ _ _ _ _) as [tr r].
  cbn [snd] in H. subst r.
  rewrite (printImprovements_ok term renderer answers outs Hn Ho). cbn [fst snd app].
  rewrite !printed_app, !errorsLogged_app, !fatals_app, printed_Inner, errorsLogged_Inner,
    fatals_Inner, printed_Println, errorsLogged_Println, fatals_Println.
  repeat split.
Qed.

(** One chat comment through the framing renderer. *)
Lemma RequestApi_prints_rendered_witness :
  let run := request_main.RequestApi
               (stub "{}" (inr (response None [choice EmptyString "looks fine" 0])))
               framing "diff" "turbo" 16 half half half half 1 in
  snd run = Finished /\ printed (fst run) = ["| looks fine"]
  /\ errorsLogged (fst run) = [] /\ fatals (fst run) = [].
Proof.
  assert (H : result (request.RequestImprovements
                        (stub "{}" (inr (response None [choice EmptyString "looks fine" 0])))
                        (OpenaiKey framing) "diff" "turbo" 16 half half half half 1)
              = Returned (["looks fine"], None)) by (vm_compute; reflexivity).
  assert (Ho : Forall2 (fun a out => (fun s => inr ("| " +:+ s) : error + string) a = inr out)
                 ["looks fine"] ["| looks fine"]) by (repeat constructor).
  exact (RequestApi_prints_rendered _ framing _ "diff" "turbo" 16 half half half half 1
           ["looks fine"] ["| looks fine"] H eq_refl Ho).
Defined.

(** X17. When a comment does not render, [RequestApi] of [request.go]
    ends the process with status 1 at that comment: the renderings of the
    comments before it have been printed, its error is the one fatal entry,
    and no later comment is printed.  When the renderer cannot be made, the
    process ends at the first comment with nothing printed. *)
Theorem RequestApi_render_failure (w : World) (term : Terminal) (gitDiff model : string)
    (maxtokens : int) (t p f pr : float64) (b : int) :
  (forall (renderer : string -> error + string) (before outs : list string) (bad : string)
      (after : list string) (e : error),
      result (request.RequestImprovements w (OpenaiKey term) gitDiff model maxtokens
                t p f pr b) = Returned (before ++ bad :: after, None) ->
      NewTermRenderer term = inr renderer ->
      Forall2 (fun a out => renderer a = inr out) before outs ->
      renderer bad = inl e ->
      let run := request_main.RequestApi w term gitDiff model maxtokens t p f pr b in
      snd run = Exited 1 /\ printed (fst run) = outs /\ fatals (fst run) = [e])
  /\ (forall (first : string) (rest : list string) (e : error),
         result (request.RequestImprovements w (OpenaiKey term) gitDiff model maxtokens
                   t p f pr b) = Returned (first :: rest, None) ->
         NewTermRenderer term = inl e ->
         let run := request_main.RequestApi w term gitDiff model maxtokens t p f pr b in
         snd run = Exited 1 /\ printed (fst run) = [] /\ fatals (fst run) = [e]).
Proof.
  split.
  - intros renderer before outs bad after e H Hn Ho Hb.
    unfold request_main.RequestApi. unfold result in H.
    destruct (request.RequestImprovements _ _ _ _ _ _ _ _ _ _) as [tr r].
    cbn [snd] in H. subst r.
    rewrite (printImprovements_failure term renderer before outs bad after e Hn Ho Hb).
    cbn [fst snd app].
    rewrite !printed_app, !fatals_app, printed_Inner, fatals_Inner, printed_Println,
      fatals_Println.
    cbn. rewrite app_nil_r. repeat split.
  - intros first rest e H Hn.
    unfold request_main.RequestApi. unfold result in H.
    destruct (request.RequestImprovements _ _ _ _ _ _ _ _ _ _) as [tr r].
    cbn [snd] in H. subst r.
    cbn [request_main.printImprovements]. rewrite Hn. cbn [fst snd app].
    rewrite !printed_app, !fatals_app, printed_Inner, fatals_Inner. repeat split.
Qed.

(** A chat answer whose second choice is empty, through the renderer that
    fails on the empty text. *)
Lemma RequestApi_render_failure_witness :
  let run := request_main.RequestApi
               (stub "{}" (inr (response None [choice EmptyString "first" 0;
                                               choice EmptyString EmptyString 1;
                                               choice EmptyString "third" 2])))
               fussy "diff" "turbo" 16 half half half half 1 in
  snd run = Exited 1 /\ printed (fst run) = ["| first"]
  /\ fatals (fst run) = [errorString "nothing to render"].
Proof.
  assert (H : result (request.RequestImprovements
                        (stub "{}" (inr (response None [choice EmptyString "first" 0;
                                                        choice EmptyString EmptyString 1;
                                                        choice EmptyString "third" 2])))
                        (OpenaiKey fussy) "diff" "turbo" 16 half half half half 1)
              = Returned (["first"] ++ EmptyString :: ["third"], None))
    by (vm_compute; reflexivity).
  assert (Ho : Forall2
                 (fun a out =>
                    (fun s => if String.eqb s EmptyString
                              then inl (errorString "nothing to render")
                              else inr ("| " +:+ s) : error + string) a = inr out)
                 ["first"] ["| first"]) by (repeat constructor).
  exact (proj1 (RequestApi_render_failure _ fussy "diff" "turbo" 16 half half half half 1)
           _ ["first"] ["| first"] EmptyString ["third"] (errorString "nothing to render")
           H eq_refl Ho eq_refl).
Defined.

(** X18. [RequestApi] of the older copy prints the comments as they are,
    one line per comment and in their order, and never ends the process: a
    run of it returns or passes a panic on. *)
Theorem RequestApi_orig_prints_verbatim (w : World) (term : Terminal)
    (gitDiff model : string) (maxtokens : int) (t p f pr : float64) (b : int) :
  let run := request_orig_main.RequestApi w term gitDiff model maxtokens t p f pr b in
  (forall code, snd run <> Exited code)
  /\ fatals (fst run) = []
  /\ (forall (answers : list string) (err : option error),
         result (request_orig.RequestImprovements w (OpenaiKey term) gitDiff model maxtokens
                   t p f pr b) = Returned (answers, err) ->
         snd run = Finished /\ printed (fst run) = answers).
Proof.
  unfold request_orig_main.RequestApi, result.
  destruct (request_orig.RequestImprovements _ _ _ _ _ _ _ _ _ _) as [tr [[answers err]|v]];
    cbn [fst snd].
  - split; [discriminate|]. split.
    + rewrite !fatals_app, fatals_Inner, fatals_Println. destruct err; reflexivity.
    + intros answers' err' [= <- <-]. split; [reflexivity|].
      rewrite !printed_app, printed_Inner, printed_Println. destruct err; reflexivity.
  - split; [discriminate|]. split; [apply fatals_Inner | discriminate].
Qed.

(** Two legacy comments, printed as they are. *)
Lemma RequestApi_orig_prints_verbatim_witness :
  let run := request_orig_main.RequestApi
               (stub "{}" (inr (response None [choice "**bold**" EmptyString 0;
                                               choice "improve X" EmptyString 1])))
               fussy "diff" "davinci" 16 half half half half 1 in
  snd run = Finished /\ printed (fst run) = ["**bold**"; "improve X"].
Proof.
  assert (H : result (request_orig.RequestImprovements
                        (stub "{}" (inr (response None [choice "**bold**" EmptyString 0;
                                                        choice "improve X" EmptyString 1])))
                        (OpenaiKey fussy) "diff" "davinci" 16 half half half half 1)
              = Returned (["**bold**"; "improve X"], None)) by (vm_compute; reflexivity).
  exact (proj2 (proj2 (RequestApi_orig_prints_verbatim
                         (stub "{}" (inr (response None [choice "**bold**" EmptyString 0;
                                                         choice "improve X" EmptyString 1])))
                         fussy "diff" "davinci" 16 half half half half 1))
           ["**bold**"; "improve X"] None H).
Defined.

Lemma info_entry (w : World) (msg m : string) :
  Logged InfoLevel m ∈ info w msg -> m = msg.
Proof.
  unfold info. destruct (Verbose w); intros H.
  - apply list_elem_of_singleton in H. congruence.
  - inversion H.
Qed.

(** The entries at info level that a call leaves are its own three. *)
Lemma info_entries (w : World) (key gitDiff alias : string) (maxtokens : int)
    (t p f pr : float64) (b : int) (m : string) :
  Logged InfoLevel m
    ∈ trace (request.RequestImprovements w key gitDiff alias maxtokens t p f pr b)
  \/ Logged InfoLevel m
     ∈ trace (request_orig.RequestImprovements w key gitDiff alias maxtokens t p f pr b) ->
  m = "Creating new request" \/ m = "Requesting GPT"
  \/ m = "Got back the request information".
Proof.
  assert (Ha : forall req, Logged InfoLevel m ∈ answerTrace w req ->
               m = "Got back the request information").
  { intros req. unfold answerTrace. destruct (Do w req) as [e|body]; [intros H; inversion H|].
    rewrite elem_of_app. intros [H|H]; [eapply info_entry, H|].
    destruct (Unmarshal w body); [destruct (LogReady w)|];
      [apply list_elem_of_singleton in H; discriminate | inversion H | inversion H]. }
  assert (Hs : forall req,
             Logged InfoLevel m ∈ info w "Creating new request" ++ info w "Requesting GPT"
                                   ++ [Sent req] ++ answerTrace w req ->
             m = "Creating new request" \/ m = "Requesting GPT"
             \/ m = "Got back the request information").
  { intros req. rewrite !elem_of_app.
    intros [H|[H|[H|H]]].
    - left. eapply info_entry, H.
    - right. left. eapply info_entry, H.
    - apply list_elem_of_singleton in H. discriminate.
    - right. right. eapply Ha, H. }
  rewrite request_shape, request_orig_shape.
  destruct (request.CheckFormat _ _) as [e|].
  { intros [H|H]; inversion H. }
  intros [H|H].
  - destruct (requestJSON _ _ _ _ _ _ _ _) as [e|j].
    + unfold trace in H. cbn [fst] in H. apply list_elem_of_singleton in H. discriminate.
    + eapply Hs, H.
  - destruct (requestJSON_orig _ _ _ _ _ _ _ _ _) as [e|j].
    + inversion H.
    + eapply Hs, H.
Qed.

Lemma elem_of_Inner (e : Event) (t : list Event) : Inner e ∈ List.map Inner t -> e ∈ t.
Proof.
  induction t as [|x t IH]; cbn; intros H; [inversion H|].
  apply elem_of_cons in H. destruct H as [[= ->]|H]; [left | right; auto].
Qed.

(** X19. A panic of the call passes through [RequestApi] in both copies:
    nothing is printed, the caller logs no error, and its entry that
    announces the results is not written. *)
Theorem RequestApi_passes_panic (w : World) (term : Terminal) (gitDiff model : string)
    (maxtokens : int) (t p f pr : float64) (b : int) (v : string) :
  (result (request.RequestImprovements w (OpenaiKey term) gitDiff model maxtokens
             t p f pr b) = Panicked v ->
   let run := request_main.RequestApi w term gitDiff model maxtokens t p f pr b in
   snd run = Panicking v /\ printed (fst run) = [] /\ errorsLogged (fst run) = []
   /\ Inner (Logged InfoLevel "Got improvements") ∉ fst run)
  /\ (result (request_orig.RequestImprovements w (OpenaiKey term) gitDiff model maxtokens
                t p f pr b) = Panicked v ->
      let run := request_orig_main.RequestApi w term gitDiff model maxtokens t p f pr b in
      snd run = Panicking v /\ printed (fst run) = [] /\ errorsLogged (fst run) = []
      /\ Inner (Logged InfoLevel "Got improvements") ∉ fst run).
Proof.
  split; intros H; cbv zeta.
  - pose proof (fun m Hin => info_entries w (OpenaiKey term) gitDiff model maxtokens
                                t p f pr b m (or_introl Hin)) as Hinfo.
    unfold request_main.RequestApi. unfold result in H. unfold trace in Hinfo.
    destruct (request.RequestImprovements _ _ _ _ _ _ _ _ _ _) as [tr r].
    cbn [snd] in H. cbn [fst] in Hinfo. subst r. cbn [fst snd].
    rewrite printed_Inner, errorsLogged_Inner. repeat split.
    intros Hin. apply elem_of_Inner, elem_of_app in Hin. destruct Hin as [Hin|Hin].
    + unfold trace, request.LogVerbose in Hin. destruct (Verbose w); cbn in Hin.
      * apply list_elem_of_singleton in Hin. discriminate.
      * inversion Hin.
    + apply Hinfo in Hin. destruct Hin as [Hin|[Hin|Hin]]; discriminate.
  - pose proof (fun m Hin => info_entries w (OpenaiKey term) gitDiff model maxtokens
                                t p f pr b m (or_intror Hin)) as Hinfo.
    unfold request_orig_main.RequestApi. unfold result in H. unfold trace in Hinfo.
    destruct (request_orig.RequestImprovements _ _ _ _ _ _ _ _ _ _) as [tr r].
    cbn [snd] in H. cbn [fst] in Hinfo. subst r. cbn [fst snd].
    rewrite printed_Inner, errorsLogged_Inner. repeat split.
    intros Hin. apply elem_of_Inner, elem_of_app in Hin. destruct Hin as [Hin|Hin].
    + unfold trace, request.LogVerbose in Hin. destruct (Verbose w); cbn in Hin.
      * apply list_elem_of_singleton in Hin. discriminate.
      * inversion Hin.
    + apply Hinfo in Hin. destruct Hin as [Hin|[Hin|Hin]]; discriminate.
Qed.

(** An HTML page where JSON was expected, in verbose mode. *)
Lemma RequestApi_passes_panic_witness :
  let run := request_main.RequestApi
               (withVerbose true (stub "<html>" (inl (UnmarshalError "invalid character '<'"))))
               framing "diff" "davinci" 16 half half half half 1 in
  snd run = Panicking "invalid character '<'" /\ printed (fst run) = []
  /\ errorsLogged (fst run) = []
  /\ Inner (Logged InfoLevel "Got improvements") ∉ fst run.
Proof.
  assert (H : result (request.RequestImprovements
                        (withVerbose true
                           (stub "<html>" (inl (UnmarshalError "invalid character '<'"))))
                        (OpenaiKey framing) "diff" "davinci" 16 half half half half 1)
              = Panicked "invalid character '<'") by (vm_compute; reflexivity).
  exact (proj1 (RequestApi_passes_panic _ framing "diff" "davinci" 16 half half half half 1
                  "invalid character '<'") H).
Defined.

(** X20. [RequestApi] authenticates with the configured key: every
    request that a run of either copy sends carries the one authorization
    header, the bearer form of [globals.OpenaiKey]. *)
Theorem RequestApi_uses_key (w : World) (term : Terminal) (gitDiff model : string)
    (maxtokens : int) (t p f pr : float64) (b : int) (req : http.Request) :
  Inner (Sent req) ∈ fst (request_main.RequestApi w term gitDiff model maxtokens t p f pr b)
  \/ Inner (Sent req)
     ∈ fst (request_orig_main.RequestApi w term gitDiff model maxtokens t p f pr b) ->
  http.Header req !! "Authorization" = Some ["Bearer " +:+ OpenaiKey term].
Proof.
  assert (Hreq : req ∈ requests (trace (request.RequestImprovements w (OpenaiKey term) gitDiff
                                          model maxtokens t p f pr b))
                 \/ req ∈ requests (trace (request_orig.RequestImprovements w (OpenaiKey term)
                                             gitDiff model maxtokens t p f pr b)) ->
                 http.Header req !! "Authorization" = Some ["Bearer " +:+ OpenaiKey term]).
  { rewrite requests_request, requests_request_orig.
    destruct (request.CheckFormat _ _); [intros [H|H]; inversion H|].
    intros [H|H].
    - destruct (requestJSON _ _ _ _ _ _ _ _); [inversion H|].
      apply list_elem_of_singleton in H. subst req. unfold postRequest. cbn [http.Header].
      rewrite lookup_insert_ne by discriminate. apply lookup_insert_eq.
    - destruct (requestJSON_orig _ _ _ _ _ _ _ _ _); [inversion H|].
      apply list_elem_of_singleton in H. subst req. unfold postRequest. cbn [http.Header].
      rewrite lookup_insert_ne by discriminate. apply lookup_insert_eq. }
  assert (Hv : forall msg, Sent req ∈ trace (request.LogVerbose w msg) -> False).
  { intros msg. unfold trace, request.LogVerbose. destruct (Verbose w); cbn; intros H.
    - apply list_elem_of_singleton in H. discriminate.
    - inversion H. }
  intros [H|H]; apply Hreq; [left|right]; apply elem_of_requests.
  - unfold request_main.RequestApi, trace in *.
    destruct (request.RequestImprovements _ _ _ _ _ _ _ _ _ _) as [tr [[answers err]|v]];
      cbn [fst snd] in *.
    + destruct (request_main.printImprovements term answers) as [tp e] eqn:Ep.
      cbn [fst] in H. rewrite !elem_of_app in H. destruct H as [H|[H|H]].
      * apply elem_of_Inner in H. rewrite !elem_of_app in H.
        destruct H as [H|[H|H]]; [destruct (Hv _ H) | exact H | destruct (Hv _ H)].
      * destruct err; [apply list_elem_of_singleton in H; discriminate | inversion H].
      * exfalso. clear -H Ep. revert tp e Ep H.
        induction answers as [|a answers IH]; intros tp e Ep H; cbn in Ep.
        -- injection Ep as <- _. inversion H.
        -- destruct (NewTermRenderer term) as [e0|renderer].
           ++ injection Ep as <- _. apply list_elem_of_singleton in H. discriminate.
           ++ destruct (renderer a) as [e0|out].
              ** injection Ep as <- _. apply list_elem_of_singleton in H. discriminate.
              ** destruct (request_main.printImprovements term answers) as [tp' e'].
                 injection Ep as <- _. apply elem_of_cons in H.
                 destruct H as [H|H]; [discriminate | eapply IH; eauto].
    + apply elem_of_Inner in H. rewrite elem_of_app in H.
      destruct H as [H|H]; [destruct (Hv _ H) | exact H].
  - unfold request_orig_main.RequestApi, trace in *.
    destruct (request_orig.RequestImprovements _ _ _ _ _ _ _ _ _ _) as [tr [[answers err]|v]];
      cbn [fst snd] in *.
    + rewrite !elem_of_app in H. destruct H as [H|[H|H]].
      * apply elem_of_Inner in H. rewrite !elem_of_app in H.
        destruct H as [H|[H|H]]; [destruct (Hv _ H) | exact H | destruct (Hv _ H)].
      * destruct err; [apply list_elem_of_singleton in H; discriminate | inversion H].
      * exfalso. clear -H. induction answers as [|a answers IH]; cbn in H; [inversion H|].
        apply elem_of_cons in H. destruct H as [H|H]; [discriminate | auto].
    + apply elem_of_Inner in H. rewrite elem_of_app in H.
      destruct H as [H|H]; [destruct (Hv _ H) | exact H].
Qed.

(** The request of a call for [davinci]. *)
Lemma RequestApi_uses_key_witness :
  exists req : http.Request,
    Inner (Sent req) ∈ fst (request_main.RequestApi (stub "{}" (inr (response None [])))
                              framing "diff" "davinci" 16 half half half half 1)
    /\ http.Header req !! "Authorization" = Some ["Bearer sk-1"].
Proof.
  assert (Hd : globals.Models !! "davinci" = Some globals.Davinci) by (vm_compute; reflexivity).
  assert (Hr : in_ranges half half half half 1 = true) by (vm_compute; reflexivity).
  destruct (request_run (stub "{}" (inr (response None []))) (OpenaiKey framing) "diff"
              "davinci" globals.Davinci 16 half half half half 1 Hd Hr) as (j & _ & _ & Hs).
  assert (Hin : Inner (Sent (postRequest (endpoint (globals.Chat globals.Davinci))
                               (OpenaiKey framing) j))
                ∈ fst (request_main.RequestApi (stub "{}" (inr (response None [])))
                         framing "diff" "davinci" 16 half half half half 1)).
  { unfold request_main.RequestApi, trace in *.
    destruct (request.RequestImprovements _ _ _ _ _ _ _ _ _ _) as [tr [[answers err]|v]];
      cbn [fst snd] in *.
    - destruct (request_main.printImprovements framing answers) as [tp e].
      cbn [fst]. rewrite !elem_of_app. left. apply list_elem_of_fmap.
      eexists. split; [reflexivity|]. rewrite !elem_of_app. right. left. exact Hs.
    - apply list_elem_of_fmap. eexists. split; [reflexivity|].
      rewrite elem_of_app. right. exact Hs. }
  eexists. split; [exact Hin|].
  exact (RequestApi_uses_key _ framing "diff" "davinci" 16 half half half half 1 _
           (or_introl Hin)).
Defined.

(** * Properties of the start-up code *)

Lemma length_zero_empty (s : string) : (String.length s =? 0)%nat = true <-> s = EmptyString.
Proof. destruct s; cbn; split; (reflexivity || discriminate). Qed.

(** The environment after [godotenv.Load]: what was set stays, and a
    variable that was not set takes the value of the file when [os.Setenv]
    takes it. *)
Lemma godotenv_Load_lookup (os : OS) (path name : string) :
  snd (godotenv_Load os path) !! name =
  match environ os !! name with
  | Some v => Some v
  | None =>
      match readEnv os path with
      | inl _ => None
      | inr file =>
          match file !! name with
          | Some v => if setenv_ok name v then Some v else None
          | None => None
          end
      end
  end.
Proof.
  unfold godotenv_Load. destruct (readEnv os path) as [e|file]; cbn [snd].
  - destruct (environ os !! name); reflexivity.
  - rewrite lookup_union. destruct (environ os !! name) as [v|] eqn:E.
    + destruct (filter _ file !! name); reflexivity.
    + rewrite (left_id_L None _). rewrite map_lookup_filter.
      destruct (file !! name) as [v|]; cbn; [|reflexivity].
      destruct (setenv_ok name v) eqn:Es.
      * rewrite option_guard_True by reflexivity. reflexivity.
      * rewrite option_guard_False by discriminate. reflexivity.
Qed.

(** X21. The key that [Setup] of the newer [globals] reads: a variable
    OPENAI_KEY of the process environment wins, even an empty one and even
    when the env file cannot be read; without it the key is the one of the
    env file [$HOME/.rgpt.env], when the file is read and holds one that
    [os.Setenv] takes; in every other case the key is empty.  The verbose
    flag is stored as given. *)
Theorem Setup_key (os : OS) (json verbose : bool) :
  let vars := snd (fst (globals_setup.Setup os json verbose)) in
  globals_setup.Verbose vars = verbose
  /\ globals_setup.OpenaiKey vars =
     match environ os !! "OPENAI_KEY" with
     | Some k => k
     | None =>
         match readEnv os (envPath os) with
         | inl _ => EmptyString
         | inr file =>
             match file !! "OPENAI_KEY" with
             | Some k => if hasByte 0 k then EmptyString else k
             | None => EmptyString
             end
         end
     end.
Proof.
  unfold globals_setup.Setup.
  change (Getenv (environ os) "HOME" +:+ "/" +:+ ".rgpt.env") with (envPath os).
  pose proof (godotenv_Load_lookup os (envPath os) "OPENAI_KEY") as L.
  destruct (godotenv_Load os (envPath os)) as [err env]. cbn [snd] in L.
  cbn [fst snd globals_setup.Verbose globals_setup.OpenaiKey].
  split; [reflexivity|].
  unfold Getenv at 1. rewrite L.
  destruct (environ os !! "OPENAI_KEY"); [reflexivity|].
  destruct (readEnv os (envPath os)) as [e|file]; [reflexivity|].
  destruct (file !! "OPENAI_KEY") as [k|]; [|reflexivity].
  unfold setenv_ok.
  change (negb (String.eqb "OPENAI_KEY" EmptyString) && negb (hasByte 61 "OPENAI_KEY")
          && negb (hasByte 0 "OPENAI_KEY")) with true.
  cbn [andb]. destruct (hasByte 0 k); reflexivity.
Qed.

(** X22. [Setup] of the newer [globals] does not change the variables
    that the process has: every variable of the environment keeps its value,
    a new variable comes from the env file with the value it has there, and
    when the file cannot be read the environment is left as it was. *)
Theorem Setup_keeps_environment (os : OS) (json verbose : bool) :
  let env := snd (globals_setup.Setup os json verbose) in
  (forall name v, environ os !! name = Some v -> env !! name = Some v)
  /\ (forall name v, env !! name = Some v -> environ os !! name = None ->
        exists file, readEnv os (envPath os) = inr file /\ file !! name = Some v)
  /\ (forall e, readEnv os (envPath os) = inl e -> env = environ os).
Proof.
  unfold globals_setup.Setup.
  change (Getenv (environ os) "HOME" +:+ "/" +:+ ".rgpt.env") with (envPath os).
  pose proof (godotenv_Load_lookup os (envPath os)) as L.
  assert (Le : forall e, readEnv os (envPath os) = inl e ->
               snd (godotenv_Load os (envPath os)) = environ os).
  { intros e He. unfold godotenv_Load. rewrite He. reflexivity. }
  destruct (godotenv_Load os (envPath os)) as [err env]. cbn [snd] in *.
  split; [|split].
  - intros name v H. rewrite L, H. reflexivity.
  - intros name v H Hn. rewrite L, Hn in H.
    destruct (readEnv os (envPath os)) as [e|file]; [discriminate|].
    exists file. split; [reflexivity|].
    destruct (file !! name) as [v'|]; [|discriminate].
    destruct (setenv_ok name v'); congruence.
  - exact Le.
Qed.

(** X23. What [Setup] of the newer [globals] logs, all at error level and
    without ending the process: an entry that the key is empty exactly when
    the key it read is empty; and an entry with the error of the loading
    exactly when the env file could not be read, preceded by the hint at
    the installation notes exactly when the text of that error contains
    "no such file". *)
Theorem Setup_log (os : OS) (json verbose : bool) :
  let log := fst (fst (globals_setup.Setup os json verbose)) in
  let vars := snd (fst (globals_setup.Setup os json verbose)) in
  List.map message log =
  match readEnv os (envPath os) with
  | inl e =>
      (if occurs "no such file" (Error e)
       then ["Env file not found. Did you follow the instructions in the INSTALLATION.md?"]
       else [])
      ++ ["Error while loading environment variable"]
  | inr _ => []
  end
  ++ (if String.eqb (globals_setup.OpenaiKey vars) EmptyString
      then ["Open Ai API Key is empty"] else [])
  /\ (forall entry e, entry ∈ log -> errField entry = Some e ->
        readEnv os (envPath os) = inl e).
Proof.
  unfold globals_setup.Setup.
  change (Getenv (environ os) "HOME" +:+ "/" +:+ ".rgpt.env") with (envPath os).
  unfold godotenv_Load.
  destruct (readEnv os (envPath os)) as [e|file];
    cbn [fst snd globals_setup.OpenaiKey];
    rewrite length_zero_eqb.
  - split.
    + destruct (occurs "no such file" (Error e)), (String.eqb _ EmptyString); reflexivity.
    + intros entry e' Hin He.
      destruct (occurs "no such file" (Error e)), (String.eqb _ EmptyString);
        cbn in Hin;
        repeat (apply elem_of_cons in Hin; destruct Hin as [->|Hin];
                [cbn in He; congruence|]);
        inversion Hin.
  - split.
    + destruct (String.eqb _ EmptyString); reflexivity.
    + intros entry e' Hin He.
      destruct (String.eqb _ EmptyString); cbn in Hin;
        repeat (apply elem_of_cons in Hin; destruct Hin as [->|Hin];
                [cbn in He; congruence|]);
        inversion Hin.
Qed.

(** X24. [Setup] of [pkg/globals/globals.go] ends the process when the
    env file cannot be read, with a fixed hint when the text of the error
    contains "no such file" and with the error itself otherwise; when the
    file is read, it ends with the key and the environment that [Setup] of
    the newer [globals] ends with. *)
Theorem Setup_orig (os : OS) (json verbose : bool) :
  match readEnv os (envPath os) with
  | inl e =>
      globals_orig.Setup os
      = globals_orig.Fatalln
          (if occurs "no such file" (Error e)
           then errorString
                  ".rgpt.env not found. Did you follow the instructions in the INSTALLATION.md?"
           else e)
  | inr _ =>
      globals_orig.Setup os
      = globals_orig.Ready
          {| globals_orig.EnvFile := ".rgpt.env";
             globals_orig.OpenaiKey :=
               globals_setup.OpenaiKey (snd (fst (globals_setup.Setup os json verbose))) |}
          (snd (globals_setup.Setup os json verbose))
  end.
Proof.
  unfold globals_orig.Setup, globals_setup.Setup.
  change (Getenv (environ os) "HOME" +:+ "/" +:+ ".rgpt.env") with (envPath os).
  unfold godotenv_Load.
  destruct (readEnv os (envPath os)) as [e|file]; cbn [fst snd globals_setup.OpenaiKey].
  - destruct (occurs "no such file" (Error e)); reflexivity.
  - reflexivity.
Qed.

(** A process that has exported PATH, with an env file that sets PATH and
    OPENAI_KEY: PATH keeps its value. *)
Lemma Setup_keeps_environment_witness :
  snd (globals_setup.Setup
         (machine [("HOME", "/home/u"); ("PATH", "/bin")]
                  (inr [("PATH", "/tmp"); ("OPENAI_KEY", "sk-1")])) false false)
    !! "PATH" = Some "/bin".
Proof.
  assert (H : environ (machine [("HOME", "/home/u"); ("PATH", "/bin")]
                               (inr [("PATH", "/tmp"); ("OPENAI_KEY", "sk-1")]))
                !! "PATH" = Some "/bin") by (vm_compute; reflexivity).
  exact (proj1 (Setup_keeps_environment
                  (machine [("HOME", "/home/u"); ("PATH", "/bin")]
                           (inr [("PATH", "/tmp"); ("OPENAI_KEY", "sk-1")])) false false)
           "PATH" "/bin" H).
Defined.

(** A process without an env file and without a key: three entries, the
    second with the error of the loading. *)
Lemma Setup_log_witness :
  List.map message
    (fst (fst (globals_setup.Setup
                 (machine [("HOME", "/home/u")]
                    (inl (errorString "open /home/u/.rgpt.env: no such file or directory")))
                 false false)))
  = ["Env file not found. Did you follow the instructions in the INSTALLATION.md?";
     "Error while loading environment variable"; "Open Ai API Key is empty"]
  /\ readEnv (machine [("HOME", "/home/u")]
                (inl (errorString "open /home/u/.rgpt.env: no such file or directory")))
       (envPath (machine [("HOME", "/home/u")]
                   (inl (errorString "open /home/u/.rgpt.env: no such file or directory"))))
     = inl (errorString "open /home/u/.rgpt.env: no such file or directory").
Proof.
  pose (m := machine [("HOME", "/home/u")]
               (inl (errorString "open /home/u/.rgpt.env: no such file or directory"))).
  pose (entry := {| fields := []; errField := Some (errorString
                      "open /home/u/.rgpt.env: no such file or directory");
                    message := "Error while loading environment variable" |}).
  assert (E : fst (fst (globals_setup.Setup m false false))
              = [ {| fields := [("Env File", ".rgpt.env"); ("Home env var", "/home/u")];
                     errField := Some (errorString
                       "open /home/u/.rgpt.env: no such file or directory");
                     message := "Env file not found. Did you follow the instructions in the INSTALLATION.md?" |};
                  entry;
                  {| fields := [("Env file", ".rgpt.env")]; errField := None;
                     message := "Open Ai API Key is empty" |} ])
    by (vm_compute; reflexivity).
  assert (Hin : entry ∈ fst (fst (globals_setup.Setup m false false))).
  { rewrite E. apply elem_of_cons. right. apply elem_of_cons. left. reflexivity. }
  split.
  - fold m. rewrite E. reflexivity.
  - exact (proj2 (Setup_log m false false) entry _ Hin eq_refl).
Defined.

(** * The two copies side by side *)

Lemma requestJSON_same_failure (w : World) (model : globals.Model) (gitDiff : string)
    (maxtokens : int) (t p f pr : float64) (b : int) :
  match requestJSON model gitDiff maxtokens t p f pr b,
        requestJSON_orig w model gitDiff maxtokens t p f pr b with
  | inl e, inl e' => e = e'
  | inr _, inr _ => True
  | _, _ => False
  end.
Proof.
  unfold requestJSON, requestJSON_orig, request.configureParams, request.createRequestBody,
    request.withPrompt, request_orig.withPrompt.
  destruct (globals.Chat model);
    unfold request.Marshal_ChatBody, request.Marshal_Body, bindE;
    cbn [ChatBody.Temperature ChatBody.Top_P ChatBody.Frequence_Pen ChatBody.Presence_Pen
         Body.Temperature Body.Top_P Body.Frequence_Pen Body.Presence_Pen];
    destruct (json.encFloat t); try reflexivity;
    destruct (json.encFloat p); try reflexivity;
    destruct (json.encFloat f); try reflexivity;
    destruct (json.encFloat pr); try reflexivity; exact I.
Qed.

(** X25. The refactoring kept the outcome: against a transport whose
    answer does not depend on the request, [RequestImprovements] of
    [request.go] and of the older copy end the same way on the same
    arguments, with the same error or the same comments or the same panic,
    and each sends a request exactly when the other does. *)
Theorem copies_agree (w : World) (key gitDiff alias : string) (maxtokens : int)
    (t p f pr : float64) (b : int) :
  (forall req req', Do w req = Do w req') ->
  result (request.RequestImprovements w key gitDiff alias maxtokens t p f pr b)
    = result (request_orig.RequestImprovements w key gitDiff alias maxtokens t p f pr b)
  /\ length (requests (trace (request.RequestImprovements w key gitDiff alias maxtokens
                                t p f pr b)))
     = length (requests (trace (request_orig.RequestImprovements w key gitDiff alias
                                  maxtokens t p f pr b))).
Proof.
  intros Hd. rewrite requests_request, requests_request_orig, request_shape,
    request_orig_shape.
  destruct (request.CheckFormat _ _) as [e|]; [split; reflexivity|].
  pose proof (requestJSON_same_failure w (modelOf alias) gitDiff maxtokens t p f pr b) as J.
  destruct (requestJSON _ _ _ _ _ _ _ _) as [e|j],
           (requestJSON_orig _ _ _ _ _ _ _ _ _) as [e'|j']; try contradiction.
  - subst e'. split; reflexivity.
  - cbv zeta. split; [|reflexivity]. unfold result, interpret. cbn [snd].
    rewrite (Hd (postRequest (endpoint (globals.Chat (modelOf alias))) key j)
               (postRequest (endpoint (globals.Chat (modelOf alias))) key j')).
    reflexivity.
Qed.

(** A stubbed transport, a chat model and a diff of two lines. *)
Lemma copies_agree_witness :
  result (request.RequestImprovements
            (stub "{}" (inr (response None [choice EmptyString "looks fine" 0])))
            "sk-1" ("+a" +:+ nl +:+ "-b") "gpt4" 16 half half half half 1)
  = result (request_orig.RequestImprovements
              (stub "{}" (inr (response None [choice EmptyString "looks fine" 0])))
              "sk-1" ("+a" +:+ nl +:+ "-b") "gpt4" 16 half half half half 1).
Proof.
  exact (proj1 (copies_agree
                  (stub "{}" (inr (response None [choice EmptyString "looks fine" 0])))
                  "sk-1" ("+a" +:+ nl +:+ "-b") "gpt4" 16 half half half half 1
                  (fun _ _ => eq_refl))).
Defined.
